(** * Project-management REST API: access rules of the resource handlers

    A shallow embedding of the Express/Mongoose controllers
    ([controllers/projectController.js], [controllers/taskController.js],
    [controllers/userController.js]) together with the middleware
    [middleware/roles.js], and the properties of the authorization and
    persistence behaviour that the specification states about them.

    Every handler is an [async] function whose body is a [try]/[catch]
    around a sequence of repository calls.  It is embedded as a function
    from the database to the database after the request and the response
    that was sent.  Exceptions do not undo writes: the database reached
    when the exception was raised is the database the request leaves. *)

From stdpp Require Import gmap strings list fin_maps.
From Stdlib Require Import Ascii String.

#[local] Open Scope string_scope.

(** ** Object identifiers *)

(** The handlers call [findByIdAndRemove], so they run on a Mongoose whose
    ObjectId constructor takes two kinds of strings: 12 characters of one
    byte each, which become the 12 bytes of the identifier, and 24
    hexadecimal digits in either case.  [toString] on an ObjectId gives its
    bytes as 24 hexadecimal digits in lower case.  Stored identifiers are
    kept in that canonical form, and a string that does not cast makes the
    query raise a [CastError] of kind [ObjectId].  Strings are sequences of
    bytes (the UTF-8 form of the text): a text of 12 characters has 12 bytes
    exactly when every byte is below 128. *)
Module ObjectId.

Definition is_hex (c : ascii) : bool :=
  let n := N_of_ascii c in
  ((48 <=? n) && (n <=? 57) || (97 <=? n) && (n <=? 102)
   || (65 <=? n) && (n <=? 70))%N.

Definition lower (c : ascii) : ascii :=
  let n := N_of_ascii c in
  if ((65 <=? n) && (n <=? 90))%N then ascii_of_N (n + 32) else c.

Fixpoint all_hex (s : string) : bool :=
  match s with
  | EmptyString => true
  | String c s' => is_hex c && all_hex s'
  end.

Fixpoint toLowerCase (s : string) : string :=
  match s with
  | EmptyString => EmptyString
  | String c s' => String (lower c) (toLowerCase s')
  end.

Definition is_ascii (c : ascii) : bool := (N_of_ascii c <? 128)%N.

Fixpoint all_ascii (s : string) : bool :=
  match s with
  | EmptyString => true
  | String c s' => is_ascii c && all_ascii s'
  end.

Definition hex_digit (n : N) : ascii :=
  ascii_of_N (if (n <? 10)%N then 48 + n else 87 + n).

Fixpoint toHexString (bytes : string) : string :=
  match bytes with
  | EmptyString => EmptyString
  | String c s' =>
      let n := N_of_ascii c in
      String (hex_digit (n / 16)) (String (hex_digit (n mod 16)) (toHexString s'))
  end.

Definition cast (s : string) : option string :=
  if (String.length s =? 12)%nat && all_ascii s then Some (toHexString s)
  else if (String.length s =? 24)%nat && all_hex s then Some (toLowerCase s)
  else None.

(** The identifiers a handler can read back from a stored document. *)
Definition canonical (s : string) : Prop := cast s = Some s.

End ObjectId.

(** ** Data model *)

(** Modelled from the spec: the schema files [models/User.js],
    [models/Project.js] and [models/Task.js] are not among the sources; the
    fields are those of the data model (section 3) and of the payloads the
    controllers read and write.  References are object identifiers, optional
    scalar fields are [option]. *)
Record User := mkUser {
  u_name : string;
  u_email : string;
  u_password : string;
  u_role : string
}.

Record Project := mkProject {
  p_name : string;
  p_description : string;
  p_manager : string;
  p_team : list string;
  p_status : option string;
  p_startDate : option string;
  p_endDate : option string
}.

Record Task := mkTask {
  t_title : string;
  t_description : string;
  t_project : string;
  t_assignedTo : option string;
  t_status : option string;
  t_priority : option string;
  t_dueDate : option string;
  t_createdBy : string
}.

(** The three collections, keyed by [_id]. *)
Record Db := mkDb {
  users : gmap string User;
  projects : gmap string Project;
  tasks : gmap string Task
}.

Definition set_users (f : gmap string User → gmap string User) (db : Db) : Db :=
  mkDb (f (users db)) (projects db) (tasks db).
Definition set_projects (f : gmap string Project → gmap string Project) (db : Db) : Db :=
  mkDb (users db) (f (projects db)) (tasks db).
Definition set_tasks (f : gmap string Task → gmap string Task) (db : Db) : Db :=
  mkDb (users db) (projects db) (f (tasks db)).

(** [req.user], attached by the authentication middleware from the token. *)
Record Actor := mkActor { a_id : string; a_role : string }.

(** ** Request payloads *)

(** A payload field is absent ([undefined]) or a JSON string; [team] is
    absent or an array of strings. *)
Definition truthy (v : option string) : bool :=
  match v with
  | Some s => negb (bool_decide (s = ""))
  | None => false
  end.

(** [if (x) fields.x = x]: the field enters the [$set] document only when
    its request value is truthy. *)
Definition pick (v : option string) : option string :=
  if truthy v then v else None.

Record UserBody := mkUserBody {
  ub_name : option string;
  ub_email : option string;
  ub_role : option string
}.

Record ProjectBody := mkProjectBody {
  pb_name : option string;
  pb_description : option string;
  pb_manager : option string;
  pb_team : option (list string);
  pb_status : option string;
  pb_startDate : option string;
  pb_endDate : option string
}.

Record TaskBody := mkTaskBody {
  tb_title : option string;
  tb_description : option string;
  tb_project : option string;
  tb_assignedTo : option string;
  tb_status : option string;
  tb_priority : option string;
  tb_dueDate : option string
}.

Record TaskQuery := mkTaskQuery {
  q_project : option string;
  q_assignedTo : option string;
  q_status : option string;
  q_priority : option string
}.

(** ** Documents as the handlers see them *)

(** A path that [populate] was asked to expand holds the referenced
    document, or [null] when the reference does not resolve. *)
Inductive Populated (A : Type) : Type :=
| Unpopulated
| Expanded (doc : option A).
Arguments Unpopulated {A}.
Arguments Expanded {A} doc.

(** [populate(path, 'name email')] on a user reference. *)
Record UserRef := mkUserRef { ur_id : string; ur_name : string; ur_email : string }.

(** [populate('project', select)]: only the selected paths are loaded. *)
Record ProjectRef := mkProjectRef {
  pr_id : string;
  pr_name : option string;
  pr_manager : option string;
  pr_team : option (list string)
}.

Record ProjectDoc := mkProjectDoc {
  pd_id : string;
  pd_fields : Project;
  pd_manager : Populated UserRef;
  pd_team : option (list UserRef)
}.

Record TaskDoc := mkTaskDoc {
  td_id : string;
  td_fields : Task;
  td_project : Populated ProjectRef;
  td_assignedTo : Populated UserRef
}.

(** [select('-password')]. *)
Record UserDoc := mkUserDoc {
  ud_id : string;
  ud_name : string;
  ud_email : string;
  ud_role : string
}.

(** ** Responses *)

Inductive Payload :=
| Msg (msg : string)                  (* res.json({ msg }) *)
| Errors (errs : list string)         (* res.json({ errors }) *)
| Text (s : string)                   (* res.send(s) *)
| OneProject (p : ProjectDoc)
| ManyProjects (ps : list ProjectDoc)
| OneTask (t : TaskDoc)
| ManyTasks (ts : list TaskDoc)
| OneUser (u : UserDoc)
| ManyUsers (us : list UserDoc)
| Null.                               (* res.json(null) *)

Record Response := mkResponse { status : nat; payload : Payload }.

(** [res.json(x)] without [res.status] answers 200. *)
Definition json (p : Payload) : Response := mkResponse 200 p.
Definition status_json (code : nat) (msg : string) : Response := mkResponse code (Msg msg).
Definition server_error : Response := mkResponse 500 (Text "Server error").

(** ** Exceptions and the handler monad *)

Inductive Error :=
| CastError (kind : string)        (* a value that does not cast to its schema type *)
| ValidationError                  (* document validation failed on save *)
| DuplicateKey                     (* unique index violated *)
| TypeError                        (* property read on null *)
| ReferenceError (name : string).  (* identifier that is not defined *)

(** [err.kind] *)
Definition kind (e : Error) : option string :=
  match e with
  | CastError k => Some k
  | _ => None
  end.

(** A computation reads and writes the database and either raises or
    returns.  The database component is the one reached so far, also when
    an exception is raised. *)
Definition M (A : Type) : Type := Db → Db * (Error + A).

Definition ret {A} (x : A) : M A := λ db, (db, inr x).
Definition throw {A} (e : Error) : M A := λ db, (db, inl e).
Definition bind {A B} (m : M A) (k : A → M B) : M B :=
  λ db, match m db with
        | (db', inl e) => (db', inl e)
        | (db', inr x) => k x db'
        end.
Definition get : M Db := λ db, (db, inr db).
Definition modify (f : Db → Db) : M unit := λ db, (f db, inr tt).

Notation "'let*' x ':=' m 'in' k" := (bind m (λ x, k))
  (at level 10, x name, m at level 100, k at level 200, only parsing).

(** A handler: the database after the request and the response sent. *)
Definition Handler : Type := Db → Db * Response.

(** [try { ... } catch (err) { ... }] around a handler body. *)
Definition try_catch (body : M Response) (handle : Error → Response) : Handler :=
  λ db, match body db with
        | (db', inl e) => (db', handle e)
        | (db', inr r) => (db', r)
        end.

(** The [catch] blocks of the controllers. *)
Definition catch_500 (err : Error) : Response := server_error.
Definition catch_ObjectId (msg : string) (err : Error) : Response :=
  if bool_decide (kind err = Some "ObjectId") then status_json 404 msg
  else server_error.

(** Property access on a value that may be [null]. *)
Definition deref {A} (x : option A) : M A :=
  match x with
  | Some a => ret a
  | None => throw TypeError
  end.

(** [doc.path] of a path that the query populated. *)
Definition expanded {A} (x : Populated A) : option A :=
  match x with
  | Expanded doc => doc
  | Unpopulated => None
  end.

(** [res.json(doc)] of the result of a query, which may be [null]. *)
Definition json_doc {A} (f : A → Payload) (doc : option A) : Response :=
  json (from_option f Null doc).

(** [if (!errors.isEmpty()) return res.status(400).json({ errors })] at the
    head of a handler; [errors] is [validationResult(req)]. *)
Definition validated (errors : list string) (next : Handler) : Handler :=
  λ db, match errors with
        | [] => next db
        | _ => (db, mkResponse 400 (Errors errors))
        end.

(** Casting of an identifier inside a query or an update. *)
Definition castId (s : string) : M string :=
  match ObjectId.cast s with
  | Some k => ret k
  | None => throw (CastError "ObjectId")
  end.


(** [new Model({ ref: x })] followed by [save()]: a reference that does not
    cast fails validation. *)
Definition validateId (s : string) : M string :=
  match ObjectId.cast s with
  | Some k => ret k
  | None => throw ValidationError
  end.

(** Modelled from the spec: the schema files are not among the sources; the
    paths that the routes require of a new document ([name], [description];
    [title], [description], [project]) are taken to be required by the
    schemas, so that [save()] fails validation when one is absent. *)
Definition required (v : option string) : M string :=
  match v with
  | Some s => ret s
  | None => throw ValidationError
  end.

(** ** Repositories: the Mongoose models *)

(** [populate(path, 'name email')] of one user reference: [null] when no
    user has that id. *)
Definition populateUser (db : Db) (uid : string) : option UserRef :=
  (λ u, mkUserRef uid (u_name u) (u_email u)) <$> users db !! uid.

(** On an array path the references that do not resolve are dropped. *)
Definition populateUsers (db : Db) (uids : list string) : list UserRef :=
  omap (populateUser db) uids.

Definition selected (path : string) (select : list string) : bool :=
  bool_decide (path ∈ select).

(** [populate('project', select)] of one project reference. *)
Definition populateProject (select : list string) (db : Db) (pid : string)
  : option ProjectRef :=
  (λ p, mkProjectRef pid
          (if selected "name" select then Some (p_name p) else None)
          (if selected "manager" select then Some (p_manager p) else None)
          (if selected "team" select then Some (p_team p) else None))
  <$> projects db !! pid.

Module UserModel.

Definition doc (kv : string * User) : UserDoc :=
  mkUserDoc kv.1 (u_name kv.2) (u_email kv.2) (u_role kv.2).

(** [User.find().select('-password')] *)
Definition find : M (list UserDoc) :=
  let* db := get in ret (doc <$> map_to_list (users db)).

(** [User.findById(id)] *)
Definition findById (id : string) : M (option (string * User)) :=
  let* k := castId id in
  let* db := get in
  ret ((λ u, (k, u)) <$> users db !! k).

(** The [$set] document built by [updateUser]. *)
Record Fields := mkFields {
  name : option string;
  email : option string;
  role : option string
}.

Definition set (f : Fields) (u : User) : User :=
  mkUser (default (u_name u) (name f)) (default (u_email u) (email f))
         (u_password u) (default (u_role u) (role f)).

(** Modelled from the spec: [email] is unique among users (section 3);
    the index that enforces it is declared in the schema file, which is
    not among the sources. *)
Definition emailTaken (db : Db) (k : string) (e : option string) : bool :=
  match e with
  | Some e =>
      existsb (λ kv : string * User,
                 negb (bool_decide (kv.1 = k)) && bool_decide (u_email kv.2 = e))
              (map_to_list (users db))
  | None => false
  end.

(** [User.findByIdAndUpdate(id, { $set: fields }, { new: true })] *)
Definition findByIdAndUpdate (id : string) (f : Fields)
  : M (option (string * User)) :=
  let* k := castId id in
  let* db := get in
  match users db !! k with
  | None => ret None
  | Some u =>
      if emailTaken db k (email f) then throw DuplicateKey
      else
        let* _ := modify (set_users <[k := set f u]>) in
        ret (Some (k, set f u))
  end.

(** [User.findByIdAndRemove(id)] *)
Definition findByIdAndRemove (id : string) : M unit :=
  let* k := castId id in
  modify (set_users (delete k)).

End UserModel.

Module ProjectModel.

Definition plain (kv : string * Project) : ProjectDoc :=
  mkProjectDoc kv.1 kv.2 Unpopulated None.

(** [.populate('manager', 'name email').populate('team', 'name email')] *)
Definition populate (db : Db) (kv : string * Project) : ProjectDoc :=
  mkProjectDoc kv.1 kv.2
    (Expanded (populateUser db (p_manager kv.2)))
    (Some (populateUsers db (p_team kv.2))).

(** [Project.findById(id)]; [findById(undefined)] finds nothing. *)
Definition findById (id : option string) : M (option (string * Project)) :=
  match id with
  | None => ret None
  | Some id =>
      let* k := castId id in
      let* db := get in
      ret ((λ p, (k, p)) <$> projects db !! k)
  end.

Definition findById_populated (id : string) : M (option ProjectDoc) :=
  let* project := findById (Some id) in
  let* db := get in
  ret (populate db <$> project).

(** The filters the controllers pass to [Project.find]. *)
Inductive Filter :=
| All                              (* find() *)
| ManagerOrTeam (uid : string)     (* { $or: [{ manager: uid }, { team: uid }] } *)
| TeamHas (uid : string).          (* { team: uid } *)

Definition matches (f : Filter) (p : Project) : bool :=
  match f with
  | All => true
  | ManagerOrTeam uid =>
      bool_decide (p_manager p = uid) || bool_decide (uid ∈ p_team p)
  | TeamHas uid => bool_decide (uid ∈ p_team p)
  end.

Definition castFilter (f : Filter) : M Filter :=
  match f with
  | All => ret All
  | ManagerOrTeam uid => let* k := castId uid in ret (ManagerOrTeam k)
  | TeamHas uid => let* k := castId uid in ret (TeamHas k)
  end.

Definition find (f : Filter) : M (list (string * Project)) :=
  let* f := castFilter f in
  let* db := get in
  ret (List.filter (λ kv : string * Project, matches f kv.2)
                   (map_to_list (projects db))).

(** [new Project({ ... })] with the generated [_id], then [save()]. *)
Definition create (oid : string) (name description : option string)
    (manager : string) (team : list string)
    (status startDate endDate : option string) : M (string * Project) :=
  let* name := required name in
  let* description := required description in
  let* manager := validateId manager in
  let* team := match mapM ObjectId.cast team with
               | Some team => ret team
               | None => throw ValidationError
               end in
  let project := mkProject name description manager team status startDate endDate in
  let* _ := modify (set_projects <[oid := project]>) in
  ret (oid, project).

(** [project.save()] of a document loaded by [findById]. *)
Definition save (kv : string * Project) : M unit :=
  modify (set_projects <[kv.1 := kv.2]>).

(** The [$set] document built by [updateProject]. *)
Record Fields := mkFields {
  name : option string;
  description : option string;
  manager : option string;
  team : option (list string);
  status : option string;
  startDate : option string;
  endDate : option string
}.

(** A reference that does not cast raises a [CastError] of kind [ObjectId];
    inside an array the error is raised again with the kind of the array. *)
Definition castFields (f : Fields) : M Fields :=
  let* manager := match manager f with
                  | Some m => let* k := castId m in ret (Some k)
                  | None => ret None
                  end in
  let* team := match team f with
               | Some t => match mapM ObjectId.cast t with
                           | Some t => ret (Some t)
                           | None => throw (CastError "[ObjectId]")
                           end
               | None => ret None
               end in
  ret (mkFields (name f) (description f) manager team (status f)
                (startDate f) (endDate f)).

Definition keep {A} (old : option A) (new : option A) : option A :=
  match new with
  | Some x => Some x
  | None => old
  end.

Definition set (f : Fields) (p : Project) : Project :=
  mkProject (default (p_name p) (name f))
            (default (p_description p) (description f))
            (default (p_manager p) (manager f))
            (default (p_team p) (team f))
            (keep (p_status p) (status f))
            (keep (p_startDate p) (startDate f))
            (keep (p_endDate p) (endDate f)).

(** [Project.findByIdAndUpdate(id, { $set: fields }, { new: true })] *)
Definition findByIdAndUpdate (id : string) (f : Fields)
  : M (option (string * Project)) :=
  let* k := castId id in
  let* f := castFields f in
  let* db := get in
  match projects db !! k with
  | None => ret None
  | Some p =>
      let* _ := modify (set_projects <[k := set f p]>) in
      ret (Some (k, set f p))
  end.

(** [Project.findByIdAndRemove(id)] *)
Definition findByIdAndRemove (id : string) : M unit :=
  let* k := castId id in
  modify (set_projects (delete k)).

End ProjectModel.

Module TaskModel.

Definition plain (kv : string * Task) : TaskDoc :=
  mkTaskDoc kv.1 kv.2 Unpopulated Unpopulated.

(** [.populate('project', select)] *)
Definition populate_project (select : list string) (db : Db) (d : TaskDoc)
  : TaskDoc :=
  mkTaskDoc (td_id d) (td_fields d)
    (Expanded (populateProject select db (t_project (td_fields d))))
    (td_assignedTo d).

(** [.populate('assignedTo', 'name email')] *)
Definition populate_assignedTo (db : Db) (d : TaskDoc) : TaskDoc :=
  mkTaskDoc (td_id d) (td_fields d) (td_project d)
    (Expanded (t_assignedTo (td_fields d) ≫= populateUser db)).

(** [Task.findById(id)] *)
Definition findById (id : string) : M (option (string * Task)) :=
  let* k := castId id in
  let* db := get in
  ret ((λ t, (k, t)) <$> tasks db !! k).

(** The conditions the controllers put on a path of the filter. *)
Inductive Cond :=
| Any                          (* the path is not in the filter *)
| Eq (v : string)              (* { path: v } *)
| In (ids : list string)       (* { path: { $in: ids } } *)
| NotExists.                   (* { path: { $exists: false } } *)

Record Filter := mkFilter {
  project : Cond;
  status : option string;
  priority : option string;
  assignedTo : Cond
}.

(** A string compared with a reference path is cast to an ObjectId; the
    ids under [$in] are ObjectIds already. *)
Definition castCond (c : Cond) : M Cond :=
  match c with
  | Eq v => let* k := castId v in ret (Eq k)
  | c => ret c
  end.

Definition holds (c : Cond) (v : option string) : bool :=
  match c with
  | Any => true
  | Eq k => bool_decide (v = Some k)
  | In ids => match v with
              | Some x => bool_decide (x ∈ ids)
              | None => false
              end
  | NotExists => bool_decide (v = None)
  end.

Definition holds_scalar (c : option string) (v : option string) : bool :=
  match c with
  | Some s => bool_decide (v = Some s)
  | None => true
  end.

Definition matches (f : Filter) (t : Task) : bool :=
  holds (project f) (Some (t_project t))
  && holds_scalar (status f) (t_status t)
  && holds_scalar (priority f) (t_priority t)
  && holds (assignedTo f) (t_assignedTo t).

(** [Task.find(filter)] *)
Definition find (f : Filter) : M (list (string * Task)) :=
  let* p := castCond (project f) in
  let* a := castCond (assignedTo f) in
  let* db := get in
  ret (List.filter
         (λ kv : string * Task, matches (mkFilter p (status f) (priority f) a) kv.2)
         (map_to_list (tasks db))).

(** [new Task({ ... })] with the generated [_id], then [save()]. *)
Definition create (oid : string) (title description project assignedTo
    status priority dueDate : option string) (createdBy : string)
  : M (string * Task) :=
  let* title := required title in
  let* description := required description in
  let* project := required project in
  let* project := validateId project in
  let* assignedTo := match assignedTo with
                     | Some a => let* k := validateId a in ret (Some k)
                     | None => ret None
                     end in
  let* createdBy := validateId createdBy in
  let task := mkTask title description project assignedTo status priority
                     dueDate createdBy in
  let* _ := modify (set_tasks <[oid := task]>) in
  ret (oid, task).

(** The [$set] document built by [updateTask]. *)
Record Fields := mkFields {
  f_title : option string;
  f_description : option string;
  f_assignedTo : option string;
  f_status : option string;
  f_priority : option string;
  f_dueDate : option string
}.

Definition castFields (f : Fields) : M Fields :=
  let* assignedTo := match f_assignedTo f with
                     | Some a => let* k := castId a in ret (Some k)
                     | None => ret None
                     end in
  ret (mkFields (f_title f) (f_description f) assignedTo (f_status f)
                (f_priority f) (f_dueDate f)).

Definition set (f : Fields) (t : Task) : Task :=
  mkTask (default (t_title t) (f_title f))
         (default (t_description t) (f_description f))
         (t_project t)
         (ProjectModel.keep (t_assignedTo t) (f_assignedTo f))
         (ProjectModel.keep (t_status t) (f_status f))
         (ProjectModel.keep (t_priority t) (f_priority f))
         (ProjectModel.keep (t_dueDate t) (f_dueDate f))
         (t_createdBy t).

(** [Task.findByIdAndUpdate(id, { $set: fields }, { new: true })] *)
Definition findByIdAndUpdate (id : string) (f : Fields)
  : M (option (string * Task)) :=
  let* k := castId id in
  let* f := castFields f in
  let* db := get in
  match tasks db !! k with
  | None => ret None
  | Some t =>
      let* _ := modify (set_tasks <[k := set f t]>) in
      ret (Some (k, set f t))
  end.

(** [Task.findByIdAndRemove(id)] *)
Definition findByIdAndRemove (id : string) : M unit :=
  let* k := castId id in
  modify (set_tasks (delete k)).

(** [Task.deleteMany({ project: id })] *)
Definition deleteMany_project (id : string) : M unit :=
  let* k := castId id in
  modify (set_tasks (filter (λ kv : string * Task, t_project kv.2 ≠ k))).

End TaskModel.

(** ** controllers/projectController.js *)

Module projectController.

Definition getProjects (user : Actor) : Handler :=
  try_catch
    (let* projects :=
       if bool_decide (a_role user = "admin") then
         ProjectModel.find ProjectModel.All
       else if bool_decide (a_role user = "manager") then
         ProjectModel.find (ProjectModel.ManagerOrTeam (a_id user))
       else
         ProjectModel.find (ProjectModel.TeamHas (a_id user)) in
     let* db := get in
     ret (json (ManyProjects (ProjectModel.populate db <$> projects))))
    catch_500.

Definition getProjectById (user : Actor) (id : string) : Handler :=
  try_catch
    (let* project := ProjectModel.findById_populated id in
     match project with
     | None => ret (status_json 404 "Project not found")
     | Some project =>
         let isAdmin := bool_decide (a_role user = "admin") in
         let* manager := deref (expanded (pd_manager project)) in
         let isManager := bool_decide (a_id user = ur_id manager) in
         let* team := deref (pd_team project) in
         let isTeamMember :=
           existsb (λ member, bool_decide (ur_id member = a_id user)) team in
         if negb isAdmin && negb isManager && negb isTeamMember then
           ret (status_json 403 "Not authorized to view this project")
         else ret (json (OneProject project))
     end)
    (catch_ObjectId "Project not found").

Definition createProject (oid : string) (user : Actor) (errors : list string)
    (body : ProjectBody) : Handler :=
  validated errors
    (try_catch
       (if negb (bool_decide (a_role user = "admin"))
           && negb (bool_decide (a_role user = "manager")) then
          ret (status_json 403 "Not authorized to create projects")
        else
          let* project :=
            ProjectModel.create oid (pb_name body) (pb_description body)
              (default (a_id user) (pick (pb_manager body)))
              (default [] (pb_team body))
              (pb_status body) (pb_startDate body) (pb_endDate body) in
          let* populatedProject := ProjectModel.findById_populated project.1 in
          (* res.json(populatedTask): no such identifier is in scope *)
          throw (ReferenceError "populatedTask"))
       catch_500).

(** [const projectFields = {}; if (name) projectFields.name = name; ...];
    an array is truthy, also when it is empty. *)
Definition projectFields (body : ProjectBody) : ProjectModel.Fields :=
  ProjectModel.mkFields
    (pick (pb_name body)) (pick (pb_description body))
    (pick (pb_manager body)) (pb_team body)
    (pick (pb_status body)) (pick (pb_startDate body))
    (pick (pb_endDate body)).

Definition updateProject (user : Actor) (id : string) (errors : list string)
    (body : ProjectBody) : Handler :=
  validated errors
    (try_catch
       (let* project := ProjectModel.findById (Some id) in
        match project with
        | None => ret (status_json 404 "Project not found")
        | Some project =>
            let isAdmin := bool_decide (a_role user = "admin") in
            let isManager := bool_decide (a_id user = p_manager project.2) in
            if negb isAdmin && negb isManager then
              ret (status_json 403 "Not authorized to update this project")
            else
              let* project :=
                ProjectModel.findByIdAndUpdate id (projectFields body) in
              let* db := get in
              ret (json_doc OneProject (ProjectModel.populate db <$> project))
        end)
       (catch_ObjectId "Project not found")).

Definition deleteProject (user : Actor) (id : string) : Handler :=
  try_catch
    (let* project := ProjectModel.findById (Some id) in
     match project with
     | None => ret (status_json 404 "Project not found")
     | Some project =>
         let isAdmin := bool_decide (a_role user = "admin") in
         let isManager := bool_decide (a_id user = p_manager project.2) in
         if negb isAdmin && negb isManager then
           ret (status_json 403 "Not authorized to delete this project")
         else
           (* Delete all associated tasks first *)
           let* _ := TaskModel.deleteMany_project id in
           (* Delete the project *)
           let* _ := ProjectModel.findByIdAndRemove id in
           ret (json (Msg "Project and associated tasks removed"))
     end)
    (catch_ObjectId "Project not found").

Definition with_team (team : list string) (p : Project) : Project :=
  mkProject (p_name p) (p_description p) (p_manager p) team (p_status p)
            (p_startDate p) (p_endDate p).

Definition addTeamMember (user : Actor) (id : string) (userId : string)
  : Handler :=
  try_catch
    (let* project := ProjectModel.findById (Some id) in
     match project with
     | None => ret (status_json 404 "Project not found")
     | Some project =>
         let isAdmin := bool_decide (a_role user = "admin") in
         let isManager := bool_decide (a_id user = p_manager project.2) in
         if negb isAdmin && negb isManager then
           ret (status_json 403 "Not authorized to update this project")
         else if existsb (λ member, bool_decide (member = userId))
                         (p_team project.2) then
           ret (status_json 400 "User already in team")
         else
           (* project.team.push(userId) casts the pushed value *)
           let* member := castId userId in
           let* _ := ProjectModel.save
                       (project.1,
                        with_team (p_team project.2 ++ [member]) project.2) in
           let* updatedProject := ProjectModel.findById_populated id in
           ret (json_doc OneProject updatedProject)
     end)
    (catch_ObjectId "Project or user not found").

Definition removeTeamMember (user : Actor) (id : string) (userId : string)
  : Handler :=
  try_catch
    (let* project := ProjectModel.findById (Some id) in
     match project with
     | None => ret (status_json 404 "Project not found")
     | Some project =>
         let isAdmin := bool_decide (a_role user = "admin") in
         let isManager := bool_decide (a_id user = p_manager project.2) in
         if negb isAdmin && negb isManager then
           ret (status_json 403 "Not authorized to update this project")
         else if negb (existsb (λ member, bool_decide (member = userId))
                               (p_team project.2)) then
           ret (status_json 400 "User not in team")
         else
           let* _ := ProjectModel.save
                       (project.1,
                        with_team
                          (List.filter (λ member, negb (bool_decide (member = userId)))
                                       (p_team project.2))
                          project.2) in
           let* updatedProject := ProjectModel.findById_populated id in
           ret (json_doc OneProject updatedProject)
     end)
    (catch_ObjectId "Project or user not found").

End projectController.

(** ** controllers/taskController.js *)

Module taskController.

(** [.populate('project', select).populate('assignedTo', 'name email')] *)
Definition populated (select : list string) (db : Db) (kv : string * Task)
  : TaskDoc :=
  TaskModel.populate_assignedTo db
    (TaskModel.populate_project select db (TaskModel.plain kv)).

Definition getTasks (user : Actor) (query : TaskQuery) : Handler :=
  try_catch
    (let project := q_project query in
     let assignedTo := q_assignedTo query in
     let filter :=
       TaskModel.mkFilter
         (match pick project with
          | Some p => TaskModel.Eq p
          | None => TaskModel.Any
          end)
         (pick (q_status query))
         (pick (q_priority query))
         (if bool_decide (assignedTo = Some "me") then TaskModel.Eq (a_id user)
          else if bool_decide (assignedTo = Some "unassigned") then
                 TaskModel.NotExists
          else match pick assignedTo with
               | Some a => TaskModel.Eq a
               | None => TaskModel.Any
               end) in
     let respond (filter : TaskModel.Filter) : M Response :=
       let* tasks := TaskModel.find filter in
       let* db := get in
       ret (json (ManyTasks (populated ["name"] db <$> tasks))) in
     if negb (bool_decide (a_role user = "admin")) then
       let* accessibleProjects :=
         ProjectModel.find (ProjectModel.ManagerOrTeam (a_id user)) in
       let projectIds := fst <$> accessibleProjects in
       if truthy project
          && negb (existsb (λ id, bool_decide (Some id = project)) projectIds)
       then
         ret (status_json 403 "Not authorized to access tasks from this project")
       else
         respond (TaskModel.mkFilter (TaskModel.In projectIds)
                    (TaskModel.status filter) (TaskModel.priority filter)
                    (TaskModel.assignedTo filter))
     else respond filter)
    catch_500.

Definition getTaskById (user : Actor) (id : string) : Handler :=
  try_catch
    (let* task := TaskModel.findById id in
     let* db := get in
     match populated ["name"; "manager"; "team"] db <$> task with
     | None => ret (status_json 404 "Task not found")
     | Some task =>
         let isAdmin := bool_decide (a_role user = "admin") in
         let* project := deref (expanded (td_project task)) in
         let* manager := deref (pr_manager project) in
         let isManager := bool_decide (manager = a_id user) in
         let* team := deref (pr_team project) in
         let isTeamMember :=
           existsb (λ member, bool_decide (member = a_id user)) team in
         let isAssigned :=
           match expanded (td_assignedTo task) with
           | Some assignee => bool_decide (ur_id assignee = a_id user)
           | None => false
           end in
         if negb isAdmin && negb isManager && negb isTeamMember
            && negb isAssigned then
           ret (status_json 403 "Not authorized to view this task")
         else ret (json (OneTask task))
     end)
    (catch_ObjectId "Task not found").

Definition createTask (oid : string) (user : Actor) (errors : list string)
    (body : TaskBody) : Handler :=
  validated errors
    (try_catch
       (let* projectObj := ProjectModel.findById (tb_project body) in
        match projectObj with
        | None => ret (status_json 404 "Project not found")
        | Some projectObj =>
            let isAdmin := bool_decide (a_role user = "admin") in
            let isManager := bool_decide (p_manager projectObj.2 = a_id user) in
            let isTeamMember :=
              existsb (λ member, bool_decide (member = a_id user))
                      (p_team projectObj.2) in
            if negb isAdmin && negb isManager && negb isTeamMember then
              ret (status_json 403 "Not authorized to add tasks to this project")
            else
              let* task :=
                TaskModel.create oid (tb_title body) (tb_description body)
                  (tb_project body) (tb_assignedTo body) (tb_status body)
                  (tb_priority body) (tb_dueDate body) (a_id user) in
              let* populatedTask := TaskModel.findById task.1 in
              let* db := get in
              ret (json_doc OneTask (populated ["name"] db <$> populatedTask))
        end)
       catch_500).

(** [const taskFields = {}; if (title) taskFields.title = title; ...] *)
Definition taskFields (body : TaskBody) : TaskModel.Fields :=
  TaskModel.mkFields
    (pick (tb_title body)) (pick (tb_description body))
    (pick (tb_assignedTo body)) (pick (tb_status body))
    (pick (tb_priority body)) (pick (tb_dueDate body)).

Definition updateTask (user : Actor) (id : string) (errors : list string)
    (body : TaskBody) : Handler :=
  validated errors
    (try_catch
       (let* task := TaskModel.findById id in
        let* db := get in
        match TaskModel.populate_project ["manager"; "team"] db
                <$> (TaskModel.plain <$> task) with
        | None => ret (status_json 404 "Task not found")
        | Some task =>
            let isAdmin := bool_decide (a_role user = "admin") in
            let* project := deref (expanded (td_project task)) in
            let* manager := deref (pr_manager project) in
            let isManager := bool_decide (manager = a_id user) in
            let* team := deref (pr_team project) in
            let isTeamMember :=
              existsb (λ member, bool_decide (member = a_id user)) team in
            let isAssigned :=
              match t_assignedTo (td_fields task) with
              | Some assignee => bool_decide (assignee = a_id user)
              | None => false
              end in
            if negb isAdmin && negb isManager && negb isTeamMember
               && negb isAssigned then
              ret (status_json 403 "Not authorized to update this task")
            else
              let* task := TaskModel.findByIdAndUpdate id (taskFields body) in
              let* db := get in
              ret (json_doc OneTask (populated ["name"] db <$> task))
        end)
       (catch_ObjectId "Task not found")).

Definition deleteTask (user : Actor) (id : string) : Handler :=
  try_catch
    (let* task := TaskModel.findById id in
     let* db := get in
     match TaskModel.populate_project ["manager"; "team"] db
             <$> (TaskModel.plain <$> task) with
     | None => ret (status_json 404 "Task not found")
     | Some task =>
         let isAdmin := bool_decide (a_role user = "admin") in
         let* project := deref (expanded (td_project task)) in
         let* manager := deref (pr_manager project) in
         let isManager := bool_decide (manager = a_id user) in
         (* Only admin and project manager can delete tasks *)
         if negb isAdmin && negb isManager then
           ret (status_json 403 "Not authorized to delete this task")
         else
           let* _ := TaskModel.findByIdAndRemove id in
           ret (json (Msg "Task removed"))
     end)
    (catch_ObjectId "Task not found").

End taskController.

(** ** controllers/userController.js *)

Module userController.

Definition getUsers : Handler :=
  try_catch
    (let* users := UserModel.find in ret (json (ManyUsers users)))
    catch_500.

Definition getUserById (user : Actor) (id : string) : Handler :=
  try_catch
    (let* found := UserModel.findById id in
     match found with
     | None => ret (status_json 404 "User not found")
     | Some found =>
         if negb (bool_decide (a_id user = id))
            && negb (bool_decide (a_role user ∈ ["admin"; "manager"])) then
           ret (status_json 403 "Not authorized to view this user")
         else ret (json (OneUser (UserModel.doc found)))
     end)
    (catch_ObjectId "User not found").

(** [const userFields = {}; if (name) userFields.name = name; ...] *)
Definition userFields (user : Actor) (body : UserBody) : UserModel.Fields :=
  UserModel.mkFields
    (pick (ub_name body)) (pick (ub_email body))
    (* Only admin can update roles *)
    (if truthy (ub_role body) && bool_decide (a_role user = "admin")
     then ub_role body else None).

Definition updateUser (user : Actor) (id : string) (errors : list string)
    (body : UserBody) : Handler :=
  validated errors
    (try_catch
       (let* found := UserModel.findById id in
        match found with
        | None => ret (status_json 404 "User not found")
        | Some found =>
            if negb (bool_decide (a_id user = id))
               && negb (bool_decide (a_role user = "admin")) then
              ret (status_json 403 "Not authorized to update this user")
            else
              let* updated :=
                UserModel.findByIdAndUpdate id (userFields user body) in
              ret (json_doc OneUser (UserModel.doc <$> updated))
        end)
       (catch_ObjectId "User not found")).

Definition deleteUser (user : Actor) (id : string) : Handler :=
  try_catch
    (let* found := UserModel.findById id in
     match found with
     | None => ret (status_json 404 "User not found")
     | Some found =>
         if negb (bool_decide (a_id user = id))
            && negb (bool_decide (a_role user = "admin")) then
           ret (status_json 403 "Not authorized to delete this user")
         else
           let* _ := UserModel.findByIdAndRemove id in
           ret (json (Msg "User removed"))
     end)
    (catch_ObjectId "User not found").

End userController.

(** ** middleware/roles.js *)

Definition authorize (roles : list string) (user : option Actor) (next : Handler)
  : Handler :=
  λ db, match user with
        | None => (db, status_json 401 "Not authorized")
        | Some user =>
            if negb (bool_decide (a_role user ∈ roles)) then
              (db, status_json 403 "Access denied: insufficient permissions")
            else next db
        end.

(** ** The routes *)

Module routes.

(** [check(field, msg).not().isEmpty()] *)
Definition notEmpty (msg : string) (v : option string) : list string :=
  if truthy v then [] else [msg].

(** One request per route of [routes/users.js], [routes/projects.js] and
    [routes/tasks.js], with the authenticated actor.  [oid] is the
    [_id] that [new Project]/[new Task] generates; [emailErrors] is the
    outcome of the [isEmail] validator. *)
Inductive Request :=
| GetUsers (user : Actor)
| GetUserById (user : Actor) (id : string)
| UpdateUser (user : Actor) (id : string) (emailErrors : list string) (body : UserBody)
| DeleteUser (user : Actor) (id : string)
| GetProjects (user : Actor)
| GetProjectById (user : Actor) (id : string)
| CreateProject (oid : string) (user : Actor) (body : ProjectBody)
| UpdateProject (user : Actor) (id : string) (body : ProjectBody)
| DeleteProject (user : Actor) (id : string)
| AddTeamMember (user : Actor) (id : string) (userId : string)
| RemoveTeamMember (user : Actor) (id : string) (userId : string)
| GetTasks (user : Actor) (query : TaskQuery)
| GetTaskById (user : Actor) (id : string)
| CreateTask (oid : string) (user : Actor) (body : TaskBody)
| UpdateTask (user : Actor) (id : string) (body : TaskBody)
| DeleteTask (user : Actor) (id : string).

Definition dispatch (r : Request) : Handler :=
  match r with
  | GetUsers user =>
      authorize ["admin"; "manager"] (Some user) userController.getUsers
  | GetUserById user id => userController.getUserById user id
  | UpdateUser user id emailErrors body =>
      userController.updateUser user id emailErrors body
  | DeleteUser user id => userController.deleteUser user id
  | GetProjects user => projectController.getProjects user
  | GetProjectById user id => projectController.getProjectById user id
  | CreateProject oid user body =>
      authorize ["admin"; "manager"] (Some user)
        (projectController.createProject oid user
           (notEmpty "Name is required" (pb_name body)
            ++ notEmpty "Description is required" (pb_description body))
           body)
  | UpdateProject user id body => projectController.updateProject user id [] body
  | DeleteProject user id => projectController.deleteProject user id
  | AddTeamMember user id userId => projectController.addTeamMember user id userId
  | RemoveTeamMember user id userId =>
      projectController.removeTeamMember user id userId
  | GetTasks user query => taskController.getTasks user query
  | GetTaskById user id => taskController.getTaskById user id
  | CreateTask oid user body =>
      taskController.createTask oid user
        (notEmpty "Title is required" (tb_title body)
         ++ notEmpty "Description is required" (tb_description body)
         ++ notEmpty "Project is required" (tb_project body))
        body
  | UpdateTask user id body => taskController.updateTask user id [] body
  | DeleteTask user id => taskController.deleteTask user id
  end.

(** Requests are served one after the other. *)
Fixpoint serve (rs : list Request) (db : Db) : Db * list Response :=
  match rs with
  | [] => (db, [])
  | r :: rs =>
      let '(db1, resp) := dispatch r db in
      let '(db2, resps) := serve rs db1 in
      (db2, resp :: resps)
  end.

End routes.

(** ** A small database to run the handlers on *)

Module Sample.

Definition a1 : string := "aaaaaaaaaaaaaaaaaaaaaaa1".
Definition u1 : string := "0000000000000000000000a1".
Definition u2 : string := "0000000000000000000000a2".
Definition u3 : string := "0000000000000000000000a3".
Definition p1 : string := "0000000000000000000000b1".
Definition p2 : string := "0000000000000000000000b2".
Definition t1 : string := "0000000000000000000000c1".
Definition t2 : string := "0000000000000000000000c2".
Definition t9 : string := "0000000000000000000000c9".

Definition admin : Actor := mkActor a1 "admin".
Definition member1 : Actor := mkActor u1 "member".
Definition manager2 : Actor := mkActor u2 "manager".
Definition member3 : Actor := mkActor u3 "member".

Definition project1 : Project :=
  mkProject "Apollo" "Launch" u2 [u1] None None None.

Definition task1 : Task :=
  mkTask "Design" "Draw it" p1 None (Some "todo") None None u2.
Definition task2 : Task :=
  mkTask "Review" "Read it" p1 (Some u3) None None None u2.

Definition db0 : Db :=
  mkDb (<[a1 := mkUser "Root" "root@x.io" "h0" "admin"]>
        (<[u1 := mkUser "Ann" "ann@x.io" "h1" "member"]>
        (<[u2 := mkUser "Bob" "bob@x.io" "h2" "manager"]>
        (<[u3 := mkUser "Cy" "cy@x.io" "h3" "member"]> ∅))))
       (<[p1 := project1]> ∅)
       (<[t1 := task1]> (<[t2 := task2]> ∅)).

Definition noTaskBody : TaskBody := mkTaskBody None None None None None None None.
Definition noProjectBody : ProjectBody :=
  mkProjectBody None None None None None None None.

End Sample.

Import Sample.

(** ** Well-formed requests *)

(** The identity in a token is the [id] of a user document, hence an
    identifier in canonical form. *)
Definition authenticated (user : Actor) : Prop := ObjectId.canonical (a_id user).

(** The assignee named in an update payload, when there is one, is a
    well-formed identifier. *)
Definition assignee_ok (body : TaskBody) : Prop :=
  match pick (tb_assignedTo body) with
  | Some a => is_Some (ObjectId.cast a)
  | None => True
  end.

(** ** Outcomes *)

(** The request was turned away: validation failure, missing identity,
    policy deny, or a resource that does not resolve. *)
Definition rejected (r : Response) : Prop :=
  status r = 400 ∨ status r = 401 ∨ status r = 403 ∨ status r = 404.

(** What one request can do to the storage. *)
Inductive effect (db : Db) : Db → Prop :=
| eff_none : effect db db
| eff_users f : effect db (set_users f db)
| eff_project_put k P : effect db (set_projects <[k := P]> db)
| eff_project_delete k :
    effect db (set_projects (delete k)
                 (set_tasks (filter (λ kv : string * Task, t_project kv.2 ≠ k)) db))
| eff_task_put k T :
    is_Some (projects db !! t_project T) → effect db (set_tasks <[k := T]> db)
| eff_task_delete k : effect db (set_tasks (delete k) db).

(** Every task belongs to a project that exists. *)
Definition tasks_resolve (db : Db) : Prop :=
  map_Forall (λ _ T, is_Some (projects db !! t_project T)) (tasks db).

(** All-or-nothing behaviour of a handler: a request that does not succeed
    leaves the storage as it found it. *)
Definition atomic (h : Handler) : Prop :=
  ∀ db, status (h db).2 ≠ 200 → (h db).1 = db.


(** A stored field after a partial-merge update: it kept its value, or the
    request carried a truthy value and the field now holds it (cast to an
    ObjectId where the field is a reference). *)
Definition merged (old new : string) (req : option string) : Prop :=
  new = old ∨ (truthy req = true ∧ req = Some new).

Definition merged_opt (old new req : option string) : Prop :=
  new = old ∨ (truthy req = true ∧ new = req).

Definition merged_ref (old new req : option string) : Prop :=
  new = old ∨ (truthy req = true ∧ new = req ≫= ObjectId.cast).

Definition merged_id (old new : string) (req : option string) : Prop :=
  new = old ∨ (truthy req = true ∧ req ≫= ObjectId.cast = Some new).

(** An array in the request replaces the stored one, also when it is empty. *)
Definition merged_team (old new : list string) (req : option (list string))
  : Prop :=
  new = old ∨ ∃ team, req = Some team ∧ mapM ObjectId.cast team = Some new.

(** No team lists a member twice. *)
Definition teams_nodup (db : Db) : Prop :=
  map_Forall (λ _ P, NoDup (p_team P)) (projects db).

(** ** Requests by kind *)

(** The collections of the storage. *)
Inductive Collection := Users | Projects | Tasks.

(** The collections a route writes to. *)
Definition writes (r : routes.Request) : list Collection :=
  match r with
  | routes.UpdateUser _ _ _ _ | routes.DeleteUser _ _ => [Users]
  | routes.CreateProject _ _ _ | routes.UpdateProject _ _ _
  | routes.AddTeamMember _ _ _ | routes.RemoveTeamMember _ _ _ => [Projects]
  | routes.DeleteProject _ _ => [Projects; Tasks]
  | routes.CreateTask _ _ _ | routes.UpdateTask _ _ _
  | routes.DeleteTask _ _ => [Tasks]
  | _ => []
  end.

(** The actor of a request, and the same request made by another actor. *)
Definition actor_of (r : routes.Request) : Actor :=
  match r with
  | routes.GetUsers user | routes.GetUserById user _
  | routes.UpdateUser user _ _ _ | routes.DeleteUser user _
  | routes.GetProjects user | routes.GetProjectById user _
  | routes.CreateProject _ user _ | routes.UpdateProject user _ _
  | routes.DeleteProject user _ | routes.AddTeamMember user _ _
  | routes.RemoveTeamMember user _ _ | routes.GetTasks user _
  | routes.GetTaskById user _ | routes.CreateTask _ user _
  | routes.UpdateTask user _ _ | routes.DeleteTask user _ => user
  end.

Definition as_actor (user : Actor) (r : routes.Request) : routes.Request :=
  match r with
  | routes.GetUsers _ => routes.GetUsers user
  | routes.GetUserById _ id => routes.GetUserById user id
  | routes.UpdateUser _ id errs body => routes.UpdateUser user id errs body
  | routes.DeleteUser _ id => routes.DeleteUser user id
  | routes.GetProjects _ => routes.GetProjects user
  | routes.GetProjectById _ id => routes.GetProjectById user id
  | routes.CreateProject oid _ body => routes.CreateProject oid user body
  | routes.UpdateProject _ id body => routes.UpdateProject user id body
  | routes.DeleteProject _ id => routes.DeleteProject user id
  | routes.AddTeamMember _ id userId => routes.AddTeamMember user id userId
  | routes.RemoveTeamMember _ id userId => routes.RemoveTeamMember user id userId
  | routes.GetTasks _ query => routes.GetTasks user query
  | routes.GetTaskById _ id => routes.GetTaskById user id
  | routes.CreateTask oid _ body => routes.CreateTask oid user body
  | routes.UpdateTask _ id body => routes.UpdateTask user id body
  | routes.DeleteTask _ id => routes.DeleteTask user id
  end.

(** The path parameter a route resolves first, with its collection. *)
Definition target (r : routes.Request) : option (Collection * string) :=
  match r with
  | routes.GetUserById _ id | routes.UpdateUser _ id _ _
  | routes.DeleteUser _ id => Some (Users, id)
  | routes.GetProjectById _ id | routes.UpdateProject _ id _
  | routes.DeleteProject _ id | routes.AddTeamMember _ id _
  | routes.RemoveTeamMember _ id _ => Some (Projects, id)
  | routes.GetTaskById _ id | routes.UpdateTask _ id _
  | routes.DeleteTask _ id => Some (Tasks, id)
  | _ => None
  end.

(** The identifier is well formed and a document of the collection has it. *)
Definition resolves (db : Db) (c : Collection) (id : string) : Prop :=
  ∃ k, ObjectId.cast id = Some k
       ∧ match c with
         | Users => is_Some (users db !! k)
         | Projects => is_Some (projects db !! k)
         | Tasks => is_Some (tasks db !! k)
         end.

(** The [validationResult] of the request is empty. *)
Definition passes_validation (r : routes.Request) : Prop :=
  match r with
  | routes.UpdateUser _ _ emailErrors _ => emailErrors = []
  | _ => True
  end.

(** Neither of the two roles the handlers and the middleware test for. *)
Definition unprivileged (role : string) : Prop :=
  role ≠ "admin" ∧ role ≠ "manager".

(** The actor manages the project or is in its team. *)
Definition in_circle (uid : string) (P : Project) : Prop :=
  p_manager P = uid ∨ uid ∈ p_team P.

(** The assignee named in a [createTask] payload, when there is one, is a
    well-formed identifier. *)
Definition new_assignee_ok (body : TaskBody) : Prop :=
  match tb_assignedTo body with
  | Some a => is_Some (ObjectId.cast a)
  | None => True
  end.

(** The references of an [updateProject] payload are well formed. *)
Definition project_refs_ok (body : ProjectBody) : Prop :=
  (∀ m, pick (pb_manager body) = Some m → is_Some (ObjectId.cast m))
  ∧ (∀ t, pb_team body = Some t → is_Some (mapM ObjectId.cast t)).

(** The project that [updateProject] stores for a payload with well-formed
    references. *)
Definition updated_project (body : ProjectBody) (P : Project) : Project :=
  mkProject (default (p_name P) (pick (pb_name body)))
            (default (p_description P) (pick (pb_description body)))
            (default (p_manager P) (pick (pb_manager body) ≫= ObjectId.cast))
            (default (p_team P) (pb_team body ≫= mapM ObjectId.cast))
            (ProjectModel.keep (p_status P) (pick (pb_status body)))
            (ProjectModel.keep (p_startDate P) (pick (pb_startDate body)))
            (ProjectModel.keep (p_endDate P) (pick (pb_endDate body))).

(** The task that [updateTask] stores for a payload with a well-formed
    assignee: the project and the creator are the stored ones. *)
Definition updated_task (body : TaskBody) (T : Task) : Task :=
  mkTask (default (t_title T) (pick (tb_title body)))
         (default (t_description T) (pick (tb_description body)))
         (t_project T)
         (match pick (tb_assignedTo body) ≫= ObjectId.cast with
          | Some a => Some a
          | None => t_assignedTo T
          end)
         (match pick (tb_status body) with
          | Some v => Some v
          | None => t_status T
          end)
         (match pick (tb_priority body) with
          | Some v => Some v
          | None => t_priority T
          end)
         (match pick (tb_dueDate body) with
          | Some v => Some v
          | None => t_dueDate T
          end)
         (t_createdBy T).

(** Every user of [db'] was a user of [db] with the same role. *)
Definition roles_kept (db db' : Db) : Prop :=
  ∀ k U', users db' !! k = Some U' →
          ∃ U, users db !! k = Some U ∧ u_role U' = u_role U.

(** ** controllers/authController.js *)

Module authController.

(** [getCurrentUser]; [register] and [login] depend on the password hook
    and on the token library and are left out. *)
Definition getCurrentUser (user : Actor) : Handler :=
  try_catch
    (let* found := UserModel.findById (a_id user) in
     ret (json_doc OneUser (UserModel.doc <$> found)))
    catch_500.

End authController.

(** * Properties *)

(** ** Identifiers *)

Lemma toHexString_byte c :
  let n := N_of_ascii c in
  ObjectId.is_hex (ObjectId.hex_digit (n / 16)) = true
  ∧ ObjectId.is_hex (ObjectId.hex_digit (n mod 16)) = true
  ∧ ObjectId.lower (ObjectId.hex_digit (n / 16)) = ObjectId.hex_digit (n / 16)
  ∧ ObjectId.lower (ObjectId.hex_digit (n mod 16)) = ObjectId.hex_digit (n mod 16).
Proof. destruct c as [[] [] [] [] [] [] [] []]; vm_compute; done. Qed.

Lemma lower_byte c :
  ObjectId.lower (ObjectId.lower c) = ObjectId.lower c
  ∧ (ObjectId.is_hex c = true → ObjectId.is_hex (ObjectId.lower c) = true).
Proof. destruct c as [[] [] [] [] [] [] [] []]; vm_compute; done. Qed.

Lemma toHexString_hex s :
  String.length (ObjectId.toHexString s) = 2 * String.length s
  ∧ ObjectId.all_hex (ObjectId.toHexString s) = true
  ∧ ObjectId.toLowerCase (ObjectId.toHexString s) = ObjectId.toHexString s.
Proof.
  induction s as [|c s (IHlen & IHhex & IHlow)]; [done|].
  destruct (toHexString_byte c) as (Hhi & Hlo & Hhi' & Hlo').
  cbn [ObjectId.toHexString ObjectId.all_hex ObjectId.toLowerCase String.length].
  rewrite IHlen, Hhi, Hlo, IHhex, Hhi', Hlo', IHlow.
  split_and!; [lia|done|done].
Qed.

Lemma toLowerCase_hex s :
  String.length (ObjectId.toLowerCase s) = String.length s
  ∧ (ObjectId.all_hex s = true → ObjectId.all_hex (ObjectId.toLowerCase s) = true)
  ∧ ObjectId.toLowerCase (ObjectId.toLowerCase s) = ObjectId.toLowerCase s.
Proof.
  induction s as [|c s (IHlen & IHhex & IHlow)]; [done|].
  destruct (lower_byte c) as [Hidem Hhex].
  cbn [ObjectId.all_hex ObjectId.toLowerCase String.length].
  rewrite IHlen, Hidem, IHlow. split_and!; [done| |done].
  intros [Hc Hs]%andb_true_iff. by rewrite Hhex, IHhex.
Qed.

(** A string of 24 hexadecimal digits that is its own lower-case form is
    canonical. *)
Lemma canonical_intro k :
  String.length k = 24 → ObjectId.all_hex k = true →
  ObjectId.toLowerCase k = k → ObjectId.canonical k.
Proof.
  intros Hlen Hhex Hlow. unfold ObjectId.canonical, ObjectId.cast.
  by rewrite Hlen, Hhex, Hlow.
Qed.

(** What a cast yields is canonical: the identifiers the handlers store are
    those they can read back and look up again. *)
Lemma cast_canonical s k : ObjectId.cast s = Some k → ObjectId.canonical k.
Proof.
  unfold ObjectId.cast.
  destruct (_ =? 12)%nat eqn:H12; simpl.
  - destruct (ObjectId.all_ascii s); simpl.
    + intros [= <-]. apply Nat.eqb_eq in H12.
      destruct (toHexString_hex s) as (Hlen & Hhex & Hlow).
      apply canonical_intro; [lia|done..].
    + destruct (_ =? 24)%nat eqn:H24; [|done].
      apply Nat.eqb_eq in H12, H24. lia.
  - destruct (_ =? 24)%nat eqn:H24; [|done]. simpl.
    destruct (ObjectId.all_hex s) eqn:Hhex; [|done].
    intros [= <-]. apply Nat.eqb_eq in H24.
    destruct (toLowerCase_hex s) as (Hlen & Hhex' & Hlow).
    apply canonical_intro; [lia|by apply Hhex'|done].
Qed.

(** The two kinds of strings that cast, and some that do not. *)
Example cast_samples :
  ObjectId.cast "abcdefghijkl" = Some "6162636465666768696a6b6c"
  ∧ ObjectId.cast "0000000000000000000000A1" = Some u1
  ∧ ObjectId.cast "not-an-id" = None
  ∧ ObjectId.cast "zzzzzzzzzzzzzzzzzzzzzzzz" = None.
Proof. by split_and!. Qed.

(** An identifier of 12 characters reaches the document stored under the
    ObjectId of its bytes, and [addTeamMember] stores that ObjectId. *)
Example twelve_characters :
  let k := "6162636465666768696a6b6c" in
  let db := set_users <[k := mkUser "Dee" "dee@x.io" "h4" "member"]> db0 in
  userController.getUserById admin "abcdefghijkl" db
  = (db, json (OneUser (mkUserDoc k "Dee" "dee@x.io" "member")))
  ∧ status (projectController.addTeamMember manager2 p1 "abcdefghijkl" db0).2 = 200
  ∧ p_team <$> projects (projectController.addTeamMember manager2 p1
                           "abcdefghijkl" db0).1 !! p1
    = Some [u1; k].
Proof. by split_and!; vm_compute. Qed.

(** ** Running a handler body *)

Ltac unfold_monad :=
  unfold try_catch, validated, deref, castId, validateId, required, json_doc,
    json, status_json, catch_500, catch_ObjectId, server_error in *;
  unfold bind, ret, throw, get, modify in *.

(** Case analysis on the guard of the outermost conditional of the goal. *)
Ltac split_if :=
  match goal with
  | |- context [if ?b then _ else _] => destruct b
  end.

Lemma existsb_bool_decide_eq (x : string) (l : list string) :
  existsb (λ member, bool_decide (member = x)) l = true ↔ x ∈ l.
Proof.
  rewrite existsb_exists. split.
  - intros (y & Hy & Heq). apply bool_decide_eq_true in Heq. subst y.
    by apply list_elem_of_In.
  - intros Hx. exists x. split; [by apply list_elem_of_In|].
    by apply bool_decide_eq_true.
Qed.

Lemma existsb_bool_decide_false (x : string) (l : list string) :
  existsb (λ member, bool_decide (member = x)) l = false ↔ x ∉ l.
Proof.
  rewrite <- existsb_bool_decide_eq. destruct (existsb _ l); naive_solver.
Qed.

(** A populated team has a member with the actor's id exactly when the
    actor is in the team and the actor's own user document exists. *)
Lemma existsb_populateUsers db (uid : string) (team : list string) :
  existsb (λ member, bool_decide (ur_id member = uid)) (populateUsers db team) = true
  ↔ uid ∈ team ∧ is_Some (users db !! uid).
Proof.
  rewrite existsb_exists. unfold populateUsers, populateUser. split.
  - intros (m & Hm & Heq). apply bool_decide_eq_true in Heq.
    apply list_elem_of_In, list_elem_of_omap in Hm as (y & Hy & Hm).
    destruct (users db !! y) as [u|] eqn:Hu; simplify_eq/=.
    split; [done|]. by exists u.
  - intros (Hin & u & Hu).
    exists (mkUserRef uid (u_name u) (u_email u)). split.
    + apply list_elem_of_In, list_elem_of_omap. exists uid.
      split; [done|]. by rewrite Hu.
    + by apply bool_decide_eq_true.
Qed.

(** ** Viewing a project *)

(** Where the manager reference of the project resolves (and the actor's
    own account exists), [getProjectById] answers 200 exactly for an admin,
    the manager and the team members, and 403 for everybody else. *)
Lemma getProjectById_policy db user id k P :
  ObjectId.cast id = Some k →
  projects db !! k = Some P →
  is_Some (users db !! p_manager P) →
  is_Some (users db !! a_id user) →
  (projectController.getProjectById user id db).1 = db
  ∧ (status (projectController.getProjectById user id db).2 = 200
     ↔ a_role user = "admin" ∨ a_id user = p_manager P ∨ a_id user ∈ p_team P)
  ∧ (¬ (a_role user = "admin" ∨ a_id user = p_manager P ∨ a_id user ∈ p_team P)
     → (projectController.getProjectById user id db).2
       = status_json 403 "Not authorized to view this project").
Proof.
  intros Hcast HP [m Hm] Hself.
  assert (populateUser db (p_manager P)
          = Some (mkUserRef (p_manager P) (u_name m) (u_email m))) as Hpm.
  { unfold populateUser. by rewrite Hm. }
  unfold projectController.getProjectById, ProjectModel.findById_populated,
    ProjectModel.findById, ProjectModel.populate.
  unfold_monad. rewrite Hcast. simpl. rewrite HP. simpl. rewrite Hpm. simpl.
  destruct (existsb _ (populateUsers db (p_team P))) eqn:Hteam.
  - apply existsb_populateUsers in Hteam as [Hin _].
    rewrite !andb_false_r. simpl. intuition.
  - assert (a_id user ∉ p_team P) as Hnin.
    { intros Hin. apply not_true_iff_false in Hteam. apply Hteam.
      by apply existsb_populateUsers. }
    destruct (bool_decide_reflect (a_role user = "admin")),
      (bool_decide_reflect (a_id user = p_manager P)); simpl;
      intuition (auto; discriminate).
Qed.

(** C1 (the code departs from the claim).  The claim: [getProjectById]
    succeeds for an actor exactly when the actor is an admin, the manager of
    the project or in its team, and otherwise answers Forbidden.  The handler
    reads [project.manager.id] on the populated document, and [populate]
    leaves [null] where the manager's user document is gone: once the admin
    has removed the manager's account ([deleteUser] does not touch the
    projects), the project still exists, yet the admin's request to view it
    ends in the 500 answer, while [updateProject], which compares the stored
    reference, still serves the same admin. *)
Theorem getProjectById_manager_account_removed :
  let db1 := (userController.deleteUser admin u2 db0).1 in
  projects db1 !! p1 = Some project1
  ∧ a_role admin = "admin"
  ∧ projectController.getProjectById admin p1 db1 = (db1, server_error)
  ∧ status (projectController.updateProject admin p1 [] noProjectBody db1).2 = 200.
Proof. vm_compute. done. Qed.

(** ** Tasks: viewing, updating, deleting *)

Lemma populateProject_acl db pid P :
  projects db !! pid = Some P →
  populateProject ["manager"; "team"] db pid
  = Some (mkProjectRef pid None (Some (p_manager P)) (Some (p_team P))).
Proof. intros HP. unfold populateProject. by rewrite HP. Qed.

Lemma populateProject_full db pid P :
  projects db !! pid = Some P →
  populateProject ["name"; "manager"; "team"] db pid
  = Some (mkProjectRef pid (Some (p_name P)) (Some (p_manager P)) (Some (p_team P))).
Proof. intros HP. unfold populateProject. by rewrite HP. Qed.

(** What [deleteTask] does on a task whose project resolves. *)
Lemma deleteTask_run db user id k T P :
  ObjectId.cast id = Some k →
  tasks db !! k = Some T →
  projects db !! t_project T = Some P →
  taskController.deleteTask user id db
  = if negb (bool_decide (a_role user = "admin"))
       && negb (bool_decide (p_manager P = a_id user))
    then (db, status_json 403 "Not authorized to delete this task")
    else (set_tasks (delete k) db, json (Msg "Task removed")).
Proof.
  intros Hcast HT HP.
  unfold taskController.deleteTask, TaskModel.findById,
    TaskModel.findByIdAndRemove, TaskModel.populate_project, TaskModel.plain.
  unfold_monad. rewrite Hcast. simpl. rewrite HT. simpl.
  rewrite (populateProject_acl _ _ _ HP). simpl.
  by split_if.
Qed.

(** What [getTaskById] does on a task whose project resolves. *)
Lemma getTaskById_run db user id k T P :
  ObjectId.cast id = Some k →
  tasks db !! k = Some T →
  projects db !! t_project T = Some P →
  taskController.getTaskById user id db
  = (db,
     if negb (bool_decide (a_role user = "admin"))
        && negb (bool_decide (p_manager P = a_id user))
        && negb (existsb (λ member, bool_decide (member = a_id user)) (p_team P))
        && negb (match t_assignedTo T ≫= populateUser db with
                 | Some assignee => bool_decide (ur_id assignee = a_id user)
                 | None => false
                 end)
     then status_json 403 "Not authorized to view this task"
     else json (OneTask (taskController.populated ["name"; "manager"; "team"]
                           db (k, T)))).
Proof.
  intros Hcast HT HP.
  unfold taskController.getTaskById, TaskModel.findById,
    taskController.populated, TaskModel.populate_assignedTo,
    TaskModel.populate_project, TaskModel.plain.
  unfold_monad. rewrite Hcast. simpl. rewrite HT. simpl.
  rewrite (populateProject_full _ _ _ HP). simpl.
  by split_if.
Qed.

(** What [updateTask] does on a task whose project resolves, for a payload
    that passed validation. *)
Lemma updateTask_run db user id body k T P :
  ObjectId.cast id = Some k →
  tasks db !! k = Some T →
  projects db !! t_project T = Some P →
  taskController.updateTask user id [] body db
  = if negb (bool_decide (a_role user = "admin"))
       && negb (bool_decide (p_manager P = a_id user))
       && negb (existsb (λ member, bool_decide (member = a_id user)) (p_team P))
       && negb (match t_assignedTo T with
                | Some assignee => bool_decide (assignee = a_id user)
                | None => false
                end)
    then (db, status_json 403 "Not authorized to update this task")
    else match (TaskModel.castFields (taskController.taskFields body) db).2 with
         | inl e => (db, catch_ObjectId "Task not found" e)
         | inr f =>
             let db' := set_tasks <[k := TaskModel.set f T]> db in
             (db', json (OneTask (taskController.populated ["name"] db'
                                    (k, TaskModel.set f T))))
         end.
Proof.
  intros Hcast HT HP.
  unfold taskController.updateTask, TaskModel.findById,
    TaskModel.findByIdAndUpdate, TaskModel.castFields,
    TaskModel.populate_project, TaskModel.plain.
  unfold_monad. rewrite Hcast. simpl. rewrite HT. simpl.
  rewrite (populateProject_acl _ _ _ HP). simpl.
  split_if; [done|].
  destruct (pick (tb_assignedTo body)) as [a|]; simpl.
  - destruct (ObjectId.cast a); simpl; [|done]. by rewrite HT.
  - by rewrite HT.
Qed.

Lemma castFields_ok body db :
  assignee_ok body →
  ∃ f, (TaskModel.castFields (taskController.taskFields body) db).2 = inr f.
Proof.
  unfold assignee_ok, TaskModel.castFields, taskController.taskFields.
  unfold_monad. simpl. destruct (pick (tb_assignedTo body)) as [a|]; simpl.
  - intros [k Hk]. rewrite Hk. simpl. eauto.
  - eauto.
Qed.

(** C2.  On a task whose project resolves, [deleteTask] succeeds exactly for
    an admin and for the manager of the task's project, and it then removes
    the task; every other actor gets the 403 answer and nothing changes.
    Whoever may delete may also view and update, while a team member or the
    assignee who is neither admin nor manager may view and update but not
    delete: the permission to delete is strictly narrower. *)
Theorem deleteTask_policy db user id k T P :
  ObjectId.cast id = Some k →
  tasks db !! k = Some T →
  projects db !! t_project T = Some P →
  let canDelete := status (taskController.deleteTask user id db).2 = 200 in
  let canView := status (taskController.getTaskById user id db).2 = 200 in
  let canUpdate := ∀ body, assignee_ok body →
    status (taskController.updateTask user id [] body db).2 = 200 in
  (canDelete ↔ a_role user = "admin" ∨ a_id user = p_manager P)
  ∧ (canDelete → tasks (taskController.deleteTask user id db).1 !! k = None)
  ∧ (¬ canDelete →
     taskController.deleteTask user id db
     = (db, status_json 403 "Not authorized to delete this task"))
  ∧ (canDelete → canView ∧ canUpdate)
  ∧ (a_role user ≠ "admin" → a_id user ≠ p_manager P → a_id user ∈ p_team P →
     canView ∧ canUpdate ∧ ¬ canDelete)
  ∧ (a_role user ≠ "admin" → a_id user ≠ p_manager P →
     t_assignedTo T = Some (a_id user) →
     (is_Some (users db !! a_id user) → canView) ∧ canUpdate ∧ ¬ canDelete).
Proof.
  intros Hcast HT HP canDelete canView canUpdate.
  pose proof (existsb_bool_decide_eq (a_id user) (p_team P)) as Hteam.
  assert (status (taskController.deleteTask user id db).2
          = if negb (bool_decide (a_role user = "admin"))
               && negb (bool_decide (p_manager P = a_id user))
            then 403 else 200) as Hdel.
  { rewrite (deleteTask_run _ _ _ _ _ _ Hcast HT HP).
    by split_if. }
  assert (status (taskController.getTaskById user id db).2
          = if negb (bool_decide (a_role user = "admin"))
               && negb (bool_decide (p_manager P = a_id user))
               && negb (existsb (λ member, bool_decide (member = a_id user)) (p_team P))
               && negb (match t_assignedTo T ≫= populateUser db with
                        | Some assignee => bool_decide (ur_id assignee = a_id user)
                        | None => false
                        end)
            then 403 else 200) as Hview.
  { rewrite (getTaskById_run _ _ _ _ _ _ Hcast HT HP).
    by split_if. }
  assert (∀ body, assignee_ok body →
           status (taskController.updateTask user id [] body db).2
           = if negb (bool_decide (a_role user = "admin"))
                && negb (bool_decide (p_manager P = a_id user))
                && negb (existsb (λ member, bool_decide (member = a_id user)) (p_team P))
                && negb (match t_assignedTo T with
                         | Some assignee => bool_decide (assignee = a_id user)
                         | None => false
                         end)
             then 403 else 200) as Hupd.
  { intros body Hok. rewrite (updateTask_run _ _ _ _ _ _ _ Hcast HT HP).
    split_if; [done|].
    destruct (castFields_ok body db Hok) as [f ->]. reflexivity. }
  assert (canDelete ↔ a_role user = "admin" ∨ a_id user = p_manager P) as Hiff.
  { unfold canDelete. rewrite Hdel.
    destruct (bool_decide_reflect (a_role user = "admin")),
      (bool_decide_reflect (p_manager P = a_id user)); simpl;
      intuition (try done; try congruence). }
  assert (canDelete → canView ∧ canUpdate) as Hnarrow.
  { intros Hd. apply Hiff in Hd. unfold canView, canUpdate. rewrite Hview.
    split; [|intros body Hok; rewrite (Hupd body Hok)].
    all: destruct (bool_decide_reflect (a_role user = "admin")),
           (bool_decide_reflect (p_manager P = a_id user)); simpl;
           try done; intuition congruence. }
  split_and!; [done| | |done| |].
  - intros Hd. apply Hiff in Hd.
    rewrite (deleteTask_run _ _ _ _ _ _ Hcast HT HP).
    destruct (bool_decide_reflect (a_role user = "admin")),
      (bool_decide_reflect (p_manager P = a_id user)); simpl;
      try apply lookup_delete_eq; intuition congruence.
  - intros Hd. rewrite (deleteTask_run _ _ _ _ _ _ Hcast HT HP).
    destruct (bool_decide_reflect (a_role user = "admin")),
      (bool_decide_reflect (p_manager P = a_id user)); simpl;
      try done; exfalso; apply Hd, Hiff; auto.
  - intros Hadm Hman Hin. apply Hteam in Hin.
    split_and!; [| |intuition congruence].
    + unfold canView. rewrite Hview, Hin. by rewrite !andb_false_r.
    + intros body Hok. rewrite (Hupd body Hok), Hin. by rewrite !andb_false_r.
  - intros Hadm Hman Hass.
    split_and!; [| |intuition congruence].
    + intros [u Hu]. unfold canView. rewrite Hview, Hass. simpl.
      unfold populateUser. rewrite Hu. simpl.
      rewrite (bool_decide_eq_true_2 (a_id user = a_id user)) by done. by rewrite !andb_false_r.
    + intros body Hok. rewrite (Hupd body Hok), Hass.
      rewrite (bool_decide_eq_true_2 (a_id user = a_id user)) by done. by rewrite !andb_false_r.
Qed.

Lemma deleteTask_policy_witness :
  ObjectId.cast t1 = Some t1
  ∧ tasks db0 !! t1 = Some task1
  ∧ projects db0 !! t_project task1 = Some project1
  ∧ (status (taskController.deleteTask member1 t1 db0).2 = 200
     ↔ a_role member1 = "admin" ∨ a_id member1 = p_manager project1)
  ∧ status (taskController.getTaskById member1 t1 db0).2 = 200
  ∧ status (taskController.deleteTask member1 t1 db0).2 ≠ 200.
Proof.
  pose proof (deleteTask_policy db0 member1 t1 t1 task1 project1
                eq_refl eq_refl eq_refl) as (Hiff & _ & _ & _ & Hteam & _).
  assert (a_id member1 ∈ p_team project1) as Hin by left.
  destruct (Hteam ltac:(discriminate) ltac:(discriminate) Hin)
    as (Hview & _ & Hdel).
  split_and!; [reflexivity..|exact Hiff|exact Hview|exact Hdel].
Defined.

(** The scenario of the specification: the member [u1] of the team of [p1],
    which [u2] manages, may update the unassigned task [t1] of [p1] and may
    not delete it. *)
Example scenario_member_updates_task :
  (taskController.updateTask member1 t1 []
     (mkTaskBody None None None None (Some "done") None None) db0).2
  = json (OneTask
            (mkTaskDoc t1
               (mkTask "Design" "Draw it" p1 None (Some "done") None None u2)
               (Expanded (Some (mkProjectRef p1 (Some "Apollo") None None)))
               (Expanded None))).
Proof. reflexivity. Qed.

Example scenario_member_cannot_delete_task :
  taskController.deleteTask member1 t1 db0
  = (db0, status_json 403 "Not authorized to delete this task").
Proof. reflexivity. Qed.

(** ** Requests that are turned away *)

Ltac unfold_models :=
  unfold UserModel.find, UserModel.findById, UserModel.findByIdAndUpdate,
    UserModel.findByIdAndRemove, ProjectModel.findById_populated,
    ProjectModel.findById, ProjectModel.find, ProjectModel.castFilter,
    ProjectModel.create, ProjectModel.save, ProjectModel.findByIdAndUpdate,
    ProjectModel.castFields, ProjectModel.findByIdAndRemove,
    TaskModel.findById, TaskModel.find, TaskModel.castCond, TaskModel.create,
    TaskModel.findByIdAndUpdate, TaskModel.castFields,
    TaskModel.findByIdAndRemove, TaskModel.deleteMany_project in *.

(** Run a handler symbolically: one goal per path through its body.  The
    innermost scrutinee is split first, so that every equation recorded is
    about a repository call or a guard of the source. *)
Ltac inner_match t :=
  lazymatch t with
  | context [match ?x with _ => _ end] => inner_match x
  | _ => destruct t eqn:?
  end.

Ltac step :=
  lazymatch goal with
  | |- context [match ?x with _ => _ end] => inner_match x
  end; simpl.

Ltac run_paths := unfold_models; unfold_monad; simpl; repeat step.

Lemma rejected_intro (out : Db * Response) db :
  (let '(db', r) := out in rejected r → db' = db) → rejected out.2 → out.1 = db.
Proof. by destruct out. Qed.

Ltac solve_rejected :=
  unfold rejected; run_paths;
  first [ done | intros [?|[?|[?|?]]]; discriminate ].

Section Rejected.

Context (user : Actor) (id : string) (db : Db).

Lemma getUsers_rejected :
  rejected (userController.getUsers db).2 → (userController.getUsers db).1 = db.
Proof. apply rejected_intro. unfold userController.getUsers. solve_rejected. Qed.

Lemma getUserById_rejected :
  rejected (userController.getUserById user id db).2 →
  (userController.getUserById user id db).1 = db.
Proof. apply rejected_intro. unfold userController.getUserById. solve_rejected. Qed.

Lemma updateUser_rejected errors body :
  rejected (userController.updateUser user id errors body db).2 →
  (userController.updateUser user id errors body db).1 = db.
Proof. apply rejected_intro. unfold userController.updateUser. solve_rejected. Qed.

Lemma deleteUser_rejected :
  rejected (userController.deleteUser user id db).2 →
  (userController.deleteUser user id db).1 = db.
Proof. apply rejected_intro. unfold userController.deleteUser. solve_rejected. Qed.

Lemma getProjects_rejected :
  rejected (projectController.getProjects user db).2 →
  (projectController.getProjects user db).1 = db.
Proof. apply rejected_intro. unfold projectController.getProjects. solve_rejected. Qed.

Lemma getProjectById_rejected :
  rejected (projectController.getProjectById user id db).2 →
  (projectController.getProjectById user id db).1 = db.
Proof. apply rejected_intro. unfold projectController.getProjectById. solve_rejected. Qed.

Lemma createProject_rejected oid errors body :
  rejected (projectController.createProject oid user errors body db).2 →
  (projectController.createProject oid user errors body db).1 = db.
Proof. apply rejected_intro. unfold projectController.createProject. solve_rejected. Qed.

Lemma updateProject_rejected errors body :
  rejected (projectController.updateProject user id errors body db).2 →
  (projectController.updateProject user id errors body db).1 = db.
Proof. apply rejected_intro. unfold projectController.updateProject. solve_rejected. Qed.

Lemma deleteProject_rejected :
  rejected (projectController.deleteProject user id db).2 →
  (projectController.deleteProject user id db).1 = db.
Proof. apply rejected_intro. unfold projectController.deleteProject. solve_rejected. Qed.

Lemma addTeamMember_rejected userId :
  rejected (projectController.addTeamMember user id userId db).2 →
  (projectController.addTeamMember user id userId db).1 = db.
Proof. apply rejected_intro. unfold projectController.addTeamMember. solve_rejected. Qed.

Lemma removeTeamMember_rejected userId :
  rejected (projectController.removeTeamMember user id userId db).2 →
  (projectController.removeTeamMember user id userId db).1 = db.
Proof. apply rejected_intro. unfold projectController.removeTeamMember. solve_rejected. Qed.

Lemma getTasks_rejected query :
  rejected (taskController.getTasks user query db).2 →
  (taskController.getTasks user query db).1 = db.
Proof. apply rejected_intro. unfold taskController.getTasks. solve_rejected. Qed.

Lemma getTaskById_rejected :
  rejected (taskController.getTaskById user id db).2 →
  (taskController.getTaskById user id db).1 = db.
Proof. apply rejected_intro. unfold taskController.getTaskById. solve_rejected. Qed.

Lemma createTask_rejected oid errors body :
  rejected (taskController.createTask oid user errors body db).2 →
  (taskController.createTask oid user errors body db).1 = db.
Proof. apply rejected_intro. unfold taskController.createTask. solve_rejected. Qed.

Lemma updateTask_rejected errors body :
  rejected (taskController.updateTask user id errors body db).2 →
  (taskController.updateTask user id errors body db).1 = db.
Proof. apply rejected_intro. unfold taskController.updateTask. solve_rejected. Qed.

Lemma deleteTask_rejected :
  rejected (taskController.deleteTask user id db).2 →
  (taskController.deleteTask user id db).1 = db.
Proof. apply rejected_intro. unfold taskController.deleteTask. solve_rejected. Qed.

End Rejected.

Lemma dispatch_rejected r db :
  rejected (routes.dispatch r db).2 → (routes.dispatch r db).1 = db.
Proof.
  destruct r; cbn [routes.dispatch].
  - unfold authorize. split_if; [done|]. apply getUsers_rejected.
  - apply getUserById_rejected.
  - apply updateUser_rejected.
  - apply deleteUser_rejected.
  - apply getProjects_rejected.
  - apply getProjectById_rejected.
  - unfold authorize. split_if; [done|]. apply createProject_rejected.
  - apply updateProject_rejected.
  - apply deleteProject_rejected.
  - apply addTeamMember_rejected.
  - apply removeTeamMember_rejected.
  - apply getTasks_rejected.
  - apply getTaskById_rejected.
  - apply createTask_rejected.
  - apply updateTask_rejected.
  - apply deleteTask_rejected.
Qed.

(** ** Creating a project *)

(** C3.  The claim asks that a request failing after its persistence step
    leaves nothing persisted.  [createProject] saves the project and then
    answers with [populatedTask], a name the handler never binds (the
    populated document is [populatedProject]): the [catch] block answers 500
    and the project saved one step earlier stays.  A manager's valid
    create-project request on a storage without [p2] is answered 500 and
    leaves [p2] stored, so the request is not all-or-nothing. *)
Theorem createProject_not_atomic :
  let request :=
    routes.dispatch
      (routes.CreateProject p2 manager2
         (mkProjectBody (Some "Hermes") (Some "Courier")
                        None None None None None)) in
  projects db0 !! p2 = None
  ∧ (request db0).2 = server_error
  ∧ projects (request db0).1 !! p2
    = Some (mkProject "Hermes" "Courier" u2 [] None None None)
  ∧ ¬ atomic request.
Proof.
  intros request.
  assert (projects db0 !! p2 = None) as Hfresh by reflexivity.
  assert ((request db0).2 = server_error) as Hanswer by reflexivity.
  assert (projects (request db0).1 !! p2
          = Some (mkProject "Hermes" "Courier" u2 [] None None None))
    as Hstored by (vm_compute; reflexivity).
  split_and!; [done..|].
  intros Hatomic. specialize (Hatomic db0).
  rewrite Hatomic in Hstored; [congruence|].
  rewrite Hanswer. discriminate.
Qed.


(** ** Deleting a project *)

Lemma filter_none {A} (f : A → bool) (l : list A) :
  (∀ x, x ∈ l → f x = false) → List.filter f l = [].
Proof.
  induction l as [|x l IH]; intros Hall; [done|]. simpl.
  rewrite (Hall x) by left. apply IH. intros y Hy. apply Hall. by right.
Qed.

(** What [deleteProject] does on a project that exists. *)
Lemma deleteProject_run db user id k P :
  ObjectId.cast id = Some k →
  projects db !! k = Some P →
  projectController.deleteProject user id db
  = if negb (bool_decide (a_role user = "admin"))
       && negb (bool_decide (a_id user = p_manager P))
    then (db, status_json 403 "Not authorized to delete this project")
    else (set_projects (delete k)
            (set_tasks (filter (λ kv : string * Task, t_project kv.2 ≠ k)) db),
          json (Msg "Project and associated tasks removed")).
Proof.
  intros Hcast HP.
  unfold projectController.deleteProject, ProjectModel.findById,
    ProjectModel.findByIdAndRemove, TaskModel.deleteMany_project.
  unfold_monad. rewrite Hcast. simpl. rewrite HP. simpl.
  by split_if.
Qed.

(** A project delete that answers 200 was asked on an existing project by
    an admin or its manager. *)
Lemma deleteProject_ok_inv db user id :
  status (projectController.deleteProject user id db).2 = 200 →
  ∃ k P, ObjectId.cast id = Some k ∧ projects db !! k = Some P
         ∧ (a_role user = "admin" ∨ a_id user = p_manager P).
Proof.
  destruct (ObjectId.cast id) as [k|] eqn:Hcast.
  - destruct (projects db !! k) as [P|] eqn:HP.
    + rewrite (deleteProject_run _ _ _ _ _ Hcast HP).
      destruct (bool_decide_reflect (a_role user = "admin")),
        (bool_decide_reflect (a_id user = p_manager P)); simpl;
        try discriminate; intros _; exists k, P; auto.
    + unfold projectController.deleteProject, ProjectModel.findById.
      unfold_monad. rewrite Hcast. simpl. rewrite HP. simpl. discriminate.
  - unfold projectController.deleteProject, ProjectModel.findById.
    unfold_monad. rewrite Hcast. simpl. discriminate.
Qed.

(** C4.  A project delete that succeeds was asked by an admin or the
    manager on an existing project [P]; it first deletes the tasks that
    reference [P] (the project is still there at that point), then [P]
    itself.  Afterwards [P] is gone, no task references it, and the query
    [find({ project: P.id })] on tasks returns the empty list; the other
    tasks, the other projects and the users are untouched. *)
Theorem deleteProject_cascade db user id :
  status (projectController.deleteProject user id db).2 = 200 →
  let db' := (projectController.deleteProject user id db).1 in
  ∃ k P,
    ObjectId.cast id = Some k ∧ projects db !! k = Some P
    ∧ (a_role user = "admin" ∨ a_id user = p_manager P)
    ∧ (∃ db1,
         TaskModel.deleteMany_project id db = (db1, inr tt)
         ∧ ProjectModel.findByIdAndRemove id db1 = (db', inr tt)
         ∧ projects db1 !! k = Some P
         ∧ ∀ tid T, tasks db1 !! tid = Some T → t_project T ≠ k)
    ∧ projects db' !! k = None
    ∧ (∀ tid T, tasks db' !! tid = Some T → t_project T ≠ k)
    ∧ TaskModel.find (TaskModel.mkFilter (TaskModel.Eq id) None None TaskModel.Any) db'
      = (db', inr [])
    ∧ (∀ tid T, tasks db !! tid = Some T → t_project T ≠ k →
                tasks db' !! tid = Some T)
    ∧ (∀ k', k' ≠ k → projects db' !! k' = projects db !! k')
    ∧ users db' = users db.
Proof.
  intros Hok db'. subst db'.
  destruct (deleteProject_ok_inv _ _ _ Hok) as (k & P & Hcast & HP & Hauth).
  exists k, P. rewrite (deleteProject_run _ _ _ _ _ Hcast HP) in *.
  assert (negb (bool_decide (a_role user = "admin"))
          && negb (bool_decide (a_id user = p_manager P)) = false) as ->.
  { destruct Hauth as [H|H]; rewrite (bool_decide_eq_true_2 _ H); simpl;
      by rewrite ?andb_false_r. }
  simpl.
  assert (∀ tid T,
    filter (λ kv : string * Task, t_project kv.2 ≠ k) (tasks db) !! tid = Some T
    → t_project T ≠ k) as Hgone.
  { intros tid T HT. by apply map_lookup_filter_Some in HT as [_ ?]. }
  split_and!; try done.
  - eexists. unfold TaskModel.deleteMany_project, ProjectModel.findByIdAndRemove.
    unfold_monad. rewrite Hcast. simpl. split_and!; try done.
  - apply lookup_delete_eq.
  - unfold TaskModel.find, TaskModel.castCond. simpl. unfold_monad.
    rewrite Hcast. simpl. f_equal. f_equal. apply filter_none.
    intros [tid T] Hin. apply elem_of_map_to_list, Hgone in Hin.
    unfold TaskModel.matches. simpl.
    rewrite bool_decide_eq_false_2; [done|]. congruence.
  - intros tid T HT Hne. by apply map_lookup_filter_Some.
  - intros k' Hne. by apply lookup_delete_ne.
Qed.

Lemma deleteProject_cascade_witness :
  status (projectController.deleteProject admin p1 db0).2 = 200
  ∧ ∃ k P, ObjectId.cast p1 = Some k ∧ projects db0 !! k = Some P
           ∧ projects (projectController.deleteProject admin p1 db0).1 !! k = None
           ∧ ∀ tid T,
               tasks (projectController.deleteProject admin p1 db0).1 !! tid = Some T →
               t_project T ≠ k.
Proof.
  split; [reflexivity|].
  destruct (deleteProject_cascade db0 admin p1 eq_refl)
    as (k & P & Hcast & HP & _ & _ & Hgone & Htasks & _).
  exists k, P. auto.
Defined.


(** ** Team membership *)

(** What [addTeamMember] does on a project that exists. *)
Lemma addTeamMember_run db user id userId k P :
  ObjectId.cast id = Some k →
  projects db !! k = Some P →
  projectController.addTeamMember user id userId db
  = if negb (bool_decide (a_role user = "admin"))
       && negb (bool_decide (a_id user = p_manager P))
    then (db, status_json 403 "Not authorized to update this project")
    else if existsb (λ member, bool_decide (member = userId)) (p_team P)
    then (db, status_json 400 "User already in team")
    else match ObjectId.cast userId with
         | None => (db, status_json 404 "Project or user not found")
         | Some member =>
             let P' := projectController.with_team (p_team P ++ [member]) P in
             let db' := set_projects <[k := P']> db in
             (db', json (OneProject (ProjectModel.populate db' (k, P'))))
         end.
Proof.
  intros Hcast HP.
  unfold projectController.addTeamMember, ProjectModel.findById_populated,
    ProjectModel.findById, ProjectModel.save.
  unfold_monad. rewrite Hcast. simpl. rewrite HP. simpl.
  split_if; [done|]. split_if; [done|].
  destruct (ObjectId.cast userId) as [member|]; simpl; [|done].
  by rewrite lookup_insert_eq.
Qed.

(** What [removeTeamMember] does on a project that exists. *)
Lemma removeTeamMember_run db user id userId k P :
  ObjectId.cast id = Some k →
  projects db !! k = Some P →
  projectController.removeTeamMember user id userId db
  = if negb (bool_decide (a_role user = "admin"))
       && negb (bool_decide (a_id user = p_manager P))
    then (db, status_json 403 "Not authorized to update this project")
    else if negb (existsb (λ member, bool_decide (member = userId)) (p_team P))
    then (db, status_json 400 "User not in team")
    else
      let P' := projectController.with_team
                  (List.filter (λ member, negb (bool_decide (member = userId)))
                               (p_team P)) P in
      let db' := set_projects <[k := P']> db in
      (db', json (OneProject (ProjectModel.populate db' (k, P')))).
Proof.
  intros Hcast HP.
  unfold projectController.removeTeamMember, ProjectModel.findById_populated,
    ProjectModel.findById, ProjectModel.save.
  unfold_monad. rewrite Hcast. simpl. rewrite HP. simpl.
  split_if; [done|]. split_if; [done|]. simpl.
  by rewrite lookup_insert_eq.
Qed.

(** A handler that starts with [Project.findById(id)] leaves the storage
    alone when the project does not resolve. *)
Lemma addTeamMember_unresolved db user id userId :
  (∀ k, ObjectId.cast id = Some k → projects db !! k = None) →
  (projectController.addTeamMember user id userId db).1 = db.
Proof.
  intros Hnone.
  unfold projectController.addTeamMember, ProjectModel.findById.
  unfold_monad. destruct (ObjectId.cast id) as [k|] eqn:Hcast; simpl; [|done].
  by rewrite (Hnone k).
Qed.

Lemma removeTeamMember_unresolved db user id userId :
  (∀ k, ObjectId.cast id = Some k → projects db !! k = None) →
  (projectController.removeTeamMember user id userId db).1 = db.
Proof.
  intros Hnone.
  unfold projectController.removeTeamMember, ProjectModel.findById.
  unfold_monad. destruct (ObjectId.cast id) as [k|] eqn:Hcast; simpl; [|done].
  by rewrite (Hnone k).
Qed.

Lemma NoDup_list_filter {A} (f : A → bool) (l : list A) :
  NoDup l → NoDup (List.filter f l).
Proof.
  induction 1 as [|x l Hx Hl IH]; simpl; [constructor|].
  destruct (f x); [|done]. constructor; [|done].
  intros Hin. apply Hx. apply list_elem_of_In in Hin.
  apply filter_In in Hin as [Hin _]. by apply list_elem_of_In.
Qed.

Lemma addTeamMember_nodup db user id userId :
  ObjectId.canonical userId →
  teams_nodup db →
  teams_nodup (projectController.addTeamMember user id userId db).1.
Proof.
  intros Hcan Hnd.
  destruct (ObjectId.cast id) as [k|] eqn:Hcast;
    [destruct (projects db !! k) as [P|] eqn:HP|].
  - rewrite (addTeamMember_run _ _ _ _ _ _ Hcast HP).
    split_if; [done|].
    destruct (existsb _ (p_team P)) eqn:Hmem; [done|].
    rewrite Hcan. simpl. unfold teams_nodup. simpl.
    apply map_Forall_insert_2; [|done]. simpl.
    apply NoDup_app. split_and!.
    + by apply (Hnd k).
    + intros x Hx Hx'. apply list_elem_of_singleton in Hx'. subst x.
      by apply existsb_bool_decide_false in Hmem.
    + apply NoDup_singleton.
  - rewrite addTeamMember_unresolved; [done|]. congruence.
  - rewrite addTeamMember_unresolved; [done|]. congruence.
Qed.

Lemma removeTeamMember_nodup db user id userId :
  teams_nodup db →
  teams_nodup (projectController.removeTeamMember user id userId db).1.
Proof.
  intros Hnd.
  destruct (ObjectId.cast id) as [k|] eqn:Hcast;
    [destruct (projects db !! k) as [P|] eqn:HP|].
  - rewrite (removeTeamMember_run _ _ _ _ _ _ Hcast HP).
    split_if; [done|]. split_if; [done|].
    unfold teams_nodup. simpl.
    apply map_Forall_insert_2; [|done]. simpl.
    apply NoDup_list_filter. by apply (Hnd k).
  - rewrite removeTeamMember_unresolved; [done|]. congruence.
  - rewrite removeTeamMember_unresolved; [done|]. congruence.
Qed.

Lemma teams_nodup_db0 : teams_nodup db0.
Proof.
  unfold teams_nodup. simpl. apply map_Forall_insert_2; [|apply map_Forall_empty].
  simpl. apply NoDup_singleton.
Qed.

(** An identifier written with upper-case digits passes the membership
    test of [addTeamMember], which compares strings, and is then stored as
    the ObjectId it denotes. *)
Example addTeamMember_upper_case :
  p_team <$> projects (projectController.addTeamMember manager2 p1
                         "0000000000000000000000A1" db0).1 !! p1
  = Some [u1; u1].
Proof. reflexivity. Qed.

(** C5 (counterexample).  The claim concludes that a team never lists a
    member twice after any sequence of operations.  Starting from a database
    without duplicates, one successful [updateProject] with the team
    [[u1; u1]] stores that list as it is. *)
Lemma team_duplicates_after_update :
  let out :=
    routes.serve
      [routes.UpdateProject admin p1
         (mkProjectBody None None None (Some [u1; u1]) None None None)] db0 in
  teams_nodup db0 ∧ status <$> out.2 = [200] ∧ ¬ teams_nodup out.1.
Proof.
  split_and!; [apply teams_nodup_db0|reflexivity|].
  intros Hnd.
  specialize (Hnd p1 (mkProject "Apollo" "Launch" u2 [u1; u1] None None None)
                eq_refl).
  simpl in Hnd. apply NoDup_cons in Hnd as [Hnin _]. apply Hnin. left.
Qed.

(** C5 (amended).  For an actor allowed to manage the team of an existing
    project, [addTeamMember] with a user id that is already in the team
    answers 400 "User already in team" and leaves the storage unchanged.
    [addTeamMember] with an id in canonical form and [removeTeamMember]
    keep duplicate-free teams duplicate-free. *)
Theorem addTeamMember_existing_member :
  (∀ db user id userId k P,
     ObjectId.cast id = Some k →
     projects db !! k = Some P →
     a_role user = "admin" ∨ a_id user = p_manager P →
     userId ∈ p_team P →
     projectController.addTeamMember user id userId db
     = (db, status_json 400 "User already in team"))
  ∧ (∀ db user id userId,
       ObjectId.canonical userId →
       teams_nodup db →
       teams_nodup (projectController.addTeamMember user id userId db).1)
  ∧ (∀ db user id userId,
       teams_nodup db →
       teams_nodup (projectController.removeTeamMember user id userId db).1).
Proof.
  split_and!.
  - intros db user id userId k P Hcast HP Hauth Hin.
    rewrite (addTeamMember_run _ _ _ _ _ _ Hcast HP).
    assert (negb (bool_decide (a_role user = "admin"))
            && negb (bool_decide (a_id user = p_manager P)) = false) as ->.
    { destruct Hauth as [H|H]; rewrite (bool_decide_eq_true_2 _ H); simpl;
        by rewrite ?andb_false_r. }
    apply existsb_bool_decide_eq in Hin. by rewrite Hin.
  - apply addTeamMember_nodup.
  - apply removeTeamMember_nodup.
Qed.

Lemma addTeamMember_existing_member_witness :
  ObjectId.cast p1 = Some p1
  ∧ projects db0 !! p1 = Some project1
  ∧ (a_role manager2 = "admin" ∨ a_id manager2 = p_manager project1)
  ∧ u1 ∈ p_team project1
  ∧ projectController.addTeamMember manager2 p1 u1 db0
    = (db0, status_json 400 "User already in team").
Proof.
  assert (u1 ∈ p_team project1) as Hin by left.
  split_and!; [reflexivity|reflexivity|by right|exact Hin|].
  exact (proj1 addTeamMember_existing_member db0 manager2 p1 u1 p1 project1
           eq_refl eq_refl (or_intror eq_refl) Hin).
Defined.

(** ** Listing tasks *)

(** The ids that [getTasks] collects from
    [Project.find({ $or: [{ manager: uid }, { team: uid }] })] are those of
    the projects that [uid] manages or is a team member of. *)
Lemma accessible_project_ids db (uid p : string) :
  p ∈ (fst <$> List.filter
                 (λ kv : string * Project,
                    ProjectModel.matches (ProjectModel.ManagerOrTeam uid) kv.2)
                 (map_to_list (projects db)))
  ↔ ∃ P, projects db !! p = Some P ∧ (p_manager P = uid ∨ uid ∈ p_team P).
Proof.
  rewrite list_elem_of_fmap. split.
  - intros ([k P] & -> & Hin). apply list_elem_of_In, filter_In in Hin as [Hin Hm].
    apply list_elem_of_In, elem_of_map_to_list in Hin. exists P. split; [done|].
    simpl in Hm. apply orb_true_iff in Hm as [Hm|Hm];
      apply bool_decide_eq_true in Hm; auto.
  - intros (P & HP & Hacc). exists (p, P). split; [done|].
    apply list_elem_of_In, filter_In. split.
    + by apply list_elem_of_In, elem_of_map_to_list.
    + simpl. apply orb_true_iff.
      destruct Hacc; [left|right]; by apply bool_decide_eq_true.
Qed.

(** C6.  A non-admin actor who lists tasks with an explicit project filter
    [p] that is not among the projects the actor manages or is a team member
    of gets the 403 answer "Not authorized to access tasks from this
    project"; the request is not answered with an empty list. *)
Theorem getTasks_foreign_project db user query p :
  a_role user ≠ "admin" →
  authenticated user →
  q_project query = Some p →
  p ≠ "" →
  (∀ P, projects db !! p = Some P →
        p_manager P ≠ a_id user ∧ a_id user ∉ p_team P) →
  taskController.getTasks user query db
  = (db, status_json 403 "Not authorized to access tasks from this project")
  ∧ taskController.getTasks user query db ≠ (db, json (ManyTasks [])).
Proof.
  intros Hrole Hauth Hq Hne Hforeign.
  assert (taskController.getTasks user query db
          = (db, status_json 403 "Not authorized to access tasks from this project"))
    as ->; [|done].
  unfold taskController.getTasks, ProjectModel.find, ProjectModel.castFilter.
  unfold_monad. rewrite Hauth. simpl.
  rewrite (bool_decide_eq_false_2 _ Hrole). simpl.
  rewrite Hq. simpl. rewrite (bool_decide_eq_false_2 _ Hne). simpl.
  destruct (existsb _ _) eqn:Hex; [|done]. exfalso.
  apply existsb_exists in Hex as (k & Hin & Heq).
  apply bool_decide_eq_true in Heq. injection Heq as ->.
  apply list_elem_of_In, accessible_project_ids in Hin as (P & HP & Hacc).
  destruct (Hforeign P HP) as [Hm Ht]. destruct Hacc; [by apply Hm|by apply Ht].
Qed.

Lemma getTasks_foreign_project_witness :
  a_role member3 ≠ "admin"
  ∧ authenticated member3
  ∧ taskController.getTasks member3 (mkTaskQuery (Some p1) None None None) db0
    = (db0, status_json 403 "Not authorized to access tasks from this project").
Proof.
  assert (a_role member3 ≠ "admin") as Hrole by discriminate.
  assert (∀ P, projects db0 !! p1 = Some P →
               p_manager P ≠ a_id member3 ∧ a_id member3 ∉ p_team P) as Hforeign.
  { intros P HP. injection HP as <-. split; [discriminate|].
    intros Hin. apply list_elem_of_singleton in Hin. discriminate. }
  split_and!; [exact Hrole|reflexivity|].
  apply (getTasks_foreign_project db0 member3
           (mkTaskQuery (Some p1) None None None) p1 Hrole eq_refl eq_refl);
    [discriminate|exact Hforeign].
Defined.

(** ** Updating a user *)

Lemma userFields_non_admin user body :
  a_role user ≠ "admin" →
  userController.userFields user body
  = UserModel.mkFields (pick (ub_name body)) (pick (ub_email body)) None.
Proof.
  intros Hrole. unfold userController.userFields.
  rewrite (bool_decide_eq_false_2 _ Hrole). by rewrite andb_false_r.
Qed.

(** What [updateUser] does on a user that exists, for a payload that passed
    validation. *)
Lemma updateUser_run db user id body k U :
  ObjectId.cast id = Some k →
  users db !! k = Some U →
  userController.updateUser user id [] body db
  = if negb (bool_decide (a_id user = id))
       && negb (bool_decide (a_role user = "admin"))
    then (db, status_json 403 "Not authorized to update this user")
    else if UserModel.emailTaken db k
              (UserModel.email (userController.userFields user body))
    then (db, server_error)
    else
      let U' := UserModel.set (userController.userFields user body) U in
      (set_users <[k := U']> db, json (OneUser (UserModel.doc (k, U')))).
Proof.
  intros Hcast HU.
  unfold userController.updateUser, UserModel.findById,
    UserModel.findByIdAndUpdate.
  unfold_monad. rewrite Hcast. simpl. rewrite HU. simpl.
  split_if; [done|]. rewrite HU. by split_if.
Qed.

(** The storage after [updateUser]: untouched, or the target user with the
    [$set] document applied. *)
Lemma updateUser_storage db user id errors body :
  (userController.updateUser user id errors body db).1 = db
  ∨ ∃ k U, users db !! k = Some U
           ∧ (userController.updateUser user id errors body db).1
             = set_users <[k := UserModel.set (userController.userFields user body) U]> db.
Proof.
  destruct errors as [|err errors]; [|by left].
  destruct (ObjectId.cast id) as [k|] eqn:Hcast;
    [destruct (users db !! k) as [U|] eqn:HU|].
  - rewrite (updateUser_run _ _ _ _ _ _ Hcast HU).
    split_if; [by left|]. split_if; [by left|]. right. by exists k, U.
  - left. unfold userController.updateUser, UserModel.findById.
    unfold_monad. rewrite Hcast. simpl. by rewrite HU.
  - left. unfold userController.updateUser, UserModel.findById.
    unfold_monad. by rewrite Hcast.
Qed.




(** ** Malformed identifiers *)

(** A handler whose [catch] block tests [err.kind === 'ObjectId'] answers a
    malformed id as it answers an id that resolves to nothing. *)
Lemma getTaskById_malformed db user id :
  ObjectId.cast id = None →
  taskController.getTaskById user id db = (db, status_json 404 "Task not found").
Proof.
  intros Hcast. unfold taskController.getTaskById, TaskModel.findById.
  unfold_monad. by rewrite Hcast.
Qed.

Lemma getTaskById_unresolved db user id k :
  ObjectId.cast id = Some k →
  tasks db !! k = None →
  taskController.getTaskById user id db = (db, status_json 404 "Task not found").
Proof.
  intros Hcast HT. unfold taskController.getTaskById, TaskModel.findById.
  unfold_monad. rewrite Hcast. simpl. by rewrite HT.
Qed.

Lemma createTask_unresolved db oid user body id k :
  tb_project body = Some id →
  ObjectId.cast id = Some k →
  projects db !! k = None →
  taskController.createTask oid user [] body db
  = (db, status_json 404 "Project not found").
Proof.
  intros Hp Hcast HP. unfold taskController.createTask, ProjectModel.findById.
  unfold_monad. rewrite Hp, Hcast. simpl. by rewrite HP.
Qed.

(** [createTask] has no [ObjectId] branch in its [catch] block. *)
Lemma createTask_malformed db oid user body id :
  tb_project body = Some id →
  ObjectId.cast id = None →
  taskController.createTask oid user [] body db = (db, server_error).
Proof.
  intros Hp Hcast. unfold taskController.createTask, ProjectModel.findById.
  unfold_monad. by rewrite Hp, Hcast.
Qed.

(** C8 (the code departs from the claim).  The claim: in every handler a
    malformed identifier has the NotFound outcome of a well-formed identifier
    that resolves to nothing, task creation with a malformed project id
    included.  [getTaskById] behaves so; [createTask] answers 404 for a
    well-formed project id that resolves to nothing and 500 for a malformed
    one. *)
Theorem createTask_malformed_project_id :
  let body project :=
    mkTaskBody (Some "Design") (Some "Draw it") (Some project)
               None None None None in
  ObjectId.cast "not-an-id" = None
  ∧ ObjectId.cast p2 = Some p2 ∧ projects db0 !! p2 = None
  ∧ routes.dispatch (routes.GetTaskById admin "not-an-id") db0
    = (db0, status_json 404 "Task not found")
  ∧ routes.dispatch (routes.GetTaskById admin p2) db0
    = (db0, status_json 404 "Task not found")
  ∧ routes.dispatch (routes.CreateTask t9 admin (body p2)) db0
    = (db0, status_json 404 "Project not found")
  ∧ routes.dispatch (routes.CreateTask t9 admin (body "not-an-id")) db0
    = (db0, server_error).
Proof. vm_compute. done. Qed.

(** ** Partial-merge updates *)

Lemma pick_Some v s : pick v = Some s → truthy v = true ∧ v = Some s.
Proof. unfold pick. by destruct (truthy v) eqn:Ht; intros ?; simplify_eq. Qed.

Lemma merged_default old req : merged old (default old (pick req)) req.
Proof.
  destruct (pick req) as [s|] eqn:Hp; simpl; [|by left].
  right. by apply pick_Some.
Qed.

Lemma merged_opt_keep old req :
  merged_opt old (ProjectModel.keep old (pick req)) req.
Proof.
  destruct (pick req) as [s|] eqn:Hp; simpl; [|by left].
  right. apply pick_Some in Hp as [Htr Heq]. by rewrite Heq in Htr |- *.
Qed.

(** The storage after [updateTask]: untouched, or the target task with the
    [$set] document applied, the assignee cast to an ObjectId. *)
Lemma updateTask_storage db user id errors body :
  (taskController.updateTask user id errors body db).1 = db
  ∨ ∃ k T,
      tasks db !! k = Some T
      ∧ (pick (tb_assignedTo body) ≫= ObjectId.cast = None →
         pick (tb_assignedTo body) = None)
      ∧ (taskController.updateTask user id errors body db).1
        = set_tasks
            <[k := TaskModel.set
                     (TaskModel.mkFields
                        (pick (tb_title body)) (pick (tb_description body))
                        (pick (tb_assignedTo body) ≫= ObjectId.cast)
                        (pick (tb_status body)) (pick (tb_priority body))
                        (pick (tb_dueDate body))) T]> db.
Proof.
  destruct errors as [|err errors]; [|by left].
  destruct (ObjectId.cast id) as [k|] eqn:Hcast;
    [destruct (tasks db !! k) as [T|] eqn:HT|].
  - destruct (projects db !! t_project T) as [P|] eqn:HP.
    + rewrite (updateTask_run _ _ _ _ _ _ _ Hcast HT HP).
      split_if; [by left|].
      unfold TaskModel.castFields, taskController.taskFields. unfold_monad.
      simpl. destruct (pick (tb_assignedTo body)) as [a|]; simpl.
      * destruct (ObjectId.cast a) as [a'|]; simpl; [|by left].
        right. by exists k, T.
      * right. by exists k, T.
    + left. unfold taskController.updateTask, TaskModel.findById,
        TaskModel.populate_project, TaskModel.plain, populateProject.
      unfold_monad. rewrite Hcast. simpl. rewrite HT. simpl. by rewrite HP.
  - left. unfold taskController.updateTask, TaskModel.findById.
    unfold_monad. rewrite Hcast. simpl. by rewrite HT.
  - left. unfold taskController.updateTask, TaskModel.findById.
    unfold_monad. by rewrite Hcast.
Qed.

(** C10.  [updateTask] never changes the project a task belongs to: for
    every request and every stored task, the project reference after the
    request is the one before it. *)
Theorem updateTask_keeps_project db user id errors body k :
  t_project <$> tasks (taskController.updateTask user id errors body db).1 !! k
  = t_project <$> tasks db !! k.
Proof.
  destruct (updateTask_storage db user id errors body)
    as [->|(k' & T & HT & _ & ->)]; [done|].
  simpl. destruct (decide (k' = k)) as [->|Hne].
  - by rewrite lookup_insert_eq, HT.
  - by rewrite lookup_insert_ne.
Qed.

(** The storage after [updateProject]: untouched, or the target project
    with the [$set] document applied, the references cast to ObjectIds. *)
Lemma updateProject_storage db user id errors body :
  (projectController.updateProject user id errors body db).1 = db
  ∨ ∃ k P m t,
      projects db !! k = Some P
      ∧ (match pick (pb_manager body) with
         | Some s => ObjectId.cast s = Some m
         | None => m = p_manager P
         end)
      ∧ (match pb_team body with
         | Some team => mapM ObjectId.cast team = Some t
         | None => t = p_team P
         end)
      ∧ (projectController.updateProject user id errors body db).1
        = set_projects
            <[k := mkProject (default (p_name P) (pick (pb_name body)))
                     (default (p_description P) (pick (pb_description body)))
                     m t
                     (ProjectModel.keep (p_status P) (pick (pb_status body)))
                     (ProjectModel.keep (p_startDate P) (pick (pb_startDate body)))
                     (ProjectModel.keep (p_endDate P) (pick (pb_endDate body)))]>
            db.
Proof.
  destruct errors as [|err errors]; [|by left].
  unfold projectController.updateProject, ProjectModel.findById,
    ProjectModel.findByIdAndUpdate, ProjectModel.castFields,
    projectController.projectFields.
  unfold_monad. simpl.
  destruct (ObjectId.cast id) as [k|] eqn:Hcast; simpl; [|by left].
  destruct (projects db !! k) as [P|] eqn:HP; simpl; [|by left].
  split_if; simpl; [by left|].
  destruct (pick (pb_manager body)) as [m|] eqn:Hm; simpl.
  - destruct (ObjectId.cast m) as [m'|] eqn:Hm'; simpl; [|by left].
    destruct (pb_team body) as [team|] eqn:Ht; simpl.
    + destruct (mapM ObjectId.cast team) as [team'|] eqn:Ht'; simpl; [|by left].
      rewrite HP. simpl. right. by exists k, P, m', team'.
    + rewrite HP. simpl. right. by exists k, P, m', (p_team P).
  - destruct (pb_team body) as [team|] eqn:Ht; simpl.
    + destruct (mapM ObjectId.cast team) as [team'|] eqn:Ht'; simpl; [|by left].
      rewrite HP. simpl. right. by exists k, P, (p_manager P), team'.
    + rewrite HP. simpl. right. by exists k, P, (p_manager P), (p_team P).
Qed.

(** A falsy request value leaves the field as it was. *)
Lemma merged_falsy old new req : truthy req = false → merged old new req → new = old.
Proof. intros Hf [?|[Ht _]]; congruence. Qed.

Lemma merged_opt_falsy old new req :
  truthy req = false → merged_opt old new req → new = old.
Proof. intros Hf [?|[Ht _]]; congruence. Qed.

Lemma merged_ref_falsy old new req :
  truthy req = false → merged_ref old new req → new = old.
Proof. intros Hf [?|[Ht _]]; congruence. Qed.

Lemma merged_id_falsy old new req :
  truthy req = false → merged_id old new req → new = old.
Proof. intros Hf [?|[Ht _]]; congruence. Qed.

Lemma updateUser_merge db user id errors body k U :
  users db !! k = Some U →
  ∃ U', users (userController.updateUser user id errors body db).1 !! k = Some U'
        ∧ merged (u_name U) (u_name U') (ub_name body)
        ∧ merged (u_email U) (u_email U') (ub_email body)
        ∧ merged (u_role U) (u_role U') (ub_role body)
        ∧ u_password U' = u_password U.
Proof.
  intros HU.
  destruct (updateUser_storage db user id errors body)
    as [->|(k' & U0 & HU0 & ->)].
  { exists U. split_and!; by try left. }
  simpl. destruct (decide (k' = k)) as [->|Hne].
  - rewrite lookup_insert_eq. eexists. split; [done|]. simplify_eq. simpl.
    split_and!; [apply merged_default..| |done].
    destruct (truthy (ub_role body) && bool_decide (a_role user = "admin"))
      eqn:Hb; [|by left].
    right. apply andb_true_iff in Hb as [Ht _]. split; [done|].
    by destruct (ub_role body).
  - rewrite lookup_insert_ne by done. exists U. split_and!; by try left.
Qed.

Lemma updateProject_merge db user id errors body k P :
  projects db !! k = Some P →
  ∃ P', projects (projectController.updateProject user id errors body db).1 !! k
        = Some P'
        ∧ merged (p_name P) (p_name P') (pb_name body)
        ∧ merged (p_description P) (p_description P') (pb_description body)
        ∧ merged_id (p_manager P) (p_manager P') (pb_manager body)
        ∧ merged_team (p_team P) (p_team P') (pb_team body)
        ∧ merged_opt (p_status P) (p_status P') (pb_status body)
        ∧ merged_opt (p_startDate P) (p_startDate P') (pb_startDate body)
        ∧ merged_opt (p_endDate P) (p_endDate P') (pb_endDate body).
Proof.
  intros HP.
  destruct (updateProject_storage db user id errors body)
    as [->|(k' & P0 & m & t & HP0 & Hm & Ht & ->)].
  { exists P. split_and!; by try left. }
  simpl. destruct (decide (k' = k)) as [->|Hne].
  - rewrite lookup_insert_eq. eexists. split; [done|]. simplify_eq. simpl.
    split_and!; try apply merged_default; try apply merged_opt_keep.
    + destruct (pick (pb_manager body)) as [s|] eqn:Hp; [|by left].
      right. apply pick_Some in Hp as [Htr Heq]. rewrite Heq in Htr |- *. done.
    + destruct (pb_team body) as [team|]; [|by left]. right. by exists team.
  - rewrite lookup_insert_ne by done. exists P. split_and!; by try left.
Qed.

Lemma updateTask_merge db user id errors body k T :
  tasks db !! k = Some T →
  ∃ T', tasks (taskController.updateTask user id errors body db).1 !! k = Some T'
        ∧ merged (t_title T) (t_title T') (tb_title body)
        ∧ merged (t_description T) (t_description T') (tb_description body)
        ∧ merged_ref (t_assignedTo T) (t_assignedTo T') (tb_assignedTo body)
        ∧ merged_opt (t_status T) (t_status T') (tb_status body)
        ∧ merged_opt (t_priority T) (t_priority T') (tb_priority body)
        ∧ merged_opt (t_dueDate T) (t_dueDate T') (tb_dueDate body)
        ∧ t_project T' = t_project T
        ∧ t_createdBy T' = t_createdBy T.
Proof.
  intros HT.
  destruct (updateTask_storage db user id errors body)
    as [->|(k' & T0 & HT0 & Hass & ->)].
  { exists T. split_and!; by try left. }
  simpl. destruct (decide (k' = k)) as [->|Hne].
  - rewrite lookup_insert_eq. eexists. split; [done|]. simplify_eq. simpl.
    split_and!; try apply merged_default; try apply merged_opt_keep; try done.
    unfold merged_ref.
    destruct (pick (tb_assignedTo body)) as [s|] eqn:Hp; simpl; [|by left].
    apply pick_Some in Hp as [Htr Heq]. rewrite Heq in Htr |- *. simpl in *.
    destruct (ObjectId.cast s) as [s'|]; simpl; [|by specialize (Hass eq_refl)].
    right. done.
  - rewrite lookup_insert_ne by done. exists T. split_and!; by try left.
Qed.

(** C9.  The update handlers merge field by field.  For every stored user,
    project and task, each field after an update either kept its prior value
    or holds the truthy value the request carried for it; a field that is
    absent from the request or supplied with a falsy value such as the empty
    string therefore keeps its prior value, and so do the fields the request
    cannot name (password, project of a task, creator). *)
Theorem update_partial_merge :
  (∀ db user id errors body k U,
     users db !! k = Some U →
     ∃ U', users (userController.updateUser user id errors body db).1 !! k = Some U'
           ∧ merged (u_name U) (u_name U') (ub_name body)
           ∧ merged (u_email U) (u_email U') (ub_email body)
           ∧ merged (u_role U) (u_role U') (ub_role body)
           ∧ u_password U' = u_password U)
  ∧ (∀ db user id errors body k P,
       projects db !! k = Some P →
       ∃ P', projects (projectController.updateProject user id errors body db).1 !! k
             = Some P'
             ∧ merged (p_name P) (p_name P') (pb_name body)
             ∧ merged (p_description P) (p_description P') (pb_description body)
             ∧ merged_id (p_manager P) (p_manager P') (pb_manager body)
             ∧ merged_team (p_team P) (p_team P') (pb_team body)
             ∧ merged_opt (p_status P) (p_status P') (pb_status body)
             ∧ merged_opt (p_startDate P) (p_startDate P') (pb_startDate body)
             ∧ merged_opt (p_endDate P) (p_endDate P') (pb_endDate body))
  ∧ (∀ db user id errors body k T,
       tasks db !! k = Some T →
       ∃ T', tasks (taskController.updateTask user id errors body db).1 !! k = Some T'
             ∧ merged (t_title T) (t_title T') (tb_title body)
             ∧ merged (t_description T) (t_description T') (tb_description body)
             ∧ merged_ref (t_assignedTo T) (t_assignedTo T') (tb_assignedTo body)
             ∧ merged_opt (t_status T) (t_status T') (tb_status body)
             ∧ merged_opt (t_priority T) (t_priority T') (tb_priority body)
             ∧ merged_opt (t_dueDate T) (t_dueDate T') (tb_dueDate body)
             ∧ t_project T' = t_project T
             ∧ t_createdBy T' = t_createdBy T)
  ∧ (∀ old new req,
       truthy req = false →
       (merged old new req → new = old)
       ∧ (merged_id old new req → new = old))
  ∧ (∀ old new req,
       truthy req = false →
       (merged_opt old new req → new = old)
       ∧ (merged_ref old new req → new = old))
  ∧ (∀ old new, merged_team old new None → new = old).
Proof.
  split_and!.
  - apply updateUser_merge.
  - apply updateProject_merge.
  - apply updateTask_merge.
  - intros old new req Hf. split; [by apply merged_falsy|by apply merged_id_falsy].
  - intros old new req Hf.
    split; [by apply merged_opt_falsy|by apply merged_ref_falsy].
  - intros old new [?|(team & ? & _)]; [done|discriminate].
Qed.

Lemma update_partial_merge_witness :
  tasks db0 !! t1 = Some task1
  ∧ ∃ T', tasks (taskController.updateTask member1 t1 []
                   (mkTaskBody (Some "") None None None (Some "done") None None)
                   db0).1 !! t1 = Some T'
          ∧ merged (t_title task1) (t_title T') (Some "")
          ∧ merged_opt (t_status task1) (t_status T') (Some "done").
Proof.
  split; [reflexivity|].
  destruct (proj1 (proj2 (proj2 update_partial_merge)) db0 member1 t1 []
              (mkTaskBody (Some "") None None None (Some "done") None None)
              t1 task1 eq_refl)
    as (T' & HT' & Htitle & _ & _ & Hstatus & _).
  exists T'. auto.
Defined.

(** ** The effect of a request on the storage *)

Lemma effect_intro (out : Db * Response) db :
  (let '(db', _) := out in effect db db') → effect db out.1.
Proof. by destruct out. Qed.

Ltac solve_effect := run_paths; by constructor.

Section Effect.

Context (user : Actor) (id : string) (db : Db).

Lemma getUsers_effect : effect db (userController.getUsers db).1.
Proof. apply effect_intro. unfold userController.getUsers. solve_effect. Qed.

Lemma getUserById_effect : effect db (userController.getUserById user id db).1.
Proof. apply effect_intro. unfold userController.getUserById. solve_effect. Qed.

Lemma updateUser_effect errors body :
  effect db (userController.updateUser user id errors body db).1.
Proof. apply effect_intro. unfold userController.updateUser. solve_effect. Qed.

Lemma deleteUser_effect : effect db (userController.deleteUser user id db).1.
Proof. apply effect_intro. unfold userController.deleteUser. solve_effect. Qed.

Lemma getProjects_effect : effect db (projectController.getProjects user db).1.
Proof. apply effect_intro. unfold projectController.getProjects. solve_effect. Qed.

Lemma getProjectById_effect :
  effect db (projectController.getProjectById user id db).1.
Proof. apply effect_intro. unfold projectController.getProjectById. solve_effect. Qed.

Lemma createProject_effect oid errors body :
  effect db (projectController.createProject oid user errors body db).1.
Proof. apply effect_intro. unfold projectController.createProject. solve_effect. Qed.

Lemma updateProject_effect errors body :
  effect db (projectController.updateProject user id errors body db).1.
Proof. apply effect_intro. unfold projectController.updateProject. solve_effect. Qed.

Lemma deleteProject_effect :
  effect db (projectController.deleteProject user id db).1.
Proof. apply effect_intro. unfold projectController.deleteProject. solve_effect. Qed.

Lemma addTeamMember_effect userId :
  effect db (projectController.addTeamMember user id userId db).1.
Proof. apply effect_intro. unfold projectController.addTeamMember. solve_effect. Qed.

Lemma removeTeamMember_effect userId :
  effect db (projectController.removeTeamMember user id userId db).1.
Proof.
  apply effect_intro. unfold projectController.removeTeamMember. solve_effect.
Qed.

Lemma getTasks_effect query : effect db (taskController.getTasks user query db).1.
Proof. apply effect_intro. unfold taskController.getTasks. solve_effect. Qed.

Lemma getTaskById_effect : effect db (taskController.getTaskById user id db).1.
Proof. apply effect_intro. unfold taskController.getTaskById. solve_effect. Qed.

Lemma createTask_effect oid errors body :
  effect db (taskController.createTask oid user errors body db).1.
Proof.
  apply effect_intro. unfold taskController.createTask. run_paths.
  all: try (by constructor).
  all: apply eff_task_put; simpl.
  all: match goal with
       | H : _ <$> projects db !! _ = Some _ |- _ =>
           apply fmap_Some in H as (P & -> & _); by eexists
       end.
Qed.

Lemma updateTask_effect errors body :
  effect db (taskController.updateTask user id errors body db).1.
Proof.
  apply effect_intro. unfold taskController.updateTask. run_paths.
  all: try (by constructor).
  all: simplify_eq/=; apply eff_task_put; simpl.
  all: match goal with
       | H : populateProject _ _ _ = Some _ |- _ =>
           unfold populateProject in H;
           apply fmap_Some in H as (P & -> & _); by eexists
       end.
Qed.

Lemma deleteTask_effect : effect db (taskController.deleteTask user id db).1.
Proof. apply effect_intro. unfold taskController.deleteTask. solve_effect. Qed.

End Effect.

(** Whatever the request, the storage changes in one of the ways of
    [effect]. *)
Lemma dispatch_effect r db : effect db (routes.dispatch r db).1.
Proof.
  destruct r; cbn [routes.dispatch].
  - unfold authorize. split_if; [constructor|]. apply getUsers_effect.
  - apply getUserById_effect.
  - apply updateUser_effect.
  - apply deleteUser_effect.
  - apply getProjects_effect.
  - apply getProjectById_effect.
  - unfold authorize. split_if; [constructor|]. apply createProject_effect.
  - apply updateProject_effect.
  - apply deleteProject_effect.
  - apply addTeamMember_effect.
  - apply removeTeamMember_effect.
  - apply getTasks_effect.
  - apply getTaskById_effect.
  - apply createTask_effect.
  - apply updateTask_effect.
  - apply deleteTask_effect.
Qed.

Lemma effect_tasks_resolve db db' :
  effect db db' → tasks_resolve db → tasks_resolve db'.
Proof.
  unfold tasks_resolve.
  destruct 1 as [|f|k P|k|k T HT|k]; simpl; intros Hres; try done.
  - intros j T HT. specialize (Hres j T HT). simpl in Hres.
    destruct (decide (k = t_project T)) as [->|Hne].
    + rewrite lookup_insert_eq. by eexists.
    + by rewrite lookup_insert_ne.
  - intros j T HT. apply map_lookup_filter_Some in HT as [HT Hne]. simpl in Hne.
    rewrite lookup_delete_ne by done. by apply (Hres j).
  - by apply map_Forall_insert_2.
  - by apply map_Forall_delete.
Qed.

(** X26.  No sequence of requests leaves a task whose project does not
    exist: every route keeps the references of tasks to projects resolved. *)
Lemma serve_tasks_resolve rs db :
  tasks_resolve db → tasks_resolve (routes.serve rs db).1.
Proof.
  revert db. induction rs as [|r rs IH]; intros db Hres; [done|]. simpl.
  pose proof (dispatch_effect r db) as Heff.
  destruct (routes.dispatch r db) as [db1 resp]. simpl in Heff.
  specialize (IH db1 (effect_tasks_resolve _ _ Heff Hres)).
  by destruct (routes.serve rs db1).
Qed.

(** * Further properties of the handlers *)
(** ** Which collections a request writes to *)

Lemma frame_intro (out : Db * Response) (P : Db → Prop) :
  (let '(db', _) := out in P db') → P out.1.
Proof. by destruct out. Qed.

Ltac solve_frame := run_paths; simpl; by repeat split.

Section Frame.

Context (user : Actor) (id : string) (db : Db).

Lemma getUsers_frame :
  (userController.getUsers db).1 = db.
Proof.
  apply (frame_intro _ (λ db', db' = db)). unfold userController.getUsers.
  solve_frame.
Qed.

Lemma getUserById_frame :
  (userController.getUserById user id db).1 = db.
Proof.
  apply (frame_intro _ (λ db', db' = db)). unfold userController.getUserById.
  solve_frame.
Qed.

Lemma getProjects_frame :
  (projectController.getProjects user db).1 = db.
Proof.
  apply (frame_intro _ (λ db', db' = db)). unfold projectController.getProjects.
  solve_frame.
Qed.

Lemma getProjectById_frame :
  (projectController.getProjectById user id db).1 = db.
Proof.
  apply (frame_intro _ (λ db', db' = db)). unfold projectController.getProjectById.
  solve_frame.
Qed.

Lemma getTasks_frame query :
  (taskController.getTasks user query db).1 = db.
Proof.
  apply (frame_intro _ (λ db', db' = db)). unfold taskController.getTasks.
  solve_frame.
Qed.

Lemma getTaskById_frame :
  (taskController.getTaskById user id db).1 = db.
Proof.
  apply (frame_intro _ (λ db', db' = db)). unfold taskController.getTaskById.
  solve_frame.
Qed.

Lemma updateUser_frame errors body :
  projects (userController.updateUser user id errors body db).1 = projects db
  ∧ tasks (userController.updateUser user id errors body db).1 = tasks db.
Proof.
  apply (frame_intro _ (λ db', projects db' = projects db ∧ tasks db' = tasks db)). unfold userController.updateUser.
  solve_frame.
Qed.

Lemma deleteUser_frame :
  projects (userController.deleteUser user id db).1 = projects db
  ∧ tasks (userController.deleteUser user id db).1 = tasks db.
Proof.
  apply (frame_intro _ (λ db', projects db' = projects db ∧ tasks db' = tasks db)). unfold userController.deleteUser.
  solve_frame.
Qed.

Lemma createProject_frame oid errors body :
  users (projectController.createProject oid user errors body db).1 = users db
  ∧ tasks (projectController.createProject oid user errors body db).1 = tasks db.
Proof.
  apply (frame_intro _ (λ db', users db' = users db ∧ tasks db' = tasks db)). unfold projectController.createProject.
  solve_frame.
Qed.

Lemma updateProject_frame errors body :
  users (projectController.updateProject user id errors body db).1 = users db
  ∧ tasks (projectController.updateProject user id errors body db).1 = tasks db.
Proof.
  apply (frame_intro _ (λ db', users db' = users db ∧ tasks db' = tasks db)). unfold projectController.updateProject.
  solve_frame.
Qed.

Lemma addTeamMember_frame userId :
  users (projectController.addTeamMember user id userId db).1 = users db
  ∧ tasks (projectController.addTeamMember user id userId db).1 = tasks db.
Proof.
  apply (frame_intro _ (λ db', users db' = users db ∧ tasks db' = tasks db)). unfold projectController.addTeamMember.
  solve_frame.
Qed.

Lemma removeTeamMember_frame userId :
  users (projectController.removeTeamMember user id userId db).1 = users db
  ∧ tasks (projectController.removeTeamMember user id userId db).1 = tasks db.
Proof.
  apply (frame_intro _ (λ db', users db' = users db ∧ tasks db' = tasks db)). unfold projectController.removeTeamMember.
  solve_frame.
Qed.

Lemma deleteProject_frame :
  users (projectController.deleteProject user id db).1 = users db.
Proof.
  apply (frame_intro _ (λ db', users db' = users db)). unfold projectController.deleteProject.
  solve_frame.
Qed.

Lemma createTask_frame oid errors body :
  users (taskController.createTask oid user errors body db).1 = users db
  ∧ projects (taskController.createTask oid user errors body db).1 = projects db.
Proof.
  apply (frame_intro _ (λ db', users db' = users db ∧ projects db' = projects db)). unfold taskController.createTask.
  solve_frame.
Qed.

Lemma updateTask_frame errors body :
  users (taskController.updateTask user id errors body db).1 = users db
  ∧ projects (taskController.updateTask user id errors body db).1 = projects db.
Proof.
  apply (frame_intro _ (λ db', users db' = users db ∧ projects db' = projects db)). unfold taskController.updateTask.
  solve_frame.
Qed.

Lemma deleteTask_frame :
  users (taskController.deleteTask user id db).1 = users db
  ∧ projects (taskController.deleteTask user id db).1 = projects db.
Proof.
  apply (frame_intro _ (λ db', users db' = users db ∧ projects db' = projects db)). unfold taskController.deleteTask.
  solve_frame.
Qed.

End Frame.

(** X1.  Every route writes only to its own collections: the read
    routes leave the storage as it is, the user routes leave projects and
    tasks alone (removing a user does not touch what references it), the
    project routes leave the users alone and only [deleteProject] among them
    touches tasks, the task routes leave users and projects alone. *)
Theorem dispatch_frame r db :
  (Users ∉ writes r → users (routes.dispatch r db).1 = users db)
  ∧ (Projects ∉ writes r → projects (routes.dispatch r db).1 = projects db)
  ∧ (Tasks ∉ writes r → tasks (routes.dispatch r db).1 = tasks db).
Proof.
  assert (∀ (c : Collection) l, c ∉ c :: l → False) as Hhd by (intros c l H; apply H; left).
  assert (∀ (c c' : Collection) l, c ∉ c' :: c :: l → False) as Hhd2
    by (intros c c' l H; apply H; right; left).
  destruct r; cbn [routes.dispatch writes].
  all: split_and!; intros Hw;
    try (exfalso; first [by eapply Hhd|by eapply Hhd2]).
  all: try (unfold authorize; split_if; [done|]).
  all: first
    [ by rewrite getUsers_frame | by rewrite getUserById_frame
    | by rewrite getProjects_frame | by rewrite getProjectById_frame
    | by rewrite getTasks_frame | by rewrite getTaskById_frame
    | apply updateUser_frame | apply deleteUser_frame
    | apply createProject_frame | apply updateProject_frame
    | apply addTeamMember_frame | apply removeTeamMember_frame
    | apply deleteProject_frame
    | apply createTask_frame | apply updateTask_frame | apply deleteTask_frame ].
Qed.

Lemma dispatch_frame_witness :
  (Projects ∉ writes (routes.DeleteUser admin u2))
  ∧ projects (routes.dispatch (routes.DeleteUser admin u2) db0).1 = projects db0
  ∧ users (routes.dispatch (routes.DeleteUser admin u2) db0).1 !! u2 = None.
Proof.
  assert (Projects ∉ writes (routes.DeleteUser admin u2)) as Hw.
  { simpl. intros Hin. apply list_elem_of_singleton in Hin. discriminate. }
  split_and!; [exact Hw| |reflexivity].
  exact (proj1 (proj2 (dispatch_frame (routes.DeleteUser admin u2) db0)) Hw).
Defined.

(** ** Roles *)

Lemma unprivileged_tests role :
  unprivileged role →
  bool_decide (role = "admin") = false
  ∧ bool_decide (role = "manager") = false
  ∧ bool_decide (role ∈ ["admin"; "manager"]) = false.
Proof.
  intros [Ha Hm]. split_and!; apply bool_decide_eq_false_2; try done.
  intros Hin. apply elem_of_cons in Hin as [?|Hin]; [done|].
  apply list_elem_of_singleton in Hin. done.
Qed.

(** X2.  The handlers and the middleware compare the role of the actor
    with ["admin"] and ["manager"] only: two actors with the same id whose
    roles are neither of the two get the same answer and leave the same
    storage, whatever the request.  An unknown role has the rights of a
    member. *)
Theorem unprivileged_roles_alike r db id role1 role2 :
  unprivileged role1 →
  unprivileged role2 →
  routes.dispatch (as_actor (mkActor id role1) r) db
  = routes.dispatch (as_actor (mkActor id role2) r) db.
Proof.
  intros H1 H2.
  destruct (unprivileged_tests _ H1) as (Ha1 & Hm1 & Hin1).
  destruct (unprivileged_tests _ H2) as (Ha2 & Hm2 & Hin2).
  destruct r; cbn [routes.dispatch as_actor].
  all: unfold authorize, userController.getUserById, userController.updateUser,
         userController.userFields,
         userController.deleteUser, projectController.getProjects,
         projectController.getProjectById, projectController.createProject,
         projectController.updateProject, projectController.deleteProject,
         projectController.addTeamMember, projectController.removeTeamMember,
         taskController.getTasks, taskController.getTaskById,
         taskController.createTask, taskController.updateTask,
         taskController.deleteTask; cbn [a_role a_id].
  all: rewrite ?Ha1, ?Hm1, ?Hin1, ?Ha2, ?Hm2, ?Hin2.
  all: reflexivity.
Qed.

Lemma unprivileged_roles_alike_witness :
  unprivileged "member"
  ∧ unprivileged "guest"
  ∧ routes.dispatch (as_actor (mkActor u1 "member") (routes.GetProjects admin)) db0
    = routes.dispatch (as_actor (mkActor u1 "guest") (routes.GetProjects admin)) db0.
Proof.
  assert (unprivileged "member") as H1 by (split; discriminate).
  assert (unprivileged "guest") as H2 by (split; discriminate).
  split_and!; [exact H1|exact H2|].
  exact (unprivileged_roles_alike (routes.GetProjects admin) db0 u1 _ _ H1 H2).
Defined.

(** ** Identifiers that do not resolve *)

Ltac unfold_handlers :=
  unfold userController.getUsers, userController.getUserById,
    userController.updateUser, userController.deleteUser,
    projectController.getProjects, projectController.getProjectById,
    projectController.createProject, projectController.updateProject,
    projectController.deleteProject, projectController.addTeamMember,
    projectController.removeTeamMember, taskController.getTasks,
    taskController.getTaskById, taskController.createTask,
    taskController.updateTask, taskController.deleteTask in *.

(** X3.  Every route with a path parameter (three user routes, five
    project routes, three task routes) answers 404 and leaves the storage
    unchanged when the parameter does not cast to an ObjectId (it is neither
    24 hexadecimal digits nor 12 characters) or is the id of no document of
    its collection; the lookup comes before the authorization test, so this
    holds for every actor. *)
Theorem unresolved_target_not_found r db c id :
  target r = Some (c, id) →
  passes_validation r →
  ¬ resolves db c id →
  status (routes.dispatch r db).2 = 404 ∧ (routes.dispatch r db).1 = db.
Proof.
  intros Ht Hval Hnr. unfold resolves in Hnr.
  destruct r; simpl in Ht, Hval; simplify_eq; cbn [routes.dispatch].
  all: unfold_handlers;
    unfold UserModel.findById, ProjectModel.findById_populated,
      ProjectModel.findById, TaskModel.findById;
    unfold_monad.
  all: destruct (ObjectId.cast id) as [k|] eqn:Hcast; simpl; [|split; reflexivity].
  all: match goal with
       | Hc : ObjectId.cast _ = Some ?j |- context [users ?d !! ?j] =>
           destruct (users d !! j) as [x|] eqn:Hx
       | Hc : ObjectId.cast _ = Some ?j |- context [projects ?d !! ?j] =>
           destruct (projects d !! j) as [x|] eqn:Hx
       | Hc : ObjectId.cast _ = Some ?j |- context [tasks ?d !! ?j] =>
           destruct (tasks d !! j) as [x|] eqn:Hx
       end; simpl; [|split; reflexivity].
  all: exfalso; apply Hnr; exists k; by eauto.
Qed.

Lemma unresolved_target_not_found_witness :
  target (routes.DeleteTask admin "not-an-id") = Some (Tasks, "not-an-id")
  ∧ ¬ resolves db0 Tasks "not-an-id"
  ∧ status (routes.dispatch (routes.DeleteTask admin "not-an-id") db0).2 = 404.
Proof.
  assert (¬ resolves db0 Tasks "not-an-id") as Hnr.
  { intros (k & Hk & _). vm_compute in Hk. discriminate. }
  split_and!; [reflexivity|exact Hnr|].
  exact (proj1 (unresolved_target_not_found (routes.DeleteTask admin "not-an-id")
                  db0 Tasks "not-an-id" eq_refl I Hnr)).
Defined.

(** ** Listing projects *)

Lemma find_ids {A} (f : A → bool) (m : gmap string A) (k : string) :
  k ∈ (fst <$> List.filter (λ kv : string * A, f kv.2) (map_to_list m))
  ↔ ∃ x, m !! k = Some x ∧ f x = true.
Proof.
  rewrite list_elem_of_fmap. split.
  - intros ([j x] & -> & Hin). apply list_elem_of_In, filter_In in Hin as [Hin Hf].
    apply list_elem_of_In, elem_of_map_to_list in Hin. by exists x.
  - intros (x & Hx & Hf). exists (k, x). split; [done|].
    apply list_elem_of_In, filter_In. split; [|done].
    by apply list_elem_of_In, elem_of_map_to_list.
Qed.

Lemma find_stored {A} (f : A → bool) (m : gmap string A) (kv : string * A) :
  kv ∈ List.filter (λ kv : string * A, f kv.2) (map_to_list m) →
  m !! kv.1 = Some kv.2 ∧ f kv.2 = true.
Proof.
  intros Hin. apply list_elem_of_In, filter_In in Hin as [Hin Hf].
  apply list_elem_of_In in Hin. destruct kv as [k x].
  by apply elem_of_map_to_list in Hin.
Qed.

(** X4.  [getProjects] answers 200 and lists exactly the stored projects
    the actor may see in a list: all of them for an admin; those the actor
    manages or is a team member of for the role manager; those the actor is
    a team member of for every other role -- a project managed by an actor
    whose role is not manager is listed for that actor only if the actor is
    in its team too.  Each listed document carries the stored fields. *)
Theorem getProjects_visibility db user :
  authenticated user →
  ∃ ps,
    projectController.getProjects user db = (db, json (ManyProjects ps))
    ∧ (∀ k, k ∈ pd_id <$> ps
            ↔ ∃ P, projects db !! k = Some P
                   ∧ (a_role user = "admin"
                      ∨ (a_role user = "manager" ∧ p_manager P = a_id user)
                      ∨ a_id user ∈ p_team P))
    ∧ (∀ p, p ∈ ps → projects db !! pd_id p = Some (pd_fields p)).
Proof.
  intros Hauth. unfold authenticated, ObjectId.canonical in Hauth.
  unfold projectController.getProjects, ProjectModel.find,
    ProjectModel.castFilter.
  unfold_monad.
  assert (∀ l : list (string * Project),
            pd_id <$> (ProjectModel.populate db <$> l) = fst <$> l) as Hids.
  { intros l. rewrite <- list_fmap_compose. by apply list_fmap_ext. }
  assert (∀ f p,
    p ∈ ProjectModel.populate db <$>
          List.filter (λ kv : string * Project, ProjectModel.matches f kv.2)
            (map_to_list (projects db)) →
    projects db !! pd_id p = Some (pd_fields p)) as Hstored.
  { intros f p Hp. apply list_elem_of_fmap in Hp as (kv & -> & Hkv).
    by apply find_stored in Hkv as [? _]. }
  destruct (bool_decide_reflect (a_role user = "admin")) as [Hadm|Hadm];
    [|destruct (bool_decide_reflect (a_role user = "manager")) as [Hman|Hman]];
    cbn -[ProjectModel.matches]; rewrite ?Hauth; cbn -[ProjectModel.matches].
  all: eexists; split; [reflexivity|]; split; [|by apply Hstored].
  all: intros k; rewrite Hids, find_ids; simpl.
  all: split; intros (P & HP & Hvis); exists P; (split; [done|]).
  - by left.
  - done.
  - apply orb_true_iff in Hvis as [H|H]; apply bool_decide_eq_true in H; auto.
  - apply orb_true_iff. destruct Hvis as [?|[[_ ?]|?]]; [done|left|right];
      by apply bool_decide_eq_true.
  - apply bool_decide_eq_true in Hvis. auto.
  - apply bool_decide_eq_true. destruct Hvis as [?|[[? _]|?]]; done.
Qed.

Lemma getProjects_visibility_witness :
  authenticated member1
  ∧ ∃ ps,
      projectController.getProjects member1 db0 = (db0, json (ManyProjects ps))
      ∧ (p1 ∈ pd_id <$> ps).
Proof.
  split; [reflexivity|].
  destruct (getProjects_visibility db0 member1 eq_refl) as (ps & Hrun & Hvis & _).
  exists ps. split; [exact Hrun|].
  apply Hvis. exists project1. split; [reflexivity|].
  right. right. left.
Defined.

(** ** Listing tasks, continued *)

(** What [getTasks] does for an authenticated actor who is not an admin. *)
Lemma getTasks_non_admin_run db user query :
  a_role user ≠ "admin" →
  authenticated user →
  let ids := fst <$> List.filter
                       (λ kv : string * Project,
                          ProjectModel.matches
                            (ProjectModel.ManagerOrTeam (a_id user)) kv.2)
                       (map_to_list (projects db)) in
  let assignee :=
    if bool_decide (q_assignedTo query = Some "me") then TaskModel.Eq (a_id user)
    else if bool_decide (q_assignedTo query = Some "unassigned") then
           TaskModel.NotExists
    else match pick (q_assignedTo query) with
         | Some a => TaskModel.Eq a
         | None => TaskModel.Any
         end in
  taskController.getTasks user query db
  = if truthy (q_project query)
       && negb (existsb (λ id, bool_decide (Some id = q_project query)) ids)
    then (db, status_json 403 "Not authorized to access tasks from this project")
    else match (TaskModel.castCond assignee db).2 with
         | inl e => (db, server_error)
         | inr a =>
             (db, json (ManyTasks
                          (taskController.populated ["name"] db <$>
                           List.filter
                             (λ kv : string * Task,
                                TaskModel.matches
                                  (TaskModel.mkFilter (TaskModel.In ids)
                                     (pick (q_status query))
                                     (pick (q_priority query)) a) kv.2)
                             (map_to_list (tasks db)))))
         end.
Proof.
  intros Hrole Hauth ids assignee. unfold authenticated, ObjectId.canonical in Hauth.
  unfold taskController.getTasks, ProjectModel.find, ProjectModel.castFilter,
    TaskModel.find.
  unfold_monad. rewrite (bool_decide_eq_false_2 _ Hrole).
  cbn -[ProjectModel.matches TaskModel.matches TaskModel.castCond].
  rewrite Hauth. cbn -[ProjectModel.matches TaskModel.matches TaskModel.castCond].
  fold ids. split_if; [done|].
  cbn -[ProjectModel.matches TaskModel.matches].
  fold assignee.
  destruct assignee as [|v|l|]; cbn -[ProjectModel.matches TaskModel.matches];
    try done.
  unfold_monad. by destruct (ObjectId.cast v).
Qed.

Lemma populated_fields select db kv :
  td_id (taskController.populated select db kv) = kv.1
  ∧ td_fields (taskController.populated select db kv) = kv.2.
Proof. done. Qed.

(** X5.  Whatever the query, the tasks that [getTasks] lists for an actor
    who is not an admin are stored tasks of projects the actor manages or is
    a team member of; with [assignedTo=me] they are moreover assigned to the
    actor.  A task assigned to the actor in a project outside that circle is
    never listed. *)
Theorem getTasks_lists_circle_only db user query ts :
  a_role user ≠ "admin" →
  authenticated user →
  taskController.getTasks user query db = (db, json (ManyTasks ts)) →
  ∀ t, t ∈ ts →
    tasks db !! td_id t = Some (td_fields t)
    ∧ (∃ P, projects db !! t_project (td_fields t) = Some P
            ∧ in_circle (a_id user) P)
    ∧ (q_assignedTo query = Some "me" →
       t_assignedTo (td_fields t) = Some (a_id user)).
Proof.
  intros Hrole Hauth Hrun t Ht.
  rewrite (getTasks_non_admin_run _ _ _ Hrole Hauth) in Hrun.
  cbn zeta in Hrun.
  destruct (truthy (q_project query) && _); [discriminate|].
  destruct (TaskModel.castCond _ db).2 as [e|a] eqn:Hcond; [discriminate|].
  injection Hrun as <-.
  apply list_elem_of_fmap in Ht as (kv & -> & Hkv).
  apply find_stored in Hkv as [Hstored Hm].
  destruct (populated_fields ["name"] db kv) as [-> ->].
  unfold TaskModel.matches in Hm. cbn [TaskModel.project TaskModel.assignedTo
    TaskModel.status TaskModel.priority] in Hm.
  apply andb_true_iff in Hm as [Hm Hass].
  apply andb_true_iff in Hm as [Hm _].
  apply andb_true_iff in Hm as [Hproj _].
  cbn [TaskModel.holds] in Hproj. apply bool_decide_eq_true in Hproj.
  apply accessible_project_ids in Hproj as (P & HP & Hcircle).
  split_and!; [done|by exists P|].
  intros Hme. rewrite Hme in Hcond.
  rewrite bool_decide_eq_true_2 in Hcond by done.
  unfold TaskModel.castCond in Hcond. unfold_monad.
  rewrite Hauth in Hcond. simpl in Hcond. injection Hcond as <-.
  simpl in Hass. by apply bool_decide_eq_true in Hass.
Qed.

Lemma getTasks_lists_circle_only_witness :
  a_role member1 ≠ "admin"
  ∧ authenticated member1
  ∧ ∃ ts,
      taskController.getTasks member1 (mkTaskQuery None None None None) db0
      = (db0, json (ManyTasks ts))
      ∧ ∀ t, t ∈ ts →
          ∃ P, projects db0 !! t_project (td_fields t) = Some P
               ∧ in_circle (a_id member1) P.
Proof.
  assert (a_role member1 ≠ "admin") as Hrole by discriminate.
  split_and!; [exact Hrole|reflexivity|].
  assert (∃ ts, taskController.getTasks member1
                  (mkTaskQuery None None None None) db0
                = (db0, json (ManyTasks ts))) as [ts Hrun].
  { vm_compute. eexists. reflexivity. }
  exists ts. split; [exact Hrun|].
  intros t Ht.
  exact (proj1 (proj2 (getTasks_lists_circle_only db0 member1 _ ts Hrole eq_refl
                         Hrun t Ht))).
Defined.

(** X6.  Without filters, [getTasks] lists for an actor who is not an
    admin exactly the tasks of the projects the actor manages or is a team
    member of. *)
Theorem getTasks_unfiltered db user :
  a_role user ≠ "admin" →
  authenticated user →
  ∃ ts,
    taskController.getTasks user (mkTaskQuery None None None None) db
    = (db, json (ManyTasks ts))
    ∧ ∀ k, k ∈ td_id <$> ts
           ↔ ∃ T P, tasks db !! k = Some T
                    ∧ projects db !! t_project T = Some P
                    ∧ in_circle (a_id user) P.
Proof.
  intros Hrole Hauth.
  rewrite (getTasks_non_admin_run _ _ _ Hrole Hauth).
  cbn -[ProjectModel.matches TaskModel.matches].
  assert (∀ l : list (string * Task),
            td_id <$> (taskController.populated ["name"] db <$> l) = fst <$> l)
    as Hids.
  { intros l. rewrite <- list_fmap_compose. by apply list_fmap_ext. }
  eexists. split; [reflexivity|]. intros k.
  rewrite Hids, find_ids. unfold TaskModel.matches. simpl.
  split.
  - intros (T & HT & Hm). rewrite !andb_true_r in Hm.
    apply bool_decide_eq_true, accessible_project_ids in Hm as (P & HP & Hc).
    by exists T, P.
  - intros (T & P & HT & HP & Hc). exists T. split; [done|].
    rewrite !andb_true_r. apply bool_decide_eq_true, accessible_project_ids.
    by exists P.
Qed.

Lemma getTasks_unfiltered_witness :
  a_role member1 ≠ "admin"
  ∧ authenticated member1
  ∧ ∃ ts,
      taskController.getTasks member1 (mkTaskQuery None None None None) db0
      = (db0, json (ManyTasks ts))
      ∧ t1 ∈ td_id <$> ts.
Proof.
  assert (a_role member1 ≠ "admin") as Hrole by discriminate.
  split_and!; [exact Hrole|reflexivity|].
  destruct (getTasks_unfiltered db0 member1 Hrole eq_refl) as (ts & Hrun & Hts).
  exists ts. split; [exact Hrun|].
  apply Hts. exists task1, project1. split_and!; [reflexivity..|].
  right. left.
Defined.

(** ** Viewing and updating a task *)

Lemma assigned_populated db (uid : string) (a : option string) :
  match a ≫= populateUser db with
  | Some assignee => bool_decide (ur_id assignee = uid)
  | None => false
  end = true
  ↔ a = Some uid ∧ is_Some (users db !! uid).
Proof.
  unfold populateUser. destruct a as [a|]; simpl; [|split; [done|by intros [? _]]].
  destruct (users db !! a) as [u|] eqn:Hu; simpl.
  - rewrite bool_decide_eq_true. split.
    + intros ->. split; [done|]. by exists u.
    + by intros [[= ->] _].
  - split; [done|]. intros [[= ->] [u Hu']]. congruence.
Qed.

(** X7.  On a task whose project resolves, [getTaskById] answers 200
    exactly for an admin, the manager of the project, a member of its team,
    and the assignee whose user document exists; everybody else gets the 403
    answer.  (The assignee is recognised on the populated document: an
    assignee whose account is gone is not.) *)
Theorem getTaskById_policy db user id k T P :
  ObjectId.cast id = Some k →
  tasks db !! k = Some T →
  projects db !! t_project T = Some P →
  let allowed :=
    a_role user = "admin" ∨ p_manager P = a_id user ∨ a_id user ∈ p_team P
    ∨ (t_assignedTo T = Some (a_id user) ∧ is_Some (users db !! a_id user)) in
  (allowed →
   taskController.getTaskById user id db
   = (db, json (OneTask (taskController.populated ["name"; "manager"; "team"]
                           db (k, T)))))
  ∧ (¬ allowed →
     taskController.getTaskById user id db
     = (db, status_json 403 "Not authorized to view this task")).
Proof.
  intros Hcast HT HP allowed.
  rewrite (getTaskById_run _ _ _ _ _ _ Hcast HT HP).
  pose proof (existsb_bool_decide_eq (a_id user) (p_team P)) as Hteam.
  pose proof (assigned_populated db (a_id user) (t_assignedTo T)) as Hass.
  destruct (bool_decide_reflect (a_role user = "admin")) as [Hadm|Hadm];
    destruct (bool_decide_reflect (p_manager P = a_id user)) as [Hman|Hman];
    destruct (existsb _ (p_team P)) eqn:Hex;
    destruct (match t_assignedTo T ≫= populateUser db with
              | Some assignee => bool_decide (ur_id assignee = a_id user)
              | None => false
              end) eqn:Hpop; simpl; subst allowed.
  all: split; intros Hall; try done; exfalso.
  all: try (apply Hall; tauto).
  destruct Hall as [?|[?|[Hin|Hasg]]]; try done.
  - apply Hteam in Hin. discriminate.
  - apply Hass in Hasg. discriminate.
Qed.

Lemma getTaskById_policy_witness :
  ObjectId.cast t2 = Some t2
  ∧ tasks db0 !! t2 = Some task2
  ∧ projects db0 !! t_project task2 = Some project1
  ∧ taskController.getTaskById member3 t2 db0
    = (db0, json (OneTask (taskController.populated ["name"; "manager"; "team"]
                             db0 (t2, task2)))).
Proof.
  split_and!; [reflexivity..|].
  apply (getTaskById_policy db0 member3 t2 t2 task2 project1 eq_refl eq_refl eq_refl).
  right. right. right. split; [reflexivity|]. eexists. reflexivity.
Defined.

(** X8.  On a task whose project resolves, [updateTask] by an actor who
    is neither admin, manager of the project, member of its team nor the
    stored assignee answers 403 and changes nothing.  For the others the
    merged task is stored and the answer is 200 when the assignee of the
    payload, if any, casts to an ObjectId (24 hexadecimal digits or 12
    characters); when it does not, the answer is 404 "Task not found" and
    nothing is stored.  The stored task has the truthy fields of the payload
    and otherwise the stored values, the project and the creator as they
    were.  That the assignee names an existing user or a member of the
    project is not checked. *)
Theorem updateTask_policy db user id body k T P :
  ObjectId.cast id = Some k →
  tasks db !! k = Some T →
  projects db !! t_project T = Some P →
  let allowed :=
    a_role user = "admin" ∨ p_manager P = a_id user ∨ a_id user ∈ p_team P
    ∨ t_assignedTo T = Some (a_id user) in
  (¬ allowed →
   taskController.updateTask user id [] body db
   = (db, status_json 403 "Not authorized to update this task"))
  ∧ (allowed → assignee_ok body →
     status (taskController.updateTask user id [] body db).2 = 200
     ∧ (taskController.updateTask user id [] body db).1
       = set_tasks <[k := updated_task body T]> db)
  ∧ (allowed → ¬ assignee_ok body →
     taskController.updateTask user id [] body db
     = (db, status_json 404 "Task not found")).
Proof.
  intros Hcast HT HP allowed.
  rewrite (updateTask_run _ _ _ _ _ _ _ Hcast HT HP).
  pose proof (existsb_bool_decide_eq (a_id user) (p_team P)) as Hteam.
  assert ((match t_assignedTo T with
           | Some assignee => bool_decide (assignee = a_id user)
           | None => false
           end) = true ↔ t_assignedTo T = Some (a_id user)) as Hass.
  { destruct (t_assignedTo T) as [a|]; [|done].
    rewrite bool_decide_eq_true. split; congruence. }
  assert (negb (bool_decide (a_role user = "admin"))
          && negb (bool_decide (p_manager P = a_id user))
          && negb (existsb (λ member, bool_decide (member = a_id user)) (p_team P))
          && negb (match t_assignedTo T with
                   | Some assignee => bool_decide (assignee = a_id user)
                   | None => false
                   end) = false ↔ allowed) as Hguard.
  { subst allowed.
    destruct (bool_decide_reflect (a_role user = "admin")),
      (bool_decide_reflect (p_manager P = a_id user)),
      (existsb _ (p_team P)),
      (match t_assignedTo T with
       | Some assignee => bool_decide (assignee = a_id user)
       | None => false
       end); simpl; split; try done; try tauto.
    intros [?|[?|[Hin|Hasg]]]; try done.
    - by apply Hteam in Hin.
    - by apply Hass in Hasg. }
  destruct (negb _ && negb _ && negb _ && negb _).
  - split_and!; [done|intros Hall..]; apply Hguard in Hall; discriminate.
  - split_and!.
    + intros Hnot. exfalso. by apply Hnot, Hguard.
    + intros _ Hok. unfold assignee_ok in Hok. unfold updated_task.
      unfold TaskModel.castFields, taskController.taskFields. unfold_monad.
      simpl. destruct (pick (tb_assignedTo body)) as [a|]; simpl; [|done].
      destruct Hok as [a' Ha']. by rewrite Ha'.
    + intros _ Hbad. unfold assignee_ok in Hbad.
      unfold TaskModel.castFields, taskController.taskFields. unfold_monad.
      simpl. destruct (pick (tb_assignedTo body)) as [a|]; simpl; [|done].
      destruct (ObjectId.cast a) as [a'|]; simpl; [|done].
      exfalso. apply Hbad. by eexists.
Qed.

Lemma updateTask_policy_witness :
  ObjectId.cast t1 = Some t1
  ∧ tasks db0 !! t1 = Some task1
  ∧ projects db0 !! t_project task1 = Some project1
  ∧ taskController.updateTask member3 t1 [] noTaskBody db0
    = (db0, status_json 403 "Not authorized to update this task").
Proof.
  split_and!; [reflexivity..|].
  apply (updateTask_policy db0 member3 t1 noTaskBody t1 task1 project1
           eq_refl eq_refl eq_refl).
  intros [H|[H|[H|H]]]; try discriminate.
  apply list_elem_of_singleton in H. discriminate.
Defined.

(** ** Creating a task *)

(** What the route of [createTask] does for a payload that names an
    existing project. *)
Lemma createTask_run db oid user body title description pid k P :
  tb_title body = Some title → title ≠ "" →
  tb_description body = Some description → description ≠ "" →
  tb_project body = Some pid →
  ObjectId.cast pid = Some k →
  projects db !! k = Some P →
  authenticated user →
  ObjectId.canonical oid →
  let stored a :=
    mkTask title description k a (tb_status body) (tb_priority body)
           (tb_dueDate body) (a_id user) in
  let created a :=
    let db' := set_tasks <[oid := stored a]> db in
    (db', json (OneTask (taskController.populated ["name"] db' (oid, stored a)))) in
  routes.dispatch (routes.CreateTask oid user body) db
  = if negb (bool_decide (a_role user = "admin"))
       && negb (bool_decide (p_manager P = a_id user))
       && negb (existsb (λ member, bool_decide (member = a_id user)) (p_team P))
    then (db, status_json 403 "Not authorized to add tasks to this project")
    else match tb_assignedTo body with
         | None => created None
         | Some a => match ObjectId.cast a with
                     | Some a' => created (Some a')
                     | None => (db, server_error)
                     end
         end.
Proof.
  intros Ht Htne Hd Hdne Hp Hcast HP Hauth Hoid stored created.
  assert (pid ≠ "") as Hpne by (intros ->; discriminate).
  cbn [routes.dispatch]. unfold routes.notEmpty. rewrite Ht, Hd, Hp. simpl.
  rewrite !bool_decide_eq_false_2 by done. simpl.
  unfold taskController.createTask, ProjectModel.findById, TaskModel.create,
    TaskModel.findById.
  unfold_monad. rewrite Ht, Hd, Hp, Hcast. simpl. rewrite HP. simpl.
  split_if; [done|]. simpl.
  subst created stored. unfold authenticated, ObjectId.canonical in *.
  destruct (tb_assignedTo body) as [a|]; simpl.
  - destruct (ObjectId.cast a) as [a'|]; simpl; [|done].
    rewrite Hauth. simpl. rewrite Hoid. simpl. by rewrite lookup_insert_eq.
  - rewrite Hauth. simpl. rewrite Hoid. simpl. by rewrite lookup_insert_eq.
Qed.

(** X9.  Through its route, [createTask] into an existing project with a
    non-empty title and description and a well-formed assignee (if any)
    answers 200 exactly for an admin, the manager and the team members of the
    target project, and 403 for everybody else.  The stored task references
    the resolved project and has the actor as creator; its assignee is
    neither looked up among the users nor required to be in the project. *)
Theorem createTask_policy db oid user body title description pid k P :
  tb_title body = Some title → title ≠ "" →
  tb_description body = Some description → description ≠ "" →
  tb_project body = Some pid →
  ObjectId.cast pid = Some k →
  projects db !! k = Some P →
  authenticated user →
  ObjectId.canonical oid →
  new_assignee_ok body →
  let allowed :=
    a_role user = "admin" ∨ p_manager P = a_id user ∨ a_id user ∈ p_team P in
  (¬ allowed →
   routes.dispatch (routes.CreateTask oid user body) db
   = (db, status_json 403 "Not authorized to add tasks to this project"))
  ∧ (allowed →
     status (routes.dispatch (routes.CreateTask oid user body) db).2 = 200
     ∧ tasks (routes.dispatch (routes.CreateTask oid user body) db).1 !! oid
       = Some (mkTask title description k (tb_assignedTo body ≫= ObjectId.cast)
                      (tb_status body) (tb_priority body) (tb_dueDate body)
                      (a_id user))).
Proof.
  intros Ht Htne Hd Hdne Hp Hcast HP Hauth Hoid Hass allowed.
  rewrite (createTask_run _ _ _ _ _ _ _ _ _ Ht Htne Hd Hdne Hp Hcast HP Hauth Hoid).
  pose proof (existsb_bool_decide_eq (a_id user) (p_team P)) as Hteam.
  assert (negb (bool_decide (a_role user = "admin"))
          && negb (bool_decide (p_manager P = a_id user))
          && negb (existsb (λ member, bool_decide (member = a_id user)) (p_team P))
          = false ↔ allowed) as Hguard.
  { subst allowed.
    destruct (bool_decide_reflect (a_role user = "admin")),
      (bool_decide_reflect (p_manager P = a_id user)),
      (existsb _ (p_team P)); simpl; split; try done; try tauto.
    intros [?|[?|Hin]]; try done. by apply Hteam in Hin. }
  destruct (negb _ && negb _ && negb _).
  - split; [done|]. intros Hall. apply Hguard in Hall. discriminate.
  - split; [intros Hnot; exfalso; by apply Hnot, Hguard|]. intros _.
    unfold new_assignee_ok in Hass.
    destruct (tb_assignedTo body) as [a|]; simpl in *.
    + destruct (ObjectId.cast a) as [a'|]; simpl in *;
        [|by destruct Hass].
      split; [done|]. by rewrite lookup_insert_eq.
    + split; [done|]. by rewrite lookup_insert_eq.
Qed.

Lemma createTask_policy_witness :
  let body := mkTaskBody (Some "Test") (Some "Try it") (Some p1)
                         (Some u3) None None None in
  authenticated member1
  ∧ ObjectId.canonical t9
  ∧ status (routes.dispatch (routes.CreateTask t9 member1 body) db0).2 = 200
  ∧ tasks (routes.dispatch (routes.CreateTask t9 member1 body) db0).1 !! t9
    = Some (mkTask "Test" "Try it" p1 (Some u3) None None None u1).
Proof.
  intros body.
  assert (a_role member1 = "admin" ∨ p_manager project1 = a_id member1
          ∨ a_id member1 ∈ p_team project1) as Hall.
  { right. right. left. }
  split_and!; [reflexivity|reflexivity|..];
    apply (proj2 (createTask_policy db0 t9 member1 body "Test" "Try it" p1 p1
                    project1 eq_refl ltac:(discriminate) eq_refl
                    ltac:(discriminate) eq_refl eq_refl eq_refl eq_refl eq_refl
                    (mk_is_Some _ _ eq_refl : new_assignee_ok body)) Hall).
Defined.

(** X10.  A task that [createTask] has stored can be read back by its
    creator: [getTaskById] on the new id answers 200 with the stored task. *)
Theorem createTask_then_getTaskById db oid user body title description pid k P :
  tb_title body = Some title → title ≠ "" →
  tb_description body = Some description → description ≠ "" →
  tb_project body = Some pid →
  ObjectId.cast pid = Some k →
  projects db !! k = Some P →
  authenticated user →
  ObjectId.canonical oid →
  new_assignee_ok body →
  a_role user = "admin" ∨ p_manager P = a_id user ∨ a_id user ∈ p_team P →
  let db' := (routes.dispatch (routes.CreateTask oid user body) db).1 in
  let T := mkTask title description k (tb_assignedTo body ≫= ObjectId.cast)
                  (tb_status body) (tb_priority body) (tb_dueDate body)
                  (a_id user) in
  taskController.getTaskById user oid db'
  = (db', json (OneTask (taskController.populated ["name"; "manager"; "team"]
                           db' (oid, T)))).
Proof.
  intros Ht Htne Hd Hdne Hp Hcast HP Hauth Hoid Hass Hall db' T.
  assert (db' = set_tasks <[oid := T]> db) as Hdb'.
  { subst db' T.
    rewrite (createTask_run _ _ _ _ _ _ _ _ _ Ht Htne Hd Hdne Hp Hcast HP Hauth
               Hoid).
    assert (negb (bool_decide (a_role user = "admin"))
            && negb (bool_decide (p_manager P = a_id user))
            && negb (existsb (λ member, bool_decide (member = a_id user))
                             (p_team P)) = false) as ->.
    { destruct Hall as [H|[H|H]].
      - by rewrite (bool_decide_eq_true_2 _ H).
      - rewrite (bool_decide_eq_true_2 _ H). by rewrite andb_false_r.
      - apply existsb_bool_decide_eq in H. rewrite H. by rewrite andb_false_r. }
    unfold new_assignee_ok in Hass.
    destruct (tb_assignedTo body) as [a|]; simpl in *; [|done].
    destruct (ObjectId.cast a) as [a'|]; simpl; [done|by destruct Hass]. }
  assert (tasks db' !! oid = Some T) as HT.
  { rewrite Hdb'. simpl. apply lookup_insert_eq. }
  assert (projects db' !! t_project T = Some P) as HP'.
  { by rewrite Hdb'. }
  rewrite (getTaskById_run _ _ _ _ _ _ Hoid HT HP').
  assert (negb (bool_decide (a_role user = "admin"))
          && negb (bool_decide (p_manager P = a_id user))
          && negb (existsb (λ member, bool_decide (member = a_id user))
                           (p_team P)) = false) as Hguard.
  { destruct Hall as [H|[H|H]].
    - by rewrite (bool_decide_eq_true_2 _ H).
    - rewrite (bool_decide_eq_true_2 _ H). by rewrite andb_false_r.
    - apply existsb_bool_decide_eq in H. rewrite H. by rewrite andb_false_r. }
  by rewrite Hguard.
Qed.

Lemma createTask_then_getTaskById_witness :
  let body := mkTaskBody (Some "Test") (Some "Try it") (Some p1)
                         None None None None in
  let db' := (routes.dispatch (routes.CreateTask t9 member1 body) db0).1 in
  authenticated member1
  ∧ ObjectId.canonical t9
  ∧ status (taskController.getTaskById member1 t9 db').2 = 200.
Proof.
  intros body db'.
  assert (a_role member1 = "admin" ∨ p_manager project1 = a_id member1
          ∨ a_id member1 ∈ p_team project1) as Hall.
  { right. right. left. }
  split_and!; [reflexivity|reflexivity|].
  subst db'.
  rewrite (createTask_then_getTaskById db0 t9 member1 body "Test" "Try it" p1 p1
             project1 eq_refl ltac:(discriminate) eq_refl ltac:(discriminate)
             eq_refl eq_refl eq_refl eq_refl eq_refl I Hall).
  reflexivity.
Defined.

(** ** Repeating an update *)

Lemma default_idem {A} (x : A) (o : option A) : default (default x o) o = default x o.
Proof. by destruct o. Qed.

Lemma keep_idem {A} (x o : option A) :
  ProjectModel.keep (ProjectModel.keep x o) o = ProjectModel.keep x o.
Proof. by destruct o. Qed.

Lemma UserModel_set_idem f U : UserModel.set f (UserModel.set f U) = UserModel.set f U.
Proof. unfold UserModel.set. simpl. by rewrite !default_idem. Qed.

Lemma ProjectModel_set_idem f P :
  ProjectModel.set f (ProjectModel.set f P) = ProjectModel.set f P.
Proof. unfold ProjectModel.set. simpl. by rewrite !default_idem, !keep_idem. Qed.

Lemma TaskModel_set_idem f T : TaskModel.set f (TaskModel.set f T) = TaskModel.set f T.
Proof. unfold TaskModel.set. simpl. by rewrite !default_idem, !keep_idem. Qed.

(** The storage after an update, with the document that was written. *)
Lemma updateUser_storage_at db user id errors body :
  (userController.updateUser user id errors body db).1 = db
  ∨ ∃ k U, ObjectId.cast id = Some k ∧ users db !! k = Some U
           ∧ (userController.updateUser user id errors body db).1
             = set_users
                 <[k := UserModel.set (userController.userFields user body) U]> db.
Proof.
  destruct errors as [|err errors]; [|by left].
  destruct (ObjectId.cast id) as [k|] eqn:Hcast;
    [destruct (users db !! k) as [U|] eqn:HU|].
  - rewrite (updateUser_run _ _ _ _ _ _ Hcast HU).
    split_if; [by left|]. split_if; [by left|]. right. by exists k, U.
  - left. unfold userController.updateUser, UserModel.findById.
    unfold_monad. rewrite Hcast. simpl. by rewrite HU.
  - left. unfold userController.updateUser, UserModel.findById.
    unfold_monad. by rewrite Hcast.
Qed.

(** What [updateProject] does on a project that exists, for a payload that
    passed validation. *)
Lemma updateProject_run db user id body k P :
  ObjectId.cast id = Some k →
  projects db !! k = Some P →
  projectController.updateProject user id [] body db
  = if negb (bool_decide (a_role user = "admin"))
       && negb (bool_decide (a_id user = p_manager P))
    then (db, status_json 403 "Not authorized to update this project")
    else match (ProjectModel.castFields
                  (projectController.projectFields body) db).2 with
         | inl e => (db, catch_ObjectId "Project not found" e)
         | inr f =>
             let db' := set_projects <[k := ProjectModel.set f P]> db in
             (db', json (OneProject
                           (ProjectModel.populate db' (k, ProjectModel.set f P))))
         end.
Proof.
  intros Hcast HP.
  unfold projectController.updateProject, ProjectModel.findById,
    ProjectModel.findByIdAndUpdate, ProjectModel.castFields.
  unfold_monad. rewrite Hcast. simpl. rewrite HP. simpl.
  split_if; [done|].
  destruct (pick (pb_manager body)) as [m|]; simpl.
  - destruct (ObjectId.cast m) as [m'|]; simpl; [|done].
    destruct (pb_team body) as [t|]; simpl.
    + destruct (mapM ObjectId.cast t) as [t'|]; simpl; [|done]. by rewrite HP.
    + by rewrite HP.
  - destruct (pb_team body) as [t|]; simpl.
    + destruct (mapM ObjectId.cast t) as [t'|]; simpl; [|done]. by rewrite HP.
    + by rewrite HP.
Qed.

Lemma castFields_project_db f db :
  (ProjectModel.castFields f db).1 = db.
Proof.
  unfold ProjectModel.castFields. unfold_monad.
  destruct (ProjectModel.manager f) as [m|]; simpl.
  - destruct (ObjectId.cast m); simpl; [|done].
    destruct (ProjectModel.team f) as [t|]; simpl; [|done].
    by destruct (mapM ObjectId.cast t).
  - destruct (ProjectModel.team f) as [t|]; simpl; [|done].
    by destruct (mapM ObjectId.cast t).
Qed.

Lemma castFields_project_indep f db1 db2 :
  (ProjectModel.castFields f db1).2 = (ProjectModel.castFields f db2).2.
Proof.
  unfold ProjectModel.castFields. unfold_monad.
  destruct (ProjectModel.manager f) as [m|]; simpl.
  - destruct (ObjectId.cast m); simpl; [|done].
    destruct (ProjectModel.team f) as [t|]; simpl; [|done].
    by destruct (mapM ObjectId.cast t).
  - destruct (ProjectModel.team f) as [t|]; simpl; [|done].
    by destruct (mapM ObjectId.cast t).
Qed.

Lemma castFields_task_indep f db1 db2 :
  (TaskModel.castFields f db1).2 = (TaskModel.castFields f db2).2.
Proof.
  unfold TaskModel.castFields. unfold_monad.
  destruct (TaskModel.f_assignedTo f) as [a|]; simpl; [|done].
  by destruct (ObjectId.cast a).
Qed.

Lemma updateProject_unresolved db user id errors body :
  (∀ k, ObjectId.cast id = Some k → projects db !! k = None) →
  (projectController.updateProject user id errors body db).1 = db.
Proof.
  intros Hnone. destruct errors; [|done].
  unfold projectController.updateProject, ProjectModel.findById.
  unfold_monad. destruct (ObjectId.cast id) as [k|] eqn:Hcast; simpl; [|done].
  by rewrite (Hnone k).
Qed.

Lemma updateTask_unresolved db user id errors body :
  (∀ k, ObjectId.cast id = Some k → tasks db !! k = None) →
  (taskController.updateTask user id errors body db).1 = db.
Proof.
  intros Hnone. destruct errors; [|done].
  unfold taskController.updateTask, TaskModel.findById.
  unfold_monad. destruct (ObjectId.cast id) as [k|] eqn:Hcast; simpl; [|done].
  by rewrite (Hnone k).
Qed.

Lemma updateTask_dangling db user id errors body k T :
  ObjectId.cast id = Some k →
  tasks db !! k = Some T →
  projects db !! t_project T = None →
  (taskController.updateTask user id errors body db).1 = db.
Proof.
  intros Hcast HT HP. destruct errors; [|done].
  unfold taskController.updateTask, TaskModel.findById,
    TaskModel.populate_project, TaskModel.plain, populateProject.
  unfold_monad. rewrite Hcast. simpl. rewrite HT. simpl. by rewrite HP.
Qed.

(** X11.  The update handlers are idempotent on the storage: sending the
    same update request a second time leaves the storage as the first one
    left it, whether the first one was applied, denied or failed. *)
Theorem update_idempotent :
  (∀ db user id errors body,
     let once := (userController.updateUser user id errors body db).1 in
     (userController.updateUser user id errors body once).1 = once)
  ∧ (∀ db user id errors body,
       let once := (projectController.updateProject user id errors body db).1 in
       (projectController.updateProject user id errors body once).1 = once)
  ∧ (∀ db user id errors body,
       let once := (taskController.updateTask user id errors body db).1 in
       (taskController.updateTask user id errors body once).1 = once).
Proof.
  split_and!; intros db user id errors body once; subst once.
  - destruct (updateUser_storage_at db user id errors body)
      as [Hsame|(k & U & Hcast & HU & Hdb1)].
    { by rewrite !Hsame. }
    rewrite Hdb1.
    destruct (updateUser_storage_at
                (set_users
                   <[k := UserModel.set (userController.userFields user body) U]> db)
                user id errors body)
      as [Hsame|(k' & U' & Hcast' & HU' & ->)]; [done|].
    simplify_eq. simpl in HU'. rewrite lookup_insert_eq in HU'. simplify_eq.
    unfold set_users. simpl. by rewrite UserModel_set_idem, insert_insert_eq.
  - destruct errors as [|err errors]; [|done].
    destruct (ObjectId.cast id) as [k|] eqn:Hcast;
      [destruct (projects db !! k) as [P|] eqn:HP|];
      [|assert (∀ j, ObjectId.cast id = Some j → projects db !! j = None) as Hn
          by (intros; congruence);
        by rewrite !(updateProject_unresolved _ _ _ _ _ Hn)..].
    rewrite (updateProject_run _ _ _ _ _ _ Hcast HP).
    destruct (negb (bool_decide (a_role user = "admin"))
              && negb (bool_decide (a_id user = p_manager P))) eqn:Hg.
    { cbn [fst]. rewrite (updateProject_run _ _ _ _ _ _ Hcast HP). by rewrite Hg. }
    destruct (ProjectModel.castFields _ db).2 as [e|f] eqn:Hf.
    { cbn [fst]. rewrite (updateProject_run _ _ _ _ _ _ Hcast HP).
      by rewrite Hg, Hf. }
    cbn [fst].
    assert (projects (set_projects <[k := ProjectModel.set f P]> db) !! k
            = Some (ProjectModel.set f P)) as HP1 by apply lookup_insert_eq.
    rewrite (updateProject_run _ _ _ _ _ _ Hcast HP1).
    split_if; [done|].
    rewrite (castFields_project_indep _ _ db), Hf. simpl.
    unfold set_projects. simpl.
    by rewrite ProjectModel_set_idem, insert_insert_eq.
  - destruct errors as [|err errors]; [|done].
    destruct (ObjectId.cast id) as [k|] eqn:Hcast;
      [destruct (tasks db !! k) as [T|] eqn:HT|];
      [|assert (∀ j, ObjectId.cast id = Some j → tasks db !! j = None) as Hn
          by (intros; congruence);
        by rewrite !(updateTask_unresolved _ _ _ _ _ Hn)..].
    destruct (projects db !! t_project T) as [P|] eqn:HP;
      [|by rewrite !(updateTask_dangling _ _ _ _ _ _ _ Hcast HT HP)].
    rewrite (updateTask_run _ _ _ _ _ _ _ Hcast HT HP).
    destruct (negb (bool_decide (a_role user = "admin"))
              && negb (bool_decide (p_manager P = a_id user))
              && negb (existsb (λ member, bool_decide (member = a_id user))
                               (p_team P))
              && negb (match t_assignedTo T with
                       | Some assignee => bool_decide (assignee = a_id user)
                       | None => false
                       end)) eqn:Hg.
    { cbn [fst]. rewrite (updateTask_run _ _ _ _ _ _ _ Hcast HT HP). by rewrite Hg. }
    destruct (TaskModel.castFields _ db).2 as [e|f] eqn:Hf.
    { cbn [fst]. rewrite (updateTask_run _ _ _ _ _ _ _ Hcast HT HP).
      by rewrite Hg, Hf. }
    cbn [fst].
    assert (tasks (set_tasks <[k := TaskModel.set f T]> db) !! k
            = Some (TaskModel.set f T)) as HT1 by apply lookup_insert_eq.
    assert (projects (set_tasks <[k := TaskModel.set f T]> db)
              !! t_project (TaskModel.set f T) = Some P) as HP1 by done.
    rewrite (updateTask_run _ _ _ _ _ _ _ Hcast HT1 HP1).
    split_if; [done|].
    rewrite (castFields_task_indep _ _ db), Hf. simpl.
    unfold set_tasks. simpl.
    by rewrite TaskModel_set_idem, insert_insert_eq.
Qed.

(** ** Updating a project *)

Lemma updateProject_guard user P :
  negb (bool_decide (a_role user = "admin"))
  && negb (bool_decide (a_id user = p_manager P)) = false
  ↔ a_role user = "admin" ∨ a_id user = p_manager P.
Proof.
  destruct (bool_decide_reflect (a_role user = "admin")),
    (bool_decide_reflect (a_id user = p_manager P)); simpl;
    split; try done; try tauto; try by intros [?|?].
Qed.

Lemma castFields_project_ok body db :
  project_refs_ok body →
  ∃ f, (ProjectModel.castFields (projectController.projectFields body) db).2
       = inr f
       ∧ ∀ P, ProjectModel.set f P = updated_project body P.
Proof.
  intros [Hm Ht].
  unfold ProjectModel.castFields, projectController.projectFields,
    updated_project, ProjectModel.set.
  unfold_monad. simpl.
  destruct (pick (pb_manager body)) as [m|]; simpl.
  - destruct (Hm m eq_refl) as [m' ->]. simpl.
    destruct (pb_team body) as [t|]; simpl.
    + destruct (Ht t eq_refl) as [t' ->]. simpl. by eexists.
    + by eexists.
  - destruct (pb_team body) as [t|]; simpl.
    + destruct (Ht t eq_refl) as [t' ->]. simpl. by eexists.
    + by eexists.
Qed.

(** X12.  On a project that exists, [updateProject] by an actor who is
    neither admin nor its manager answers 403 and changes nothing.  For an
    allowed actor: a truthy [manager] that does not cast to an ObjectId (it
    is neither 24 hexadecimal digits nor 12 characters) gives 404 "Project
    not found"; a [team] array with an element that does not cast is not
    answered 200; in both cases nothing is stored.  Otherwise the merged
    project is stored, with the ObjectIds the references denote, and the
    answer is 200 -- an empty [team] array empties the team, and neither the
    new manager nor the team members are looked up among the users. *)
Theorem updateProject_policy db user id body k P :
  ObjectId.cast id = Some k →
  projects db !! k = Some P →
  let allowed := a_role user = "admin" ∨ a_id user = p_manager P in
  (¬ allowed →
   projectController.updateProject user id [] body db
   = (db, status_json 403 "Not authorized to update this project"))
  ∧ (allowed → ∀ m, pick (pb_manager body) = Some m → ObjectId.cast m = None →
     projectController.updateProject user id [] body db
     = (db, status_json 404 "Project not found"))
  ∧ (allowed → ∀ t, pb_team body = Some t → mapM ObjectId.cast t = None →
     status (projectController.updateProject user id [] body db).2 ≠ 200
     ∧ (projectController.updateProject user id [] body db).1 = db)
  ∧ (allowed → project_refs_ok body →
     status (projectController.updateProject user id [] body db).2 = 200
     ∧ (projectController.updateProject user id [] body db).1
       = set_projects <[k := updated_project body P]> db).
Proof.
  intros Hcast HP allowed.
  rewrite (updateProject_run _ _ _ _ _ _ Hcast HP).
  pose proof (updateProject_guard user P) as Hguard.
  destruct (negb _ && negb _).
  { split_and!; [done|intros Hall..]; apply Hguard in Hall; discriminate. }
  split_and!.
  - intros Hnot. exfalso. by apply Hnot, Hguard.
  - intros _ m Hm Hbad.
    unfold ProjectModel.castFields, projectController.projectFields.
    unfold_monad. simpl. by rewrite Hm, Hbad.
  - intros _ t Ht Hbad.
    unfold ProjectModel.castFields, projectController.projectFields.
    unfold_monad. simpl. rewrite Ht, Hbad.
    destruct (pick (pb_manager body)) as [m|]; simpl; [|done].
    by destruct (ObjectId.cast m) as [m'|].
  - intros _ Hok.
    destruct (castFields_project_ok body db Hok) as (f & -> & Hset).
    simpl. by rewrite Hset.
Qed.

Lemma updateProject_policy_witness :
  let body := mkProjectBody (Some "") None None (Some []) None None None in
  ObjectId.cast p1 = Some p1
  ∧ projects db0 !! p1 = Some project1
  ∧ project_refs_ok body
  ∧ projects (projectController.updateProject manager2 p1 [] body db0).1 !! p1
    = Some (mkProject "Apollo" "Launch" u2 [] None None None).
Proof.
  intros body.
  assert (project_refs_ok body) as Hok.
  { split; [intros m Hm; discriminate|].
    intros t Ht. injection Ht as <-. by eexists. }
  split_and!; [reflexivity|reflexivity|exact Hok|].
  rewrite (proj2 (proj2 (proj2 (proj2
             (updateProject_policy db0 manager2 p1 body p1 project1
                eq_refl eq_refl))) (or_intror eq_refl) Hok)).
  reflexivity.
Defined.

(** ** Rights follow the stored state *)

(** X13.  The rights of a manager are read from the stored project at
    each request: once a manager who is not an admin has handed the project
    over to somebody else with [updateProject], that actor's further
    requests to update or delete the project or to change its team are
    answered 403. *)
Theorem manager_handover db user id body k P m m' :
  ObjectId.cast id = Some k →
  projects db !! k = Some P →
  a_role user ≠ "admin" →
  a_id user = p_manager P →
  project_refs_ok body →
  pick (pb_manager body) = Some m →
  ObjectId.cast m = Some m' →
  m' ≠ a_id user →
  let db' := (projectController.updateProject user id [] body db).1 in
  (∃ P', projects db' !! k = Some P' ∧ p_manager P' = m')
  ∧ (∀ body', projectController.updateProject user id [] body' db'
              = (db', status_json 403 "Not authorized to update this project"))
  ∧ projectController.deleteProject user id db'
    = (db', status_json 403 "Not authorized to delete this project")
  ∧ (∀ userId,
       projectController.addTeamMember user id userId db'
       = (db', status_json 403 "Not authorized to update this project")
       ∧ projectController.removeTeamMember user id userId db'
         = (db', status_json 403 "Not authorized to update this project")).
Proof.
  intros Hcast HP Hrole Hman Hok Hm Hm' Hne db'.
  assert (db' = set_projects <[k := updated_project body P]> db) as Hdb'.
  { subst db'. rewrite (updateProject_run _ _ _ _ _ _ Hcast HP).
    rewrite (proj2 (updateProject_guard user P)) by auto.
    destruct (castFields_project_ok body db Hok) as (f & -> & Hset).
    simpl. by rewrite Hset. }
  assert (projects db' !! k = Some (updated_project body P)) as HP'.
  { rewrite Hdb'. apply lookup_insert_eq. }
  assert (p_manager (updated_project body P) = m') as Hnew.
  { unfold updated_project. simpl. by rewrite Hm; simpl; rewrite Hm'. }
  assert (negb (bool_decide (a_role user = "admin"))
          && negb (bool_decide (a_id user = p_manager (updated_project body P)))
          = true) as Hdenied.
  { rewrite Hnew.
    rewrite (bool_decide_eq_false_2 _ Hrole).
    by rewrite bool_decide_eq_false_2 by congruence. }
  split_and!.
  - by eexists.
  - intros body'. rewrite (updateProject_run _ _ _ _ _ _ Hcast HP').
    by rewrite Hdenied.
  - rewrite (deleteProject_run _ _ _ _ _ Hcast HP'). by rewrite Hdenied.
  - intros userId. split.
    + rewrite (addTeamMember_run _ _ _ _ _ _ Hcast HP'). by rewrite Hdenied.
    + rewrite (removeTeamMember_run _ _ _ _ _ _ Hcast HP'). by rewrite Hdenied.
Qed.

Lemma manager_handover_witness :
  let body := mkProjectBody None None (Some u1) None None None None in
  let db' := (projectController.updateProject manager2 p1 [] body db0).1 in
  a_role manager2 ≠ "admin"
  ∧ a_id manager2 = p_manager project1
  ∧ project_refs_ok body
  ∧ projectController.deleteProject manager2 p1 db'
    = (db', status_json 403 "Not authorized to delete this project").
Proof.
  intros body db'.
  assert (a_role manager2 ≠ "admin") as Hrole by discriminate.
  assert (project_refs_ok body) as Hok.
  { split; [|intros t Ht; discriminate].
    intros m Hm. injection Hm as <-. by eexists. }
  split_and!; [exact Hrole|reflexivity|exact Hok|].
  exact (proj1 (proj2 (proj2
           (manager_handover db0 manager2 p1 body p1 project1 u1 u1
              eq_refl eq_refl Hrole eq_refl Hok eq_refl eq_refl
              ltac:(discriminate))))).
Defined.

(** X14.  Likewise for tasks: an assignee who is neither admin, manager
    of the project nor in its team and who assigns the task to somebody else
    with [updateTask] gets 403 on the next update of that task. *)
Theorem assignee_reassigns db user id body k T P a a' :
  ObjectId.cast id = Some k →
  tasks db !! k = Some T →
  projects db !! t_project T = Some P →
  a_role user ≠ "admin" →
  p_manager P ≠ a_id user →
  a_id user ∉ p_team P →
  t_assignedTo T = Some (a_id user) →
  pick (tb_assignedTo body) = Some a →
  ObjectId.cast a = Some a' →
  a' ≠ a_id user →
  let db' := (taskController.updateTask user id [] body db).1 in
  status (taskController.updateTask user id [] body db).2 = 200
  ∧ (t_assignedTo <$> tasks db' !! k = Some (Some a'))
  ∧ ∀ body', taskController.updateTask user id [] body' db'
             = (db', status_json 403 "Not authorized to update this task").
Proof.
  intros Hcast HT HP Hrole Hman Hteam Hass Ha Ha' Hne db'.
  assert ((TaskModel.castFields (taskController.taskFields body) db).2
          = inr (TaskModel.mkFields
                   (pick (tb_title body)) (pick (tb_description body)) (Some a')
                   (pick (tb_status body)) (pick (tb_priority body))
                   (pick (tb_dueDate body)))) as Hf.
  { unfold TaskModel.castFields, taskController.taskFields. unfold_monad.
    simpl. rewrite Ha. simpl. by rewrite Ha'. }
  pose proof (updateTask_run db user id body k T P Hcast HT HP) as Hrun.
  rewrite Hass, Hf in Hrun.
  rewrite (bool_decide_eq_true_2 (a_id user = a_id user)) in Hrun by done.
  rewrite !andb_false_r in Hrun.
  subst db'. rewrite Hrun. cbn [fst snd status json set_tasks tasks].
  split_and!; [done|by rewrite lookup_insert_eq|].
  intros body'.
  match goal with
  | |- context [set_tasks <[k := ?T1]> db] =>
      assert (tasks (set_tasks <[k := T1]> db) !! k = Some T1) as HT1
        by apply lookup_insert_eq;
      assert (projects (set_tasks <[k := T1]> db) !! t_project T1 = Some P)
        as HP1 by done;
      rewrite (updateTask_run _ user id body' k T1 P Hcast HT1 HP1)
  end.
  simpl.
  rewrite (bool_decide_eq_false_2 _ Hrole), (bool_decide_eq_false_2 _ Hman),
    (bool_decide_eq_false_2 _ Hne).
  by rewrite (proj2 (existsb_bool_decide_false _ _) Hteam).
Qed.

Lemma assignee_reassigns_witness :
  let body := mkTaskBody None None None (Some u1) None None None in
  let db' := (taskController.updateTask member3 t2 [] body db0).1 in
  a_role member3 ≠ "admin"
  ∧ t_assignedTo task2 = Some (a_id member3)
  ∧ taskController.updateTask member3 t2 [] body db'
    = (db', status_json 403 "Not authorized to update this task").
Proof.
  intros body db'.
  assert (a_role member3 ≠ "admin") as Hrole by discriminate.
  assert (a_id member3 ∉ p_team project1) as Hteam.
  { intros Hin. apply list_elem_of_singleton in Hin. discriminate. }
  split_and!; [exact Hrole|reflexivity|].
  exact (proj2 (proj2
           (assignee_reassigns db0 member3 t2 body t2 task2 project1 u1 u1
              eq_refl eq_refl eq_refl Hrole ltac:(discriminate) Hteam eq_refl
              eq_refl eq_refl ltac:(discriminate))) body).
Defined.

(** ** Team membership, continued *)

Lemma db_eta db : mkDb (users db) (projects db) (tasks db) = db.
Proof. by destruct db. Qed.

Lemma filter_out_last (u : string) (team : list string) :
  u ∉ team →
  List.filter (λ member, negb (bool_decide (member = u))) (team ++ [u]) = team.
Proof.
  intros Hnin. rewrite List.filter_app. simpl.
  rewrite (bool_decide_eq_true_2 (u = u)) by done. simpl. rewrite app_nil_r.
  induction team as [|x team IH]; [done|]. simpl.
  apply not_elem_of_cons in Hnin as [Hne Hnin].
  rewrite bool_decide_eq_false_2 by done. simpl. by rewrite IH.
Qed.

(** X15.  For an actor allowed to manage the team of an existing
    project, [addTeamMember] with a canonical id that is not in the team
    appends it and answers 200 -- the id is not looked up among the users --
    and the same request sent again is answered 400 "User already in team"
    without a second entry.  An id that does not cast to an ObjectId is
    answered 404 "Project or user not found" and nothing is stored; every
    other id that is not in the team as a string -- 24 hexadecimal digits in
    either case or 12 characters -- is answered 200 and the ObjectId it
    denotes is appended. *)
Theorem addTeamMember_adds db user id userId k P :
  ObjectId.cast id = Some k →
  projects db !! k = Some P →
  a_role user = "admin" ∨ a_id user = p_manager P →
  userId ∉ p_team P →
  let db' := (projectController.addTeamMember user id userId db).1 in
  (ObjectId.canonical userId →
   status (projectController.addTeamMember user id userId db).2 = 200
   ∧ db' = set_projects
             <[k := projectController.with_team (p_team P ++ [userId]) P]> db
   ∧ projectController.addTeamMember user id userId db'
     = (db', status_json 400 "User already in team"))
  ∧ (ObjectId.cast userId = None →
     projectController.addTeamMember user id userId db
     = (db, status_json 404 "Project or user not found"))
  ∧ (∀ member, ObjectId.cast userId = Some member →
       status (projectController.addTeamMember user id userId db).2 = 200
       ∧ db' = set_projects
                 <[k := projectController.with_team (p_team P ++ [member]) P]> db).
Proof.
  intros Hcast HP Hall Hnin db'. subst db'.
  rewrite (addTeamMember_run _ _ _ _ _ _ Hcast HP).
  rewrite (proj2 (updateProject_guard user P) Hall).
  rewrite (proj2 (existsb_bool_decide_false _ _) Hnin).
  split_and!.
  - intros Hcan. rewrite Hcan. cbn [fst snd status json]. split_and!; [done..|].
    match goal with
    | |- context [set_projects <[k := ?P1]> db] =>
        assert (projects (set_projects <[k := P1]> db) !! k = Some P1) as HP1
          by apply lookup_insert_eq;
        rewrite (addTeamMember_run _ user id userId k P1 Hcast HP1)
    end.
    simpl. rewrite (proj2 (updateProject_guard user P) Hall).
    assert (userId ∈ (p_team P ++ [userId])%list) as Hin
      by (apply elem_of_app; right; left).
    by rewrite (proj2 (existsb_bool_decide_eq _ _) Hin).
  - by intros ->.
  - by intros member ->.
Qed.

Lemma addTeamMember_adds_witness :
  ObjectId.cast p1 = Some p1
  ∧ projects db0 !! p1 = Some project1
  ∧ ObjectId.canonical u3
  ∧ p_team <$> projects (projectController.addTeamMember manager2 p1 u3 db0).1 !! p1
    = Some [u1; u3].
Proof.
  assert (u3 ∉ p_team project1) as Hnin.
  { intros Hin. apply list_elem_of_singleton in Hin. discriminate. }
  split_and!; [reflexivity..|].
  rewrite (proj1 (proj2 (proj1
             (addTeamMember_adds db0 manager2 p1 u3 p1 project1 eq_refl eq_refl
                (or_intror eq_refl) Hnin) eq_refl))).
  reflexivity.
Defined.

(** X16.  Adding a member and removing it again restores the storage:
    for an allowed actor and a canonical id that was not in the team,
    [removeTeamMember] after [addTeamMember] answers 200 and leaves the
    storage as it was before the two requests. *)
Theorem addTeamMember_then_remove db user id userId k P :
  ObjectId.cast id = Some k →
  projects db !! k = Some P →
  a_role user = "admin" ∨ a_id user = p_manager P →
  userId ∉ p_team P →
  ObjectId.canonical userId →
  let db' := (projectController.addTeamMember user id userId db).1 in
  status (projectController.removeTeamMember user id userId db').2 = 200
  ∧ (projectController.removeTeamMember user id userId db').1 = db.
Proof.
  intros Hcast HP Hall Hnin Hcan db'.
  assert (db' = set_projects
                  <[k := projectController.with_team (p_team P ++ [userId]) P]> db)
    as ->.
  { subst db'. rewrite (addTeamMember_run _ _ _ _ _ _ Hcast HP).
    rewrite (proj2 (updateProject_guard user P) Hall).
    rewrite (proj2 (existsb_bool_decide_false _ _) Hnin). by rewrite Hcan. }
  match goal with
  | |- context [set_projects <[k := ?P1]> db] =>
      assert (projects (set_projects <[k := P1]> db) !! k = Some P1) as HP1
        by apply lookup_insert_eq;
      rewrite (removeTeamMember_run _ user id userId k P1 Hcast HP1)
  end.
  cbn [p_manager p_team projectController.with_team].
  rewrite (proj2 (updateProject_guard user P) Hall).
  assert (userId ∈ (p_team P ++ [userId])%list) as Hin
    by (apply elem_of_app; right; left).
  rewrite (proj2 (existsb_bool_decide_eq _ _) Hin).
  cbn [negb fst snd status json]. split; [done|].
  rewrite (filter_out_last _ _ Hnin).
  unfold set_projects, projectController.with_team. simpl.
  rewrite insert_insert_eq.
  assert (mkProject (p_name P) (p_description P) (p_manager P) (p_team P)
                    (p_status P) (p_startDate P) (p_endDate P) = P) as ->
    by by destruct P.
  rewrite (insert_id _ _ _ HP). apply db_eta.
Qed.

Lemma addTeamMember_then_remove_witness :
  ObjectId.canonical u3
  ∧ (projectController.removeTeamMember manager2 p1 u3
       (projectController.addTeamMember manager2 p1 u3 db0).1).1 = db0.
Proof.
  assert (u3 ∉ p_team project1) as Hnin.
  { intros Hin. apply list_elem_of_singleton in Hin. discriminate. }
  split; [reflexivity|].
  exact (proj2 (addTeamMember_then_remove db0 manager2 p1 u3 p1 project1
                  eq_refl eq_refl (or_intror eq_refl) Hnin eq_refl)).
Defined.

(** X17.  For an actor allowed to manage the team of an existing
    project, [removeTeamMember] with an id that is not in the team (compared
    as a string, without casting) answers 400 "User not in team" and changes
    nothing; with an id that is in the team it answers 200 and stores the
    team without that id, the other members in their order. *)
Theorem removeTeamMember_removes db user id userId k P :
  ObjectId.cast id = Some k →
  projects db !! k = Some P →
  a_role user = "admin" ∨ a_id user = p_manager P →
  (userId ∉ p_team P →
   projectController.removeTeamMember user id userId db
   = (db, status_json 400 "User not in team"))
  ∧ (userId ∈ p_team P →
     status (projectController.removeTeamMember user id userId db).2 = 200
     ∧ ∃ P', projects (projectController.removeTeamMember user id userId db).1 !! k
             = Some P'
             ∧ p_team P' = List.filter (λ member, negb (bool_decide (member = userId)))
                             (p_team P)
             ∧ (userId ∉ p_team P')
             ∧ (∀ x, x ≠ userId → (x ∈ p_team P' ↔ x ∈ p_team P))
             ∧ p_manager P' = p_manager P ∧ p_name P' = p_name P).
Proof.
  intros Hcast HP Hall.
  rewrite (removeTeamMember_run _ _ _ _ _ _ Hcast HP).
  rewrite (proj2 (updateProject_guard user P) Hall).
  split.
  - intros Hnin. by rewrite (proj2 (existsb_bool_decide_false _ _) Hnin).
  - intros Hin. rewrite (proj2 (existsb_bool_decide_eq _ _) Hin).
    cbn [negb fst snd status json]. split; [done|].
    eexists. split; [apply lookup_insert_eq|]. simpl.
    assert (∀ x, x ∈ List.filter (λ member, negb (bool_decide (member = userId)))
                       (p_team P) ↔ x ∈ p_team P ∧ x ≠ userId) as Hf.
    { intros x. rewrite !list_elem_of_In, filter_In, negb_true_iff.
      by rewrite bool_decide_eq_false. }
    split_and!; try done.
    + intros Hx. by apply Hf in Hx as [_ ?].
    + intros x Hne. rewrite Hf. tauto.
Qed.

Lemma removeTeamMember_removes_witness :
  ObjectId.cast p1 = Some p1
  ∧ projects db0 !! p1 = Some project1
  ∧ projectController.removeTeamMember manager2 p1 u3 db0
    = (db0, status_json 400 "User not in team").
Proof.
  assert (u3 ∉ p_team project1) as Hnin.
  { intros Hin. apply list_elem_of_singleton in Hin. discriminate. }
  split_and!; [reflexivity..|].
  exact (proj1 (removeTeamMember_removes db0 manager2 p1 u3 p1 project1
                  eq_refl eq_refl (or_intror eq_refl)) Hnin).
Defined.

(** ** Creating a project, continued *)

Lemma privileged_roles role :
  bool_decide (role ∈ ["admin"; "manager"])
  = bool_decide (role = "admin") || bool_decide (role = "manager").
Proof.
  destruct (bool_decide_reflect (role = "admin")) as [->|Ha]; [done|].
  destruct (bool_decide_reflect (role = "manager")) as [->|Hm]; [done|].
  apply bool_decide_eq_false_2. intros Hin.
  apply elem_of_cons in Hin as [?|Hin]; [done|].
  by apply list_elem_of_singleton in Hin.
Qed.

(** What the route of [createProject] does for an admin or a manager. *)
Lemma createProject_run db oid user body :
  a_role user = "admin" ∨ a_role user = "manager" →
  routes.dispatch (routes.CreateProject oid user body) db
  = if truthy (pb_name body) && truthy (pb_description body) then
      match ObjectId.cast (default (a_id user) (pick (pb_manager body))),
            mapM ObjectId.cast (default [] (pb_team body)) with
      | Some m, Some t =>
          (set_projects
             <[oid := mkProject (default "" (pb_name body))
                        (default "" (pb_description body)) m t (pb_status body)
                        (pb_startDate body) (pb_endDate body)]> db,
           server_error)
      | _, _ => (db, server_error)
      end
    else (db, mkResponse 400
                (Errors (routes.notEmpty "Name is required" (pb_name body)
                         ++ routes.notEmpty "Description is required"
                              (pb_description body)))).
Proof.
  intros Hrole. cbn [routes.dispatch]. unfold authorize.
  rewrite privileged_roles.
  assert (bool_decide (a_role user = "admin")
          || bool_decide (a_role user = "manager") = true) as Hpriv.
  { destruct Hrole as [H|H]; rewrite (bool_decide_eq_true_2 _ H); simpl;
      by rewrite ?orb_true_r. }
  rewrite Hpriv. cbn [negb].
  unfold routes.notEmpty.
  destruct (truthy (pb_name body)) eqn:Hn;
    destruct (truthy (pb_description body)) eqn:Hd; try done.
  cbn [andb app]. unfold projectController.createProject, validated.
  assert (negb (bool_decide (a_role user = "admin"))
          && negb (bool_decide (a_role user = "manager")) = false) as ->.
  { rewrite <- negb_orb. by rewrite Hpriv. }
  destruct (pb_name body) as [n|]; [|done].
  destruct (pb_description body) as [d|]; [|done].
  unfold ProjectModel.create, ProjectModel.findById_populated,
    ProjectModel.findById.
  unfold_monad. simpl.
  destruct (ObjectId.cast (default (a_id user) (pick (pb_manager body))))
    as [m|]; simpl; [|done].
  destruct (mapM ObjectId.cast (default [] (pb_team body))) as [t|]; simpl;
    [|done].
  by destruct (ObjectId.cast oid) as [o|].
Qed.

(** X18.  Through its route [createProject] never answers 200.  An actor
    whose role is neither admin nor manager is stopped by the middleware
    (403 "Access denied: insufficient permissions", so the handler's own 403
    message is never sent); an empty or missing name or description gives 400
    with nothing stored; and a request that passes both checks stores the
    project -- with the actor as manager when the payload names none -- and
    is then answered 500. *)
Theorem createProject_route db oid user body :
  let out := routes.dispatch (routes.CreateProject oid user body) db in
  status out.2 ≠ 200
  ∧ payload out.2 ≠ Msg "Not authorized to create projects"
  ∧ (unprivileged (a_role user) →
     out = (db, status_json 403 "Access denied: insufficient permissions"))
  ∧ (a_role user = "admin" ∨ a_role user = "manager" →
     truthy (pb_name body) = false ∨ truthy (pb_description body) = false →
     status out.2 = 400 ∧ out.1 = db)
  ∧ (a_role user = "admin" ∨ a_role user = "manager" →
     ∀ name description m t,
       pb_name body = Some name → name ≠ "" →
       pb_description body = Some description → description ≠ "" →
       ObjectId.cast (default (a_id user) (pick (pb_manager body))) = Some m →
       mapM ObjectId.cast (default [] (pb_team body)) = Some t →
       out.2 = server_error
       ∧ out.1 = set_projects
                   <[oid := mkProject name description m t (pb_status body)
                              (pb_startDate body) (pb_endDate body)]> db).
Proof.
  intros out.
  assert (unprivileged (a_role user) →
          out = (db, status_json 403 "Access denied: insufficient permissions"))
    as Hunpriv.
  { intros [Ha Hm]. subst out. cbn [routes.dispatch]. unfold authorize.
    rewrite privileged_roles.
    by rewrite (bool_decide_eq_false_2 _ Ha), (bool_decide_eq_false_2 _ Hm). }
  assert (a_role user = "admin" ∨ a_role user = "manager"
          ∨ unprivileged (a_role user)) as Hcases.
  { unfold unprivileged.
    destruct (decide (a_role user = "admin")), (decide (a_role user = "manager"));
      auto. }
  assert (a_role user = "admin" ∨ a_role user = "manager" →
          status out.2 ≠ 200
          ∧ payload out.2 ≠ Msg "Not authorized to create projects") as Hpriv.
  { intros Hrole. subst out. rewrite (createProject_run _ _ _ _ Hrole).
    split_if; [|done].
    by destruct (ObjectId.cast (default (a_id user) (pick (pb_manager body)))),
      (mapM ObjectId.cast (default [] (pb_team body))). }
  split_and!.
  - destruct Hcases as [H|[H|H]]; [by apply Hpriv; auto..|].
    by rewrite (Hunpriv H).
  - destruct Hcases as [H|[H|H]]; [by apply Hpriv; auto..|].
    by rewrite (Hunpriv H).
  - exact Hunpriv.
  - intros Hrole Hempty. subst out. rewrite (createProject_run _ _ _ _ Hrole).
    by destruct Hempty as [-> | ->]; rewrite ?andb_false_r.
  - intros Hrole name description m t Hn Hnne Hd Hdne Hm Ht. subst out.
    rewrite (createProject_run _ _ _ _ Hrole). rewrite Hn, Hd, Hm, Ht. simpl.
    by rewrite !bool_decide_eq_false_2 by done.
Qed.

Lemma createProject_route_witness :
  let body := mkProjectBody (Some "Hermes") (Some "Courier")
                            None None None None None in
  let out := routes.dispatch (routes.CreateProject p2 manager2 body) db0 in
  (a_role manager2 = "admin" ∨ a_role manager2 = "manager")
  ∧ out.2 = server_error
  ∧ out.1 = set_projects
              <[p2 := mkProject "Hermes" "Courier" u2 [] None None None]> db0.
Proof.
  intros body out.
  split; [by right|].
  exact (proj2 (proj2 (proj2 (proj2
           (createProject_route db0 p2 manager2 body)))) (or_intror eq_refl)
           "Hermes" "Courier" u2 [] eq_refl ltac:(discriminate) eq_refl
           ltac:(discriminate) eq_refl eq_refl).
Defined.

(** ** Users *)

(** What [getUserById] and [deleteUser] do on a user that exists. *)
Lemma getUserById_run db user id k U :
  ObjectId.cast id = Some k →
  users db !! k = Some U →
  userController.getUserById user id db
  = (db,
     if negb (bool_decide (a_id user = id))
        && negb (bool_decide (a_role user ∈ ["admin"; "manager"]))
     then status_json 403 "Not authorized to view this user"
     else json (OneUser (UserModel.doc (k, U)))).
Proof.
  intros Hcast HU. unfold userController.getUserById, UserModel.findById.
  unfold_monad. rewrite Hcast. simpl. rewrite HU. simpl. by split_if.
Qed.

Lemma deleteUser_run db user id k U :
  ObjectId.cast id = Some k →
  users db !! k = Some U →
  userController.deleteUser user id db
  = if negb (bool_decide (a_id user = id))
       && negb (bool_decide (a_role user = "admin"))
    then (db, status_json 403 "Not authorized to delete this user")
    else (set_users (delete k) db, json (Msg "User removed")).
Proof.
  intros Hcast HU.
  unfold userController.deleteUser, UserModel.findById,
    UserModel.findByIdAndRemove.
  unfold_monad. rewrite Hcast. simpl. rewrite HU. simpl. by split_if.
Qed.

(** X19.  [getUserById] on a user that exists answers 200 with the
    document without the password for the user itself, an admin and an actor
    of role manager, and 403 for everybody else.  As an id that resolves to
    nothing is answered 404 before the rights are looked at, the two answers
    tell any actor whether the id is that of a user. *)
Theorem getUserById_policy db user id k U :
  ObjectId.cast id = Some k →
  users db !! k = Some U →
  let allowed :=
    a_id user = id ∨ a_role user = "admin" ∨ a_role user = "manager" in
  (allowed →
   userController.getUserById user id db
   = (db, json (OneUser (mkUserDoc k (u_name U) (u_email U) (u_role U)))))
  ∧ (¬ allowed →
     userController.getUserById user id db
     = (db, status_json 403 "Not authorized to view this user")).
Proof.
  intros Hcast HU allowed. subst allowed.
  rewrite (getUserById_run _ _ _ _ _ Hcast HU), privileged_roles.
  destruct (bool_decide_reflect (a_id user = id)),
    (bool_decide_reflect (a_role user = "admin")),
    (bool_decide_reflect (a_role user = "manager")); simpl;
    split; try done; tauto.
Qed.

Lemma getUserById_policy_witness :
  ObjectId.cast u1 = Some u1
  ∧ users db0 !! u1 = Some (mkUser "Ann" "ann@x.io" "h1" "member")
  ∧ userController.getUserById member3 u1 db0
    = (db0, status_json 403 "Not authorized to view this user").
Proof.
  split_and!; [reflexivity..|].
  apply (getUserById_policy db0 member3 u1 u1 _ eq_refl eq_refl).
  intros [H|[H|H]]; discriminate.
Defined.

(** X20.  [deleteUser] on a user that exists answers 200 for the user
    itself and for an admin, and 403 for everybody else.  It removes the user
    document and nothing else: projects the user manages or is a team member
    of and tasks assigned to or created by the user keep their references. *)
Theorem deleteUser_policy db user id k U :
  ObjectId.cast id = Some k →
  users db !! k = Some U →
  let allowed := a_id user = id ∨ a_role user = "admin" in
  (allowed →
   userController.deleteUser user id db
   = (mkDb (delete k (users db)) (projects db) (tasks db),
      json (Msg "User removed")))
  ∧ (¬ allowed →
     userController.deleteUser user id db
     = (db, status_json 403 "Not authorized to delete this user")).
Proof.
  intros Hcast HU allowed. subst allowed.
  rewrite (deleteUser_run _ _ _ _ _ Hcast HU).
  destruct (bool_decide_reflect (a_id user = id)),
    (bool_decide_reflect (a_role user = "admin")); simpl;
    split; try done; tauto.
Qed.

Lemma deleteUser_policy_witness :
  ObjectId.cast u2 = Some u2
  ∧ users db0 !! u2 = Some (mkUser "Bob" "bob@x.io" "h2" "manager")
  ∧ (let db' := (userController.deleteUser manager2 u2 db0).1 in
     users db' !! u2 = None
     ∧ p_manager <$> projects db' !! p1 = Some u2).
Proof.
  split_and!; [reflexivity..|].
  rewrite (proj1 (deleteUser_policy db0 manager2 u2 u2 _ eq_refl eq_refl)
             (or_introl eq_refl)).
  split; reflexivity.
Defined.

(** X21.  The handlers never look the actor up among the users: after
    removing the own account, an actor who presents the same identity still
    has the rights of a manager on the projects that reference it, and can
    update and delete them. *)
Theorem removed_account_keeps_rights db user id k P U :
  authenticated user →
  users db !! a_id user = Some U →
  ObjectId.cast id = Some k →
  projects db !! k = Some P →
  a_id user = p_manager P →
  let db' := (userController.deleteUser user (a_id user) db).1 in
  users db' !! a_id user = None
  ∧ (∀ body, project_refs_ok body →
       status (projectController.updateProject user id [] body db').2 = 200)
  ∧ status (projectController.deleteProject user id db').2 = 200.
Proof.
  intros Hauth HU Hcast HP Hman db'.
  assert (db' = set_users (delete (a_id user)) db) as ->.
  { subst db'. rewrite (deleteUser_run _ _ _ _ _ Hauth HU).
    by rewrite (bool_decide_eq_true_2 (a_id user = a_id user)). }
  assert (projects (set_users (delete (a_id user)) db) !! k = Some P) as HP'
    by done.
  split_and!.
  - apply lookup_delete_eq.
  - intros body Hok. rewrite (updateProject_run _ _ _ _ _ _ Hcast HP').
    rewrite (proj2 (updateProject_guard user P)) by auto.
    by destruct (castFields_project_ok body
                   (set_users (delete (a_id user)) db) Hok) as (f & -> & _).
  - rewrite (deleteProject_run _ _ _ _ _ Hcast HP').
    by rewrite (proj2 (updateProject_guard user P)) by auto.
Qed.

Lemma removed_account_keeps_rights_witness :
  let db' := (userController.deleteUser manager2 (a_id manager2) db0).1 in
  authenticated manager2
  ∧ a_id manager2 = p_manager project1
  ∧ users db' !! a_id manager2 = None
  ∧ status (projectController.deleteProject manager2 p1 db').2 = 200.
Proof.
  intros db'.
  pose proof (removed_account_keeps_rights db0 manager2 p1 p1 project1 _
                eq_refl eq_refl eq_refl eq_refl eq_refl) as (Hgone & _ & Hdel).
  split_and!; [reflexivity|reflexivity|exact Hgone|exact Hdel].
Defined.

(** X22.  [getCurrentUser] answers 200 with the stored document of the
    actor, whose role is the stored one and not the one of the token; when
    the account no longer exists the answer is still 200, with [null]. *)
Theorem getCurrentUser_answers db user :
  authenticated user →
  (∀ U, users db !! a_id user = Some U →
        authController.getCurrentUser user db
        = (db, json (OneUser (mkUserDoc (a_id user) (u_name U) (u_email U)
                                        (u_role U)))))
  ∧ (users db !! a_id user = None →
     authController.getCurrentUser user db = (db, json Null)).
Proof.
  intros Hauth. unfold authController.getCurrentUser, UserModel.findById.
  unfold_monad. rewrite Hauth. simpl.
  split; [intros U HU|intros HU]; by rewrite HU.
Qed.

Lemma getCurrentUser_answers_witness :
  let db' := (userController.deleteUser manager2 u2 db0).1 in
  authenticated manager2
  ∧ users db' !! a_id manager2 = None
  ∧ authController.getCurrentUser manager2 db' = (db', json Null).
Proof.
  intros db'.
  assert (users db' !! a_id manager2 = None) as Hgone by reflexivity.
  split_and!; [reflexivity|exact Hgone|].
  exact (proj2 (getCurrentUser_answers db' manager2 eq_refl) Hgone).
Defined.

(** X23.  The route of [getUsers] lets admins and managers through and
    answers every other role with the middleware's 403; what it lists is
    every stored user, each once, without the password. *)
Theorem getUsers_route db user :
  (unprivileged (a_role user) →
   routes.dispatch (routes.GetUsers user) db
   = (db, status_json 403 "Access denied: insufficient permissions"))
  ∧ (a_role user = "admin" ∨ a_role user = "manager" →
     ∃ us, routes.dispatch (routes.GetUsers user) db = (db, json (ManyUsers us))
           ∧ NoDup (ud_id <$> us)
           ∧ ∀ d, d ∈ us
                  ↔ ∃ k U, users db !! k = Some U
                           ∧ d = mkUserDoc k (u_name U) (u_email U) (u_role U)).
Proof.
  cbn [routes.dispatch]. unfold authorize. rewrite privileged_roles. split.
  - intros [Ha Hm].
    by rewrite (bool_decide_eq_false_2 _ Ha), (bool_decide_eq_false_2 _ Hm).
  - intros Hrole.
    assert (bool_decide (a_role user = "admin")
            || bool_decide (a_role user = "manager") = true) as ->.
    { destruct Hrole as [H|H]; rewrite (bool_decide_eq_true_2 _ H); simpl;
        by rewrite ?orb_true_r. }
    cbn [negb]. unfold userController.getUsers, UserModel.find. unfold_monad.
    simpl. eexists. split; [reflexivity|]. split.
    + assert (∀ l : list (string * User),
                ud_id <$> (UserModel.doc <$> l) = fst <$> l) as ->.
      { intros l. rewrite <- list_fmap_compose. by apply list_fmap_ext. }
      apply NoDup_fst_map_to_list.
    + intros d. rewrite list_elem_of_fmap. split.
      * intros ([k U] & -> & Hin). apply elem_of_map_to_list in Hin.
        by exists k, U.
      * intros (k & U & HU & ->). exists (k, U). split; [done|].
        by apply elem_of_map_to_list.
Qed.

Lemma getUsers_route_witness :
  unprivileged (a_role member1)
  ∧ routes.dispatch (routes.GetUsers member1) db0
    = (db0, status_json 403 "Access denied: insufficient permissions").
Proof.
  assert (unprivileged (a_role member1)) as Hun by (split; discriminate).
  split; [exact Hun|].
  exact (proj1 (getUsers_route db0 member1) Hun).
Defined.

(** ** After a project is deleted *)

(** X24.  Once [deleteProject] has succeeded, the project and the tasks
    it had are gone for everybody, admins included: [getProjectById] on its
    id and [getTaskById] on the id of any of its former tasks answer 404, and
    a task can no longer be created in it. *)
Theorem deleted_project_is_gone db user id k P :
  ObjectId.cast id = Some k →
  projects db !! k = Some P →
  a_role user = "admin" ∨ a_id user = p_manager P →
  let db' := (projectController.deleteProject user id db).1 in
  status (projectController.deleteProject user id db).2 = 200
  ∧ (∀ actor, projectController.getProjectById actor id db'
              = (db', status_json 404 "Project not found"))
  ∧ (∀ actor tid tk T,
       ObjectId.cast tid = Some tk → tasks db !! tk = Some T → t_project T = k →
       taskController.getTaskById actor tid db'
       = (db', status_json 404 "Task not found"))
  ∧ (∀ actor oid body,
       tb_project body = Some id →
       taskController.createTask oid actor [] body db'
       = (db', status_json 404 "Project not found")).
Proof.
  intros Hcast HP Hall db'. subst db'.
  rewrite (deleteProject_run _ _ _ _ _ Hcast HP).
  rewrite (proj2 (updateProject_guard user P) Hall).
  cbn [fst snd status json].
  split_and!; [done|..].
  - intros actor.
    unfold projectController.getProjectById, ProjectModel.findById_populated,
      ProjectModel.findById.
    unfold_monad. rewrite Hcast. simpl. by rewrite lookup_delete_eq.
  - intros actor tid tk T Htid HT Hproj.
    apply (getTaskById_unresolved _ _ _ tk Htid). simpl.
    apply map_lookup_filter_None. right. intros T' HT'. simpl.
    rewrite HT in HT'. injection HT' as <-. by intros Hne.
  - intros actor oid body Hbody.
    apply (createTask_unresolved _ _ _ _ id k Hbody Hcast). simpl.
    apply lookup_delete_eq.
Qed.

Lemma deleted_project_is_gone_witness :
  let db' := (projectController.deleteProject admin p1 db0).1 in
  ObjectId.cast p1 = Some p1
  ∧ projects db0 !! p1 = Some project1
  ∧ taskController.getTaskById admin t1 db'
    = (db', status_json 404 "Task not found").
Proof.
  intros db'. split_and!; [reflexivity..|].
  exact (proj1 (proj2 (proj2
           (deleted_project_is_gone db0 admin p1 p1 project1 eq_refl eq_refl
              (or_introl eq_refl)))) admin t1 t1 task1 eq_refl eq_refl eq_refl).
Defined.

(** ** Roles over a sequence of requests *)

Lemma roles_kept_refl db : roles_kept db db.
Proof. intros k U HU. by exists U. Qed.

Lemma roles_kept_trans db1 db2 db3 :
  roles_kept db1 db2 → roles_kept db2 db3 → roles_kept db1 db3.
Proof.
  intros H12 H23 k U3 HU3.
  destruct (H23 k U3 HU3) as (U2 & HU2 & Hr23).
  destruct (H12 k U2 HU2) as (U1 & HU1 & Hr12).
  exists U1. split; [done|]. congruence.
Qed.

Lemma roles_kept_users db db' : users db' = users db → roles_kept db db'.
Proof. intros Heq k U HU. exists U. by rewrite <- Heq. Qed.

Lemma deleteUser_storage db user id :
  (userController.deleteUser user id db).1 = db
  ∨ ∃ k, (userController.deleteUser user id db).1 = set_users (delete k) db.
Proof.
  apply (frame_intro _ (λ db', db' = db ∨ ∃ k, db' = set_users (delete k) db)).
  unfold userController.deleteUser. run_paths; try by left.
  all: right; by eexists.
Qed.

Lemma dispatch_roles_kept r db :
  a_role (actor_of r) ≠ "admin" →
  roles_kept db (routes.dispatch r db).1.
Proof.
  intros Hrole.
  destruct r; cbn [routes.dispatch actor_of] in *.
  all: try (unfold authorize; split_if; [apply roles_kept_refl|]).
  all: try (apply roles_kept_users;
            first [ by rewrite getUsers_frame | by rewrite getUserById_frame
                  | by rewrite getProjects_frame | by rewrite getProjectById_frame
                  | by rewrite getTasks_frame | by rewrite getTaskById_frame
                  | apply createProject_frame | apply updateProject_frame
                  | apply addTeamMember_frame | apply removeTeamMember_frame
                  | apply deleteProject_frame
                  | apply createTask_frame | apply updateTask_frame
                  | apply deleteTask_frame ]).
  - destruct (updateUser_storage_at db user id emailErrors body)
      as [->|(k & U & _ & HU & ->)]; [apply roles_kept_refl|].
    rewrite (userFields_non_admin _ _ Hrole).
    intros j U' HU'. simpl in HU'.
    destruct (decide (k = j)) as [->|Hne].
    + rewrite lookup_insert_eq in HU'. injection HU' as <-. by exists U.
    + rewrite lookup_insert_ne in HU' by done. by exists U'.
  - destruct (deleteUser_storage db user id) as [->|[k ->]];
      [apply roles_kept_refl|].
    intros j U' HU'. simpl in HU'.
    apply lookup_delete_Some in HU' as [_ HU']. by exists U'.
Qed.

(** X25.  No sequence of requests to the user, project and task routes
    made by actors who are not admins changes the role of a stored user or
    adds a user: every user present afterwards was present before with the
    same role. *)
Theorem non_admins_keep_roles rs db :
  Forall (λ r, a_role (actor_of r) ≠ "admin") rs →
  roles_kept db (routes.serve rs db).1.
Proof.
  revert db. induction rs as [|r rs IH]; intros db Hrs.
  { apply roles_kept_refl. }
  apply Forall_cons in Hrs as [Hr Hrs]. simpl.
  pose proof (dispatch_roles_kept r db Hr) as Hstep.
  destruct (routes.dispatch r db) as [db1 resp]. simpl in Hstep.
  specialize (IH db1 Hrs).
  destruct (routes.serve rs db1) as [db2 resps]. simpl in *.
  by eapply roles_kept_trans.
Qed.

Lemma non_admins_keep_roles_witness :
  let rs := [routes.UpdateUser member1 u1 []
               (mkUserBody None None (Some "admin"));
             routes.UpdateUser manager2 u1 []
               (mkUserBody None None (Some "admin"))] in
  Forall (λ r, a_role (actor_of r) ≠ "admin") rs
  ∧ roles_kept db0 (routes.serve rs db0).1.
Proof.
  intros rs.
  assert (Forall (λ r, a_role (actor_of r) ≠ "admin") rs) as Hrs.
  { repeat constructor; discriminate. }
  split; [exact Hrs|].
  exact (non_admins_keep_roles rs db0 Hrs).
Defined.

(** ** Tasks and their projects *)

Lemma tasks_resolve_db0 : tasks_resolve db0.
Proof.
  unfold tasks_resolve. simpl.
  repeat (apply map_Forall_insert_2; [by eexists|]). apply map_Forall_empty.
Qed.

Lemma serve_tasks_resolve_witness :
  tasks_resolve db0
  ∧ tasks_resolve
      (routes.serve [routes.DeleteProject manager2 p1;
                     routes.UpdateTask admin t1 noTaskBody] db0).1.
Proof.
  split; [exact tasks_resolve_db0|].
  exact (serve_tasks_resolve _ db0 tasks_resolve_db0).
Defined.
